(** * The Timeline component of the Grapher (charts/HTMLTimeline.tsx)

    A shallow embedding of the [Timeline] class: its observable state, its
    computed accessors, the drag and playback handlers, and the small part of
    the browser and of MobX that decides when its callbacks run.

    Numbers.  The component computes with JavaScript numbers.  Years, pointer
    positions and frame times are modelled as exact rationals ([Q]); a time
    bound is a rational or one of the two unbounded sentinels.  Rounding of
    floating point is not modelled, and wherever the JavaScript arithmetic
    would leave this domain (an array read past its end, a division by a
    zero-width slider) the modelled function returns [None]. *)

From Stdlib Require Import QArith Qminmax Qabs Lqa ZArith Lia List Bool String.
From Stdlib Require Import Qround Ascii Permutation Sorted.
Import ListNotations.
Open Scope Q_scope.

(** [a ?? b] of TypeScript: the left operand unless it is undefined. *)
Definition nullish {A : Type} (o : option A) (d : A) : A :=
  match o with
  | Some a => a
  | None => d
  end.

Notation "o ?? d" := (nullish o d) (at level 45, left associativity).

(** [x < y] on numbers, as a boolean. *)
Definition Qlt_bool (x y : Q) : bool := negb (Qle_bool y x).

(** ** ./TimeBounds *)
Module TimeBounds.

Definition Time := Q.

(** Modelled from the spec: the type [TimeBound] and the enum
    [TimeBoundValue] of ./TimeBounds, which is not among the sources.  A
    bound is "either a concrete Year, or one of two sentinel values meaning
    unbounded left or unbounded right".  The source applies [Math.min] and
    [Math.max] to bounds, so the sentinels are numbers; they are taken
    below, respectively above, every concrete year. *)
Inductive TimeBound : Type :=
| unboundedLeft
| concrete (t : Time)
| unboundedRight.

(** Modelled from the spec: [isUnboundedLeft], [isUnboundedRight] and
    [isUnbounded] of ./TimeBounds recognise the sentinels. *)
Definition isUnboundedLeft (b : TimeBound) : bool :=
  match b with unboundedLeft => true | _ => false end.

Definition isUnboundedRight (b : TimeBound) : bool :=
  match b with unboundedRight => true | _ => false end.

Definition isUnbounded (b : TimeBound) : bool :=
  isUnboundedLeft b || isUnboundedRight b.

(** [a <= b] on bounds read as numbers. *)
Definition leb (a b : TimeBound) : bool :=
  match a, b with
  | unboundedLeft, _ => true
  | _, unboundedRight => true
  | concrete x, concrete y => Qle_bool x y
  | _, _ => false
  end.

Definition le (a b : TimeBound) : Prop := leb a b = true.

(** [a === b] on bounds read as numbers. *)
Definition eqb (a b : TimeBound) : bool :=
  match a, b with
  | unboundedLeft, unboundedLeft => true
  | unboundedRight, unboundedRight => true
  | concrete x, concrete y => Qeq_bool x y
  | _, _ => false
  end.

(** Numeric equality of bounds: the same sentinel, or equal rationals. *)
Definition eq (a b : TimeBound) : Prop :=
  match a, b with
  | unboundedLeft, unboundedLeft => True
  | unboundedRight, unboundedRight => True
  | concrete x, concrete y => x == y
  | _, _ => False
  end.

(** [Math.min] and [Math.max] on two bounds. *)
Definition Math_min (a b : TimeBound) : TimeBound := if leb a b then a else b.
Definition Math_max (a b : TimeBound) : TimeBound := if leb a b then b else a.

(** What this development assumes of [getBoundFromTimeRange], which lives in
    ./TimeBounds and is described nowhere: the bound it returns for a time
    is that time, or the left sentinel when the time is at or below the
    start of the domain, or the right sentinel when it is at or above its
    end. *)
Definition bound_of_time_range
    (getBoundFromTimeRange : Time * Time -> Time -> TimeBound) : Prop :=
  forall lo hi t,
    getBoundFromTimeRange (lo, hi) t = concrete t
    \/ (t <= lo /\ getBoundFromTimeRange (lo, hi) t = unboundedLeft)
    \/ (hi <= t /\ getBoundFromTimeRange (lo, hi) t = unboundedRight).

End TimeBounds.

Export TimeBounds.

(** ** ./Util *)
Module Util.

(** Modelled from the spec: [first] and [last] of ./Util, not among the
    sources: the first and the last element of an array, undefined on an
    empty one (the source supplies defaults with [??]). *)
Definition first {A : Type} (xs : list A) : option A :=
  match xs with
  | [] => None
  | x :: _ => Some x
  end.

Fixpoint last {A : Type} (xs : list A) : option A :=
  match xs with
  | [] => None
  | [x] => Some x
  | _ :: rest => last rest
  end.

(** The running candidate of [findClosestYear]: a later year replaces the
    candidate only when it is strictly closer to the target. *)
Fixpoint closestFrom (best : Time) (years : list Time) (targetYear : Time)
  : Time :=
  match years with
  | [] => best
  | y :: rest =>
      closestFrom
        (if Qlt_bool (Qabs (y - targetYear)) (Qabs (best - targetYear))
         then y else best)
        rest targetYear
  end.

(** Modelled from the spec: [findClosestYear] of ./Util, not among the
    sources: "the closest value present in the year axis (nearest by
    absolute numeric distance ...), lower index on tie"; undefined when the
    axis has no year. *)
Definition findClosestYear (years : list Time) (targetYear : Time)
  : option Time :=
  match years with
  | [] => None
  | y :: rest => Some (closestFrom y rest targetYear)
  end.

(** [Array.prototype.indexOf] on numbers: the first index holding a number
    equal to [x], or -1. *)
Fixpoint indexOf (xs : list Time) (x : Time) : Z :=
  match xs with
  | [] => (-1)%Z
  | y :: rest =>
      if Qeq_bool y x then 0%Z
      else let i := indexOf rest x in
           if (i <? 0)%Z then (-1)%Z else (i + 1)%Z
  end.

(** [xs[i]]: undefined outside the array. *)
Definition at_index (xs : list Time) (i : Z) : option Time :=
  if (i <? 0)%Z then None else nth_error xs (Z.to_nat i).

End Util.

(** ** charts/HTMLTimeline.tsx *)

Definition DEFAULT_MIN_YEAR : Time := 1900.
Definition DEFAULT_MAX_YEAR : Time := 2000.

(** [interface TimelineProps].  The callbacks [onTargetChange], [onStartDrag]
    and [onStopDrag] belong to the host; the calls made to [onTargetChange]
    are recorded by the page model below.  An absent optional flag is
    [false]. *)
Module TimelineProps.

Record t : Type := mk {
  years : list Time;
  startYear : TimeBound;
  endYear : TimeBound;
  singleYearMode : bool;
  singleYearPlay : bool;
  disablePlay : bool
}.

End TimelineProps.

(** What the handlers read of a mouse or touch event: the classes of the
    element hit, the pointer's x relative to the slider, and the width of the
    slider's bounding rectangle. *)
Record PointerEvent : Type := mkPointerEvent {
  classed_toggle : bool;
  classed_startMarker : bool;
  classed_endMarker : bool;
  mouseX : Q;
  sliderWidth : Q
}.

Inductive ConsoleMessage : Type :=
| console_warn (msg : string).

Module Timeline.

(** The values assigned to [dragTarget]: "start", "end" and "both". *)
Inductive DragTarget : Type := dragStart | dragEnd | dragBoth.

(** The fields of a [Timeline] instance.  [animRequest] and
    [queuedAnimationFrame] hold animation-frame handles. *)
Record t : Type := mk {
  props : TimelineProps.t;
  isPlaying : bool;
  dragTarget : option DragTarget;
  startYearRaw : TimeBound;
  endYearRaw : TimeBound;
  dragOffsets : Time * Time;
  animRequest : option nat;
  queuedAnimationFrame : option nat
}.

Definition set_props (v : TimelineProps.t) (s : t) : t :=
  mk v (isPlaying s) (dragTarget s) (startYearRaw s) (endYearRaw s)
     (dragOffsets s) (animRequest s) (queuedAnimationFrame s).

Definition set_isPlaying (v : bool) (s : t) : t :=
  mk (props s) v (dragTarget s) (startYearRaw s) (endYearRaw s)
     (dragOffsets s) (animRequest s) (queuedAnimationFrame s).

Definition set_dragTarget (v : option DragTarget) (s : t) : t :=
  mk (props s) (isPlaying s) v (startYearRaw s) (endYearRaw s)
     (dragOffsets s) (animRequest s) (queuedAnimationFrame s).

Definition set_startYearRaw (v : TimeBound) (s : t) : t :=
  mk (props s) (isPlaying s) (dragTarget s) v (endYearRaw s)
     (dragOffsets s) (animRequest s) (queuedAnimationFrame s).

Definition set_endYearRaw (v : TimeBound) (s : t) : t :=
  mk (props s) (isPlaying s) (dragTarget s) (startYearRaw s) v
     (dragOffsets s) (animRequest s) (queuedAnimationFrame s).

Definition set_dragOffsets (v : Time * Time) (s : t) : t :=
  mk (props s) (isPlaying s) (dragTarget s) (startYearRaw s) (endYearRaw s)
     v (animRequest s) (queuedAnimationFrame s).

Definition set_animRequest (v : option nat) (s : t) : t :=
  mk (props s) (isPlaying s) (dragTarget s) (startYearRaw s) (endYearRaw s)
     (dragOffsets s) v (queuedAnimationFrame s).

Definition set_queuedAnimationFrame (v : option nat) (s : t) : t :=
  mk (props s) (isPlaying s) (dragTarget s) (startYearRaw s) (endYearRaw s)
     (dragOffsets s) (animRequest s) v.

(** [@computed get isDragging] *)
Definition isDragging (s : t) : bool :=
  match dragTarget s with Some _ => true | None => false end.

(** [@computed get startYear] and [endYear]: the raw bounds in order. *)
Definition startYear (s : t) : TimeBound :=
  Math_min (startYearRaw s) (endYearRaw s).

Definition endYear (s : t) : TimeBound :=
  Math_max (startYearRaw s) (endYearRaw s).

(** The constructor: field initialisers, and a warning on an empty axis. *)
Definition constructor (p : TimelineProps.t) : t * list ConsoleMessage :=
  (mk p false None unboundedLeft unboundedRight (0, 0) None None,
   match TimelineProps.years p with
   | [] => [console_warn "invoking HTMLTimeline with empty years array"]
   | _ :: _ => []
   end).

(** [componentDidUpdate] *)
Definition componentDidUpdate (s : t) : t :=
  if negb (isPlaying s) && negb (isDragging s) then
    set_endYearRaw (TimelineProps.endYear (props s))
      (set_startYearRaw (TimelineProps.startYear (props s)) s)
  else s.

Definition years (s : t) : list Time := TimelineProps.years (props s).

Definition minYear (s : t) : Time :=
  Util.first (TimelineProps.years (props s)) ?? DEFAULT_MIN_YEAR.

Definition maxYear (s : t) : Time :=
  Util.last (TimelineProps.years (props s)) ?? DEFAULT_MAX_YEAR.

Definition timeDomain (s : t) : Time * Time := (minYear s, maxYear s).

Definition getClampedYear (s : t) (inputYear : Time) : Time :=
  Qmin (maxYear s) (Qmax (minYear s) inputYear).

(** [getYearUI]: the two tests [isUnboundedLeft] and [isUnboundedRight] are
    the two sentinel cases; any other bound is returned as it is. *)
Definition getYearUI (s : t) (bound : TimeBound) : Time :=
  match bound with
  | unboundedLeft => minYear s
  | unboundedRight => maxYear s
  | concrete y => y
  end.

Definition getClosest (s : t) (bound defaultValue : TimeBound) : TimeBound :=
  if isUnbounded bound then bound
  else
    match bound with
    | concrete y =>
        match Util.findClosestYear (years s) y with
        | Some c => concrete c
        | None => defaultValue
        end
    | _ => bound
    end.

Definition startYearUI (s : t) : Time := getYearUI s (startYear s).

Definition startYearClosest (s : t) : TimeBound :=
  getClosest s (startYear s) unboundedLeft.

Definition endYearUI (s : t) : Time := getYearUI s (endYear s).

Definition endYearClosest (s : t) : TimeBound :=
  getClosest s (endYear s) unboundedRight.

Definition ticksPerSec : Q := 5.

(** The body of the [playFrame] closure of [onStartPlaying], up to the
    assignment of [lastTime].  [lastTime] is the variable the closure
    captures.  The result is the new state together with the new value of
    [lastTime] when the closure goes on to request the next frame ([None]
    when it returned at [!isPlaying]); the request itself is made by
    [Page.playFrame].  The whole result is [None] when [years[...]] reads
    outside the array and the arithmetic yields NaN. *)
Definition playFrame (lastTime : option Time) (time : Time) (s : t)
  : option (t * option Time) :=
  if negb (isPlaying s) then Some (s, None)
  else
    match lastTime with
    | None =>
        if Qle_bool (maxYear s) (endYearUI s) then
          Some (set_endYearRaw (concrete (minYear s))
                  (set_startYearRaw (concrete (minYear s)) s),
                Some time)
        else Some (s, Some time)
    | Some lastTime =>
        let elapsed := time - lastTime in
        if Qle_bool (maxYear s) (endYearUI s) then
          Some (set_isPlaying false s, Some time)
        else
          match Util.at_index (years s)
                  (Util.indexOf (years s) (endYearUI s) + 1) with
          | None => None
          | Some nextYear =>
              let yearsToNext := nextYear - endYearUI s in
              let s1 :=
                set_endYearRaw
                  (concrete
                     (endYearUI s
                      + (Qmax (yearsToNext / 3) 1 * elapsed * ticksPerSec)
                        / 1000))
                  s in
              let s2 :=
                if TimelineProps.singleYearMode (props s)
                   || TimelineProps.singleYearPlay (props s)
                then set_startYearRaw (endYearRaw s1) s1
                else s1 in
              Some (s2, Some time)
          end
    end.

(** [getInputYearFromMouse]: [None] for a slider of width zero. *)
Definition getInputYearFromMouse (s : t) (evt : PointerEvent)
  : option Time :=
  if Qeq_bool (sliderWidth evt) 0 then None
  else
    let fracWidth := mouseX evt / sliderWidth evt in
    Some (minYear s + fracWidth * (maxYear s - minYear s)).

Definition onMouseUp (s : t) : t := set_dragTarget None s.

Definition onTogglePlay (s : t) : t := set_isPlaying (negb (isPlaying s)) s.

(** The first statement of [componentDidMount]. *)
Definition syncFromProps (s : t) : t :=
  set_endYearRaw (TimelineProps.endYear (props s))
    (set_startYearRaw (TimelineProps.startYear (props s)) s).

(** The body of the last reaction registered by [componentDidMount]:
    lock the input to the closest year when neither playing nor
    dragging.  Both right-hand sides are read before either field is
    written. *)
Definition lockToClosest (s : t) : t :=
  if negb (isPlaying s) && negb (isDragging s) then
    let closest := (startYearClosest s, endYearClosest s) in
    set_endYearRaw (snd closest) (set_startYearRaw (fst closest) s)
  else s.

(** The two positions computed by [render], as fractions of the slider. *)
Definition startYearProgress (s : t) : Q :=
  (startYearUI s - minYear s) / (maxYear s - minYear s).

Definition endYearProgress (s : t) : Q :=
  (endYearUI s - minYear s) / (maxYear s - minYear s).

Section Handlers.

(** [getBoundFromTimeRange] of ./TimeBounds is not among the sources and
    the specification does not describe it; the handlers take it as a
    parameter. *)
Variable getBoundFromTimeRange : Time * Time -> Time -> TimeBound.

Definition onStartYearChange (inputYear : Time) (s : t) : t :=
  set_startYearRaw (getBoundFromTimeRange (timeDomain s) inputYear) s.

Definition onEndYearChange (inputYear : Time) (s : t) : t :=
  set_endYearRaw (getBoundFromTimeRange (timeDomain s) inputYear) s.

Definition onSingleYearChange (inputYear : Time) (s : t) : t :=
  let year := getBoundFromTimeRange (timeDomain s) inputYear in
  set_endYearRaw year (set_startYearRaw year s).

Definition onRangeYearChange (range : Time * Time) (s : t) : t :=
  let (startYear, endYear) := range in
  set_endYearRaw (getBoundFromTimeRange (timeDomain s) endYear)
    (set_startYearRaw (getBoundFromTimeRange (timeDomain s) startYear) s).

Definition onDrag (inputYear : Time) (s : t) : t :=
  let clampedYear := getClampedYear s inputYear in
  if TimelineProps.singleYearMode (props s)
     || (isPlaying s && TimelineProps.singleYearPlay (props s))
  then onSingleYearChange clampedYear s
  else
    match dragTarget s with
    | Some dragStart => onStartYearChange clampedYear s
    | Some dragEnd => onEndYearChange clampedYear s
    | Some dragBoth =>
        let startYear := fst (dragOffsets s) + inputYear in
        let endYear := snd (dragOffsets s) + inputYear in
        if Qlt_bool startYear (minYear s) then
          onRangeYearChange
            (minYear s,
             getClampedYear s
               (minYear s + (snd (dragOffsets s) - fst (dragOffsets s))))
            s
        else if Qlt_bool (maxYear s) endYear then
          onRangeYearChange
            (getClampedYear s
               (maxYear s + (fst (dragOffsets s) - snd (dragOffsets s))),
             maxYear s)
            s
        else onRangeYearChange (startYear, endYear) s
    | None => s
    end.

(** [onMouseDown]; [None] only when [getInputYearFromMouse] is. *)
Definition onMouseDown (e : PointerEvent) (s : t) : option t :=
  if classed_toggle e then Some s
  else
    match getInputYearFromMouse s e with
    | None => None
    | Some inputYear =>
        let singleYearMode := TimelineProps.singleYearMode (props s) in
        let target :=
          if Qeq_bool (startYearUI s) (endYearUI s)
             && (classed_startMarker e || classed_endMarker e)
          then dragBoth
          else if negb singleYearMode
                  && (classed_startMarker e
                      || Qle_bool inputYear (startYearUI s))
          then dragStart
          else if negb singleYearMode
                  && (classed_endMarker e
                      || Qle_bool (endYearUI s) inputYear)
          then dragEnd
          else dragBoth in
        let s1 := set_dragTarget (Some target) s in
        let s2 :=
          match target with
          | dragBoth =>
              set_dragOffsets
                (startYearUI s1 - inputYear, endYearUI s1 - inputYear) s1
          | _ => s1
          end in
        Some (onDrag inputYear s2)
    end.

End Handlers.

End Timeline.

(** ** The page around the component

    Animation frames, the reactions registered by [componentDidMount] and the
    calls made to the host.  A frame callback is kept as data: the [playFrame]
    closure with the value of its captured [lastTime], or the arrow function
    queued by [onMouseMove] with its event. *)
Module Page.

Inductive Callback : Type :=
| playFrame_callback (lastTime : option Time)
| drag_callback (ev : PointerEvent).

Inductive Lifecycle : Type := constructed | mounted | unmounted.

Record t : Type := mk {
  timeline : Timeline.t;
  lifecycle : Lifecycle;
  (** [requestAnimationFrame]: the next handle and the pending callbacks *)
  nextHandle : nat;
  frameCallbacks : list (nat * Callback);
  (** [context.chart.url.debounceMode] *)
  debounceMode : bool;
  (** the arguments of every call of [props.onTargetChange], oldest first *)
  onTargetChangeCalls : list (TimeBound * TimeBound);
  (** the [onTargetChange] reaction: the values it read last, and whether
      its zero-delay timer is set *)
  targetSeen : option (TimeBound * TimeBound);
  targetPending : bool;
  console : list ConsoleMessage
}.

Definition set_timeline (v : Timeline.t) (w : t) : t :=
  mk v (lifecycle w) (nextHandle w) (frameCallbacks w) (debounceMode w)
     (onTargetChangeCalls w) (targetSeen w) (targetPending w) (console w).

Definition set_lifecycle (v : Lifecycle) (w : t) : t :=
  mk (timeline w) v (nextHandle w) (frameCallbacks w) (debounceMode w)
     (onTargetChangeCalls w) (targetSeen w) (targetPending w) (console w).

Definition set_frames (n : nat) (v : list (nat * Callback)) (w : t) : t :=
  mk (timeline w) (lifecycle w) n v (debounceMode w)
     (onTargetChangeCalls w) (targetSeen w) (targetPending w) (console w).

Definition set_debounceMode (v : bool) (w : t) : t :=
  mk (timeline w) (lifecycle w) (nextHandle w) (frameCallbacks w) v
     (onTargetChangeCalls w) (targetSeen w) (targetPending w) (console w).

Definition set_target
    (calls : list (TimeBound * TimeBound))
    (seen : option (TimeBound * TimeBound)) (pending : bool) (w : t) : t :=
  mk (timeline w) (lifecycle w) (nextHandle w) (frameCallbacks w)
     (debounceMode w) calls seen pending (console w).

Definition isMounted (w : t) : bool :=
  match lifecycle w with mounted => true | _ => false end.

(** [new Timeline(props)], before React mounts it.  Handles start at 1. *)
Definition create (p : TimelineProps.t) : t :=
  let (s, msgs) := Timeline.constructor p in
  mk s constructed 1 [] false [] None false msgs.

Definition requestAnimationFrame (cb : Callback) (w : t) : nat * t :=
  (nextHandle w,
   set_frames (S (nextHandle w)) (frameCallbacks w ++ [(nextHandle w, cb)]) w).

Definition cancelAnimationFrame (h : nat) (w : t) : t :=
  set_frames (nextHandle w)
    (filter (fun hc => negb (Nat.eqb (fst hc) h)) (frameCallbacks w)) w.

(** [onStartPlaying]: a fresh [playFrame] closure, [lastTime] undefined. *)
Definition onStartPlaying (w : t) : t :=
  let (h, w1) := requestAnimationFrame (playFrame_callback None) w in
  set_timeline (Timeline.set_animRequest (Some h) (timeline w1)) w1.

Definition onStopPlaying (w : t) : t :=
  match Timeline.animRequest (timeline w) with
  | Some h => cancelAnimationFrame h w
  | None => w
  end.

(** The [playFrame] closure: its body, then the request of the next frame. *)
Definition playFrame (lastTime : option Time) (time : Time) (w : t)
  : option t :=
  match Timeline.playFrame lastTime time (timeline w) with
  | None => None
  | Some (s, None) => Some (set_timeline s w)
  | Some (s, Some lastTime') =>
      let (h, w1) :=
        requestAnimationFrame (playFrame_callback (Some lastTime'))
          (set_timeline s w) in
      Some (set_timeline (Timeline.set_animRequest (Some h) (timeline w1)) w1)
  end.

(** [onMouseMove]: cancel the queued frame, queue a new one.  A handle is
    truthy unless it is 0. *)
Definition onMouseMove (ev : PointerEvent) (w : t) : t :=
  match Timeline.dragTarget (timeline w) with
  | None => w
  | Some _ =>
      let w1 :=
        match Timeline.queuedAnimationFrame (timeline w) with
        | Some (S h) => cancelAnimationFrame (S h) w
        | _ => w
        end in
      let (h, w2) := requestAnimationFrame (drag_callback ev) w1 in
      set_timeline (Timeline.set_queuedAnimationFrame (Some h) (timeline w2)) w2
  end.

Definition pair_eqb (a b : TimeBound * TimeBound) : bool :=
  TimeBounds.eqb (fst a) (fst b) && TimeBounds.eqb (snd a) (snd b).

Definition target (w : t) : TimeBound * TimeBound :=
  (Timeline.startYearClosest (timeline w), Timeline.endYearClosest (timeline w)).

(** The four reactions of [componentDidMount], in the order registered. *)
Definition reaction_playing (w : t) : t :=
  if Timeline.isPlaying (timeline w) then onStartPlaying w else onStopPlaying w.

Definition reaction_debounce (w : t) : t :=
  set_debounceMode
    (Timeline.isPlaying (timeline w) || Timeline.isDragging (timeline w)) w.

Definition reaction_onTargetChange (w : t) : t :=
  set_target (onTargetChangeCalls w ++ [target w]) (Some (target w)) false w.

Definition reaction_lock (w : t) : t :=
  set_timeline (Timeline.lockToClosest (timeline w)) w.

(** The [onTargetChange] reaction has [delay: 0]: when a value it read has
    changed it sets a timer, and runs when the timer fires. *)
Definition invalidate_onTargetChange (w : t) : t :=
  match targetSeen w with
  | Some seen =>
      if pair_eqb seen (target w) then w
      else set_target (onTargetChangeCalls w) (targetSeen w) true w
  | None => set_target (onTargetChangeCalls w) (targetSeen w) true w
  end.

(** MobX at the end of an action: every live reaction whose observed values
    changed runs again.  The first reaction observes [isPlaying]; the second
    and the fourth observe [isPlaying] and [isDragging] (what the fourth reads
    inside [runInAction] is not observed); the third observes the two snapped
    bounds.  [before] is the component as the action found it.  A disposed
    reaction never runs. *)
Definition reactions (before : Timeline.t) (w : t) : t :=
  if negb (isMounted w) then w
  else
    let playingChanged :=
      xorb (Timeline.isPlaying before) (Timeline.isPlaying (timeline w)) in
    let busyChanged :=
      playingChanged
      || xorb (Timeline.isDragging before) (Timeline.isDragging (timeline w)) in
    let w1 := if playingChanged then reaction_playing w else w in
    let w2 := if busyChanged then reaction_debounce w1 else w1 in
    let w3 := if busyChanged then reaction_lock w2 else w2 in
    invalidate_onTargetChange w3.

(** An action on the component, followed by the reactions it triggers. *)
Definition action (f : t -> option t) (w : t) : option t :=
  match f w with
  | Some w' => Some (reactions (timeline w) w')
  | None => None
  end.

Definition on_timeline (f : Timeline.t -> Timeline.t) (w : t) : option t :=
  Some (set_timeline (f (timeline w)) w).

(** Timers fire once the running handler has returned. *)
Definition runTimers (w : t) : t :=
  if targetPending w then
    if isMounted w then reaction_onTargetChange w
    else set_target (onTargetChangeCalls w) (targetSeen w) false w
  else w.

Section Handlers.

Variable getBoundFromTimeRange : Time * Time -> Time -> TimeBound.

(** [componentDidMount]: take the bounds from the props, register the
    listeners, start the reactions; each reaction runs once when created, the
    delayed one on its timer. *)
Definition componentDidMount (w : t) : t :=
  let w0 := set_timeline (Timeline.syncFromProps (timeline w)) w in
  let w1 := reaction_playing (set_lifecycle mounted w0) in
  let w2 := reaction_debounce w1 in
  let w3 := set_target (onTargetChangeCalls w2) (targetSeen w2) true w2 in
  reaction_lock w3.

(** [componentWillUnmount]: remove the listeners, dispose the reactions. *)
Definition componentWillUnmount (w : t) : t := set_lifecycle unmounted w.

(** Running one frame callback.  The queued pointer-move callback evaluates
    [this.getInputYearFromMouse(ev)] before it calls [onDrag]; that reads
    [this.base.current], which React sets to null when the component is not
    mounted, so there the callback throws a TypeError before [onDrag] and
    leaves the component as it was.  [playFrame] reads no ref. *)
Definition runCallback (time : Time) (cb : Callback) (w : t) : option t :=
  match cb with
  | playFrame_callback lastTime => action (playFrame lastTime time) w
  | drag_callback ev =>
      if isMounted w then
        action
          (fun w =>
             match Timeline.getInputYearFromMouse (timeline w) ev with
             | None => None
             | Some inputYear =>
                 on_timeline (Timeline.onDrag getBoundFromTimeRange inputYear)
                   w
             end)
          w
      else Some w
  end.

Definition lookupCallback (h : nat) (w : t) : option Callback :=
  match find (fun hc => Nat.eqb (fst hc) h) (frameCallbacks w) with
  | Some (_, cb) => Some cb
  | None => None
  end.

(** The browser runs the animation frame callbacks: the handles pending when
    the frame starts, in order, each one unless it was cancelled meanwhile;
    callbacks requested during the frame wait for the next one. *)
Fixpoint runFrame (time : Time) (handles : list nat) (w : t) : option t :=
  match handles with
  | [] => Some w
  | h :: rest =>
      match lookupCallback h w with
      | None => runFrame time rest w
      | Some cb =>
          match runCallback time cb (cancelAnimationFrame h w) with
          | None => None
          | Some w' => runFrame time rest w'
          end
      end
  end.

(** What can happen to the page. *)
Inductive Event : Type :=
| didMount
| didUpdate (p : TimelineProps.t)
| willUnmount
| clickToggle
| mouseDown (e : PointerEvent)
| mouseMove (e : PointerEvent)
| mouseUp
| animationFrame (time : Time).

(** One event, handled to the end, then the timers.  React calls
    [componentDidMount] once, [componentDidUpdate] after a render (here with
    the props of that render) while mounted, and [componentWillUnmount] once;
    the component's own handlers and the document listeners receive events
    only while it is mounted; animation frames fire whenever a callback is
    pending. *)
Definition handle (e : Event) (w : t) : option t :=
  match e, lifecycle w with
  | didMount, constructed => Some (componentDidMount w)
  | didUpdate p, mounted =>
      action
        (fun w =>
           on_timeline
             (fun s => Timeline.componentDidUpdate (Timeline.set_props p s)) w)
        w
  | willUnmount, mounted => Some (componentWillUnmount w)
  | clickToggle, mounted =>
      if TimelineProps.disablePlay (Timeline.props (timeline w)) then Some w
      else action (on_timeline Timeline.onTogglePlay) w
  | mouseDown e, mounted =>
      action
        (fun w =>
           match Timeline.onMouseDown getBoundFromTimeRange e (timeline w) with
           | Some s => Some (set_timeline s w)
           | None => None
           end)
        w
  | mouseMove e, mounted => action (fun w => Some (onMouseMove e w)) w
  | mouseUp, mounted => action (on_timeline Timeline.onMouseUp) w
  | animationFrame time, _ => runFrame time (map fst (frameCallbacks w)) w
  | _, _ => Some w
  end.

Definition step (w : t) (e : Event) : option t :=
  match handle e w with
  | Some w' => Some (runTimers w')
  | None => None
  end.

(** A sequence of events, oldest first. *)
Fixpoint run (w : t) (es : list Event) : option t :=
  match es with
  | [] => Some w
  | e :: rest =>
      match step w e with
      | Some w' => run w' rest
      | None => None
      end
  end.

End Handlers.

End Page.

(** ** Example inputs *)
Module Examples.

Definition axis : list Time := [1990; 1995; 2000; 2005; 2010].

(** Props with every optional flag absent. *)
Definition propsOf (years : list Time) (startYear endYear : TimeBound)
  : TimelineProps.t :=
  TimelineProps.mk years startYear endYear false false false.

(** The component once constructed and given the bounds of its props, as
    the first statement of [componentDidMount] leaves it. *)
Definition timelineOf (years : list Time) (startYear endYear : TimeBound)
  : Timeline.t :=
  Timeline.syncFromProps
    (fst (Timeline.constructor (propsOf years startYear endYear))).

(** Two functions that meet [bound_of_time_range]: the time itself, and the
    sentinels at the two ends of the domain. *)
Definition boundAsGiven (domain : Time * Time) (time : Time) : TimeBound :=
  concrete time.

Definition boundWithSentinels (domain : Time * Time) (time : Time)
  : TimeBound :=
  if Qle_bool time (fst domain) then unboundedLeft
  else if Qle_bool (snd domain) time then unboundedRight
  else concrete time.

(** A pointer event on the slider itself, [x] pixels into a slider 100
    pixels wide. *)
Definition pointerAt (x : Q) : PointerEvent :=
  mkPointerEvent false false false x 100.

(** The page once React has mounted the component and the timers of that
    turn have fired. *)
Definition mountedOn (years : list Time) (startYear endYear : TimeBound)
  : Page.t :=
  Page.runTimers
    (Page.componentDidMount (Page.create (propsOf years startYear endYear))).

(** A drag of the whole interval: the range is (1995, 2005) and the pointer
    goes down on the slider at the year 2000, between the two handles. *)
Definition draggedBoth : Timeline.t :=
  match
    Timeline.onMouseDown boundWithSentinels (pointerAt 50)
      (timelineOf axis (concrete 1995) (concrete 2005))
  with
  | Some s => s
  | None => timelineOf axis (concrete 1995) (concrete 2005)
  end.

(** A drag of the start handle: the range is (1995, 2005) and the pointer
    goes down on the slider at the year 1992, left of the start. *)
Definition draggedStart : Timeline.t :=
  match
    Timeline.onMouseDown boundAsGiven (pointerAt 10)
      (timelineOf axis (concrete 1995) (concrete 2005))
  with
  | Some s => s
  | None => timelineOf axis (concrete 1995) (concrete 2005)
  end.


(** Playback switched on while the range already ends at the last year. *)
Definition playingAtEnd : Timeline.t :=
  Timeline.onTogglePlay (timelineOf axis (concrete 2000) (concrete 2010)).



(** Playback in progress on the range (1990, 1995): mounted, play clicked,
    two frames run. *)
Definition playbackEvents : list Page.Event :=
  [Page.didMount; Page.clickToggle;
   Page.animationFrame 0; Page.animationFrame 200].

(** A drag of the start handle with a pointer move still queued. *)
Definition dragEvents : list Page.Event :=
  [Page.didMount; Page.mouseDown (pointerAt 10); Page.mouseMove (pointerAt 30)].

End Examples.

(** ** States the page can reach *)
Module Reachable.

(** The states the page goes through from [new Timeline(props)] under some
    sequence of events. *)
Definition reachable
    (getBoundFromTimeRange : Time * Time -> Time -> TimeBound)
    (p : TimelineProps.t) (w : Page.t) : Prop :=
  exists events : list Page.Event,
    Page.run getBoundFromTimeRange (Page.create p) events = Some w.

Definition isPlayFrame (hc : nat * Page.Callback) : bool :=
  match snd hc with
  | Page.playFrame_callback _ => true
  | Page.drag_callback _ => false
  end.

Definition isDragFrame (hc : nat * Page.Callback) : bool :=
  match snd hc with
  | Page.playFrame_callback _ => false
  | Page.drag_callback _ => true
  end.

(** What the handlers that React and the document call while the component
    is mounted do to the page, before the reactions they trigger:
    [componentDidUpdate] after a render with props [p], [onTogglePlay],
    [onMouseDown], [onMouseMove] and [onMouseUp]. *)
Inductive handler_action
    (getBoundFromTimeRange : Time * Time -> Time -> TimeBound)
    (w : Page.t) : Page.t -> Prop :=
| act_didUpdate (p : TimelineProps.t) :
    handler_action getBoundFromTimeRange w
      (Page.set_timeline
         (Timeline.componentDidUpdate (Timeline.set_props p (Page.timeline w)))
         w)
| act_onTogglePlay :
    handler_action getBoundFromTimeRange w
      (Page.set_timeline (Timeline.onTogglePlay (Page.timeline w)) w)
| act_onMouseDown (e : PointerEvent) (s : Timeline.t) :
    Timeline.onMouseDown getBoundFromTimeRange e (Page.timeline w) = Some s ->
    handler_action getBoundFromTimeRange w (Page.set_timeline s w)
| act_onMouseMove (e : PointerEvent) :
    handler_action getBoundFromTimeRange w (Page.onMouseMove e w)
| act_onMouseUp :
    handler_action getBoundFromTimeRange w
      (Page.set_timeline (Timeline.onMouseUp (Page.timeline w)) w).

(** Playing or dragging. *)
Definition busy (s : Timeline.t) : bool :=
  Timeline.isPlaying s || Timeline.isDragging s.

(** The pending frame callbacks have distinct handles, all issued; a pending
    [playFrame] is the one [animRequest] names and a pending pointer-move
    frame the one [queuedAnimationFrame] names. *)
Definition frames_wellformed (w : Page.t) : Prop :=
  (1 <= Page.nextHandle w)%nat
  /\ NoDup (map fst (Page.frameCallbacks w))
  /\ (forall h cb, In (h, cb) (Page.frameCallbacks w) ->
        (1 <= h < Page.nextHandle w)%nat)
  /\ (forall h lastTime,
        In (h, Page.playFrame_callback lastTime) (Page.frameCallbacks w) ->
        Timeline.animRequest (Page.timeline w) = Some h)
  /\ (forall h ev,
        In (h, Page.drag_callback ev) (Page.frameCallbacks w) ->
        Timeline.queuedAnimationFrame (Page.timeline w) = Some h).

(** Before mounting nothing is pending; while mounted and not playing no
    [playFrame] is pending. *)
Definition loop_follows_isPlaying (w : Page.t) : Prop :=
  (Page.lifecycle w = Page.constructed -> Page.frameCallbacks w = [])
  /\ (Page.lifecycle w = Page.mounted ->
      Timeline.isPlaying (Page.timeline w) = false ->
      forall h lastTime,
        ~ In (h, Page.playFrame_callback lastTime) (Page.frameCallbacks w)).

(** No timer is set; what the [onTargetChange] reaction read last is what it
    passed to the host last; while mounted it has read, and what it read
    equals the snapped bounds of the component. *)
Definition host_notified (w : Page.t) : Prop :=
  Page.targetPending w = false
  /\ (forall p, Page.targetSeen w = Some p ->
        exists earlier, Page.onTargetChangeCalls w = earlier ++ [p])
  /\ (Page.lifecycle w = Page.mounted ->
      exists p, Page.targetSeen w = Some p
                /\ Page.pair_eqb p (Page.target w) = true).

(** The handle [queuedAnimationFrame] holds has been issued and is that of
    no pending [playFrame]; while the component is mounted and playing, a
    [playFrame] is pending. *)
Definition loop_alive (w : Page.t) : Prop :=
  (forall q, Timeline.queuedAnimationFrame (Page.timeline w) = Some q ->
             (q < Page.nextHandle w)%nat)
  /\ (forall h lastTime,
        In (h, Page.playFrame_callback lastTime) (Page.frameCallbacks w) ->
        Timeline.queuedAnimationFrame (Page.timeline w) <> Some h)
  /\ (Page.lifecycle w = Page.mounted ->
      Timeline.isPlaying (Page.timeline w) = true ->
      exists h lastTime,
        In (h, Page.playFrame_callback lastTime) (Page.frameCallbacks w)).

End Reachable.

(** * The other components of the sources *)

(** ** Arrays *)

(** [Math.round]: the nearest integer, a half rounding up. *)
Definition Math_round (x : Q) : Q := inject_Z (Qfloor (x + (1 # 2))).

(** [array.map((element, index) => ...)] with a callback that can throw: the
    elements are visited in order with their indices, and the first
    exception ([None]) ends the loop. *)
Fixpoint mapi_from {A B : Type} (f : A -> nat -> option B) (i : nat)
    (l : list A) : option (list B) :=
  match l with
  | [] => Some []
  | a :: rest =>
      match f a i with
      | None => None
      | Some b =>
          match mapi_from f (S i) rest with
          | None => None
          | Some bs => Some (b :: bs)
          end
      end
  end.

(** [array.forEach(element => ...)] with a callback that updates a state and
    can throw. *)
Fixpoint forEach {A S : Type} (f : A -> S -> option S) (l : list A) (s : S)
  : option S :=
  match l with
  | [] => Some s
  | a :: rest =>
      match f a s with
      | None => None
      | Some s' => forEach f rest s'
      end
  end.

(** [array.join(separator)] on strings. *)
Definition join (separator : string) (l : list string) : string :=
  String.concat separator l.

(** What is assumed of [sortBy(array, key)] of ./Util (lodash's, not among
    the sources) with a numeric key: the result is a rearrangement of the
    array, ascending in the key, and elements of equal key keep their
    order. *)
Definition sorts_by_key {A : Type} (sortBy : list A -> (A -> Q) -> list A)
  : Prop :=
  forall (l : list A) (key : A -> Q),
    Permutation (sortBy l key) l
    /\ StronglySorted (fun a b => key a <= key b) (sortBy l key)
    /\ forall k : Q,
         filter (fun a => Qeq_bool (key a) k) (sortBy l key)
         = filter (fun a => Qeq_bool (key a) k) l.

(** What is assumed of [uniq(array)] of ./Util (lodash's) on strings: no
    element twice, and the same elements. *)
Definition removes_duplicates (uniq : list string -> list string) : Prop :=
  forall l : list string,
    NoDup (uniq l) /\ forall a, In a (uniq l) <-> In a l.

(** What is assumed of [sortBy(array)] of ./Util without a key: the result
    is a rearrangement of the array. *)
Definition rearranges {A : Type} (sortBy : list A -> list A) : Prop :=
  forall l : list A, Permutation (sortBy l) l.

(** ** Line series: the [Lines] component (charts/HTMLTimeline.tsx) *)

(** The fields of [LineChartValue] and [LineChartSeries] (./LineChart) and
    of [Vector2] (./Vector2) that the component reads. *)
Module LineChartValue.

Record t : Type := mk { x : Q; y : Q }.

End LineChartValue.

Module LineChartSeries.

Record t : Type := mk {
  entityDimensionKey : string;
  color : string;
  values : list LineChartValue.t;
  isProjection : option bool
}.

End LineChartSeries.

Module Vector2.

Record t : Type := mk { x : Q; y : Q }.

End Vector2.

Module Lines.

(** [axisBox.innerBounds.contains], [xScale.place] and [yScale.place] are
    methods of objects the props carry; [onHover] is the callback whose
    argument [onCursorMove] computes. *)
Record LinesProps : Type := mkLinesProps {
  innerBounds_contains : Vector2.t -> bool;
  xScale_place : Q -> Q;
  yScale_place : Q -> Q;
  data : list LineChartSeries.t;
  focusKeys : list string
}.

Record LineRenderSeries : Type := mkLineRenderSeries {
  entityDimensionKey : string;
  displayKey : string;
  color : string;
  values : list Vector2.t;
  isFocus : bool;
  isProjection : option bool
}.

(** [value] is [data[i].values[j]], undefined past the end of the array. *)
Record HoverTarget : Type := mkHoverTarget {
  pos : Vector2.t;
  series : LineChartSeries.t;
  value : option LineChartValue.t
}.

Section Component.

(** [makeSafeForCSS] and [sortBy] of ./Util are not among the sources. *)
Variable makeSafeForCSS : string -> string.
Variable sortBy :
  list LineChartValue.t -> (LineChartValue.t -> Q) -> list LineChartValue.t.

Definition renderSeries (props : LinesProps) (s : LineChartSeries.t)
  : LineRenderSeries :=
  {| entityDimensionKey := LineChartSeries.entityDimensionKey s;
     displayKey :=
       ("key-" ++ makeSafeForCSS (LineChartSeries.entityDimensionKey s))%string;
     color := LineChartSeries.color s;
     values :=
       map
         (fun v =>
            Vector2.mk
              (Math_round (xScale_place props (LineChartValue.x v)))
              (Math_round (yScale_place props (LineChartValue.y v))))
         (LineChartSeries.values s);
     isFocus :=
       Nat.eqb (List.length (focusKeys props)) 0
       || existsb (String.eqb (LineChartSeries.entityDimensionKey s))
            (focusKeys props);
     isProjection := LineChartSeries.isProjection s |}.

Definition renderData (props : LinesProps) : list LineRenderSeries :=
  map (renderSeries props) (data props).

Definition isFocusMode (props : LinesProps) : bool :=
  existsb isFocus (renderData props).

Definition allValues (props : LinesProps) : list LineChartValue.t :=
  fold_left (fun values s => values ++ LineChartSeries.values s)
    (data props) [].

(** [data[i]] is undefined past the end of [data]; reading [.values] of it
    throws ([None]). *)
Definition hoverData (props : LinesProps) : option (list HoverTarget) :=
  option_map (@List.concat HoverTarget)
    (mapi_from
       (fun s i =>
          mapi_from
            (fun v j =>
               match nth_error (data props) i with
               | None => None
               | Some d =>
                   Some {| pos := v;
                           series := d;
                           value := nth_error (LineChartSeries.values d) j |}
               end)
            0 (values s))
       0 (renderData props)).

(** The argument [onCursorMove] passes to [onHover] for a pointer at [mouse]
    (the result of [getRelativeMouse]); [None] when [closestValue] is
    undefined and reading [.x] of it throws. *)
Definition onCursorMove (props : LinesProps) (mouse : Vector2.t)
  : option (option Q) :=
  if innerBounds_contains props mouse then
    match
      sortBy (allValues props)
        (fun d =>
           Qabs (xScale_place props (LineChartValue.x d) - Vector2.x mouse))
    with
    | [] => None
    | closestValue :: _ => Some (Some (LineChartValue.x closestValue))
    end
  else Some None.

Definition onCursorLeave (props : LinesProps) : option (option Q) :=
  Some None.

Definition focusGroups (props : LinesProps) : list LineRenderSeries :=
  filter (fun g => isFocus g) (renderData props).

Definition backgroundGroups (props : LinesProps) : list LineRenderSeries :=
  filter (fun g => negb (isFocus g)) (renderData props).

Definition hasMarkers (props : LinesProps) : bool :=
  Nat.ltb
    (list_sum (map (fun g => List.length (values g)) (renderData props)))
    500.

End Component.

End Lines.

(** ** CSV export: the [DataTab] component (charts/DataTab.tsx) *)

(** The fields of a chart dimension that the export reads.  The nested
    [Map]s of [valueByEntityAndYear] are lookups. *)
Module Dimension.

(** A value of a row: [string | number]. *)
Inductive Cell : Type :=
| text (s : string)
| number (n : Q).

Record t : Type := mk {
  property : string;
  entitiesUniq : list string;
  yearsUniq : list Q;
  fullNameWithUnit : string;
  valueByEntityAndYear : string -> option (Q -> option Cell)
}.

End Dimension.

Module DataTab.

Import Dimension.

Record EntityMeta : Type := mkEntityMeta { code : option string }.

(** The parts of the chart the export reads; [filledDimensions] is
    [chart.data.filledDimensions], and [entityMetaByKey] an object indexed by
    entity name. *)
Record ChartConfig : Type := mkChartConfig {
  filledDimensions : list Dimension.t;
  yearIsDayVar : bool;
  entityMetaByKey : string -> option EntityMeta;
  formatYearFunction : Q -> string
}.

Section Csv.

(** [csvEscape], [uniq] and [sortBy] of ./Util are not among the sources;
    [uniq] and [sortBy] are used at strings and at numbers. *)
Variable csvEscape : Cell -> string.
Variable uniq_strings : list string -> list string.
Variable sortBy_strings : list string -> list string.
Variable uniq_numbers : list Q -> list Q.
Variable sortBy_numbers : list Q -> list Q.

Definition dimensions (chart : ChartConfig) : list Dimension.t :=
  filter (fun d => negb (Dimension.property d =? "color")%string)
    (filledDimensions chart).

Definition entitiesUniq (chart : ChartConfig) : list string :=
  sortBy_strings
    (uniq_strings (List.concat (map Dimension.entitiesUniq (dimensions chart)))).

Definition yearsUniq (chart : ChartConfig) : list Q :=
  sortBy_numbers
    (uniq_numbers (List.concat (map Dimension.yearsUniq (dimensions chart)))).

Definition titleRow (chart : ChartConfig) : list string :=
  fold_left
    (fun titleRow dim =>
       titleRow ++ [csvEscape (text (Dimension.fullNameWithUnit dim))])
    (dimensions chart)
    ["Entity"; "Code"; if yearIsDayVar chart then "Date" else "Year"]%string.

(** [value] of the inner loop: null when the dimension has no map for the
    entity, undefined when that map has no entry for the year. *)
Definition value (dim : Dimension.t) (entity : string) (year : Q)
  : option Cell :=
  match Dimension.valueByEntityAndYear dim entity with
  | Some valueByYear => valueByYear year
  | None => None
  end.

(** One turn of the inner [dimensions.forEach]: the row and
    [rowHasSomeValue]. *)
Definition pushValue (entity : string) (year : Q)
    (acc : list Cell * bool) (dim : Dimension.t) : list Cell * bool :=
  match value dim entity year with
  | None => (fst acc ++ [text ""], snd acc)
  | Some v => (fst acc ++ [v], true)
  end.

(** The row of an entity and a year with its [rowHasSomeValue]; [None] when
    [chart.entityMetaByKey[entity]] is undefined and reading [.code] of it
    throws. *)
Definition dataRow (chart : ChartConfig) (entity : string) (year : Q)
  : option (list Cell * bool) :=
  match entityMetaByKey chart entity with
  | None => None
  | Some meta =>
      let code :=
        match code meta with
        | Some c => if (c =? "")%string then ""%string else c
        | None => ""%string
        end in
      Some
        (fold_left (pushValue entity year) (dimensions chart)
           ([text entity; text code; text (formatYearFunction chart year)],
            false))
  end.

Definition csvRows (chart : ChartConfig) : option (list string) :=
  forEach
    (fun entity rows =>
       forEach
         (fun year rows =>
            match dataRow chart entity year with
            | None => None
            | Some (row, rowHasSomeValue) =>
                Some
                  (if rowHasSomeValue
                   then rows ++ [join "," (map csvEscape row)]
                   else rows)
            end)
         (yearsUniq chart) rows)
    (entitiesUniq chart)
    [join "," (titleRow chart)].

(** The text of the blob. *)
Definition csvBlob (chart : ChartConfig) : option string :=
  option_map (join (String "010"%char EmptyString)) (csvRows chart).

End Csv.

End DataTab.

(** ** The logo choice of the admin ([EditorTextTab]) *)

Module EditorTextTab.

(** The two fields of [chart.props] the logo choice reads and writes. *)
Record ChartConfigProps : Type := mkChartConfigProps {
  hideLogo : option bool;
  logo : option string
}.

Definition onChangeLogo (value : string) (props : ChartConfigProps)
  : ChartConfigProps :=
  if (value =? "none")%string then
    {| hideLogo := Some true; logo := logo props |}
  else
    {| hideLogo := None;
       logo := if (value =? "")%string then None else Some value |}.

(** The [value] that [render] gives the radio group:
    [chart.props.hideLogo ? "none" : chart.props.logo || "owid"]. *)
Definition logoValue (props : ChartConfigProps) : string :=
  if hideLogo props ?? false then "none"%string
  else
    match logo props with
    | Some l => if (l =? "")%string then "owid"%string else l
    | None => "owid"%string
    end.

End EditorTextTab.

(** Instances for the examples: an insertion sort by key, which is stable,
    and [uniq] keeping first occurrences. *)
Module Arrays.

Fixpoint insertBy {A : Type} (key : A -> Q) (a : A) (l : list A) : list A :=
  match l with
  | [] => [a]
  | b :: rest =>
      if Qle_bool (key a) (key b) then a :: b :: rest
      else b :: insertBy key a rest
  end.

Definition sortBy {A : Type} (l : list A) (key : A -> Q) : list A :=
  fold_right (insertBy key) [] l.

Fixpoint insert_string (a : string) (l : list string) : list string :=
  match l with
  | [] => [a]
  | b :: rest =>
      if String.leb a b then a :: b :: rest else b :: insert_string a rest
  end.

Definition sortBy_strings (l : list string) : list string :=
  fold_right insert_string [] l.

Definition sortBy_numbers (l : list Q) : list Q := sortBy l (fun q => q).

Fixpoint uniq_strings (l : list string) : list string :=
  match l with
  | [] => []
  | a :: rest =>
      a :: filter (fun b => negb (a =? b)%string) (uniq_strings rest)
  end.

Fixpoint uniq_numbers (l : list Q) : list Q :=
  match l with
  | [] => []
  | a :: rest => a :: filter (fun b => negb (Qeq_bool a b)) (uniq_numbers rest)
  end.

End Arrays.

(** Examples for the line series and the export. *)
Module MoreExamples.

(** Two series, the second a projection and the only one in focus; x is
    placed at 10 pixels a year from 2000, y downwards from 100. *)
Definition linesProps : Lines.LinesProps :=
  Lines.mkLinesProps
    (fun mouse =>
       Qle_bool 0 (Vector2.x mouse) && Qle_bool (Vector2.x mouse) 100)
    (fun x => (x - 2000) * 10)
    (fun y => 100 - y)
    [LineChartSeries.mk "France" "#f00"
       [LineChartValue.mk 2000 10; LineChartValue.mk 2004 20] None;
     LineChartSeries.mk "Spain" "#00f"
       [LineChartValue.mk 2002 30; LineChartValue.mk 2006 5] (Some true)]
    ["Spain"%string].

(** A stand-in for [csvEscape]: strings as they are, a placeholder for
    numbers. *)
Definition showCell (c : Dimension.Cell) : string :=
  match c with
  | Dimension.text s => s
  | Dimension.number _ => "#"%string
  end.

(** A chart with one y dimension over Spain and France, with a value for
    France in 2000 and for Spain in 2010, and a colour dimension over
    Europe. *)
Definition population : Dimension.t :=
  Dimension.mk "y" ["Spain"; "France"; "Spain"]%string [2010; 2000]
    "Population (people)"
    (fun entity =>
       if (entity =? "France")%string then
         Some (fun year =>
                 if Qeq_bool year 2000 then Some (Dimension.number 59)
                 else None)
       else if (entity =? "Spain")%string then
         Some (fun year =>
                 if Qeq_bool year 2010 then Some (Dimension.number 46)
                 else None)
       else None).

Definition continent : Dimension.t :=
  Dimension.mk "color" ["Europe"%string] [1999] "Continent"
    (fun entity =>
       if (entity =? "Europe")%string then
         Some (fun year => Some (Dimension.text "Europe"))
       else None).

Definition chart : DataTab.ChartConfig :=
  DataTab.mkChartConfig [population; continent] false
    (fun entity =>
       if (entity =? "France")%string then
         Some (DataTab.mkEntityMeta (Some "FRA"%string))
       else if (entity =? "Spain")%string then
         Some (DataTab.mkEntityMeta None)
       else None)
    (fun year => if Qeq_bool year 2000 then "2000"%string else "2010"%string).

End MoreExamples.

(** * Properties *)

(** ** Numbers and bounds *)

Lemma Qlt_bool_true (x y : Q) : Qlt_bool x y = true <-> x < y.
Proof.
  unfold Qlt_bool. rewrite negb_true_iff.
  split; intro H.
  - apply Qnot_le_lt. intro Hle. apply Qle_bool_iff in Hle. congruence.
  - destruct (Qle_bool y x) eqn:E; [| reflexivity].
    apply Qle_bool_iff in E. lra.
Qed.

Lemma Qlt_bool_false (x y : Q) : Qlt_bool x y = false <-> y <= x.
Proof.
  unfold Qlt_bool. rewrite negb_false_iff. apply Qle_bool_iff.
Qed.

Lemma Qle_bool_false (x y : Q) : Qle_bool x y = false <-> y < x.
Proof.
  split; intro H.
  - apply Qnot_le_lt. intro Hle. apply Qle_bool_iff in Hle. congruence.
  - destruct (Qle_bool x y) eqn:E; [| reflexivity].
    apply Qle_bool_iff in E. lra.
Qed.

Lemma leb_total (a b : TimeBound) :
  TimeBounds.leb a b = true \/ TimeBounds.leb b a = true.
Proof.
  destruct a as [| x |], b as [| y |]; simpl; auto.
  destruct (Qle_bool x y) eqn:E; [now left | right].
  apply Qle_bool_false in E. apply Qle_bool_iff. lra.
Qed.

Lemma leb_refl (a : TimeBound) : TimeBounds.leb a a = true.
Proof. destruct (leb_total a a); assumption. Qed.

Lemma Math_min_max_le (a b : TimeBound) :
  TimeBounds.le (Math_min a b) (Math_max a b).
Proof.
  unfold TimeBounds.le, Math_min, Math_max.
  destruct (TimeBounds.leb a b) eqn:E; [assumption |].
  destruct (leb_total a b); congruence.
Qed.

Lemma Math_min_lower (a b : TimeBound) :
  TimeBounds.le (Math_min a b) a /\ TimeBounds.le (Math_min a b) b.
Proof.
  unfold TimeBounds.le, Math_min.
  destruct (TimeBounds.leb a b) eqn:E.
  - split; [apply leb_refl | assumption].
  - split; [| apply leb_refl]. destruct (leb_total a b); congruence.
Qed.

Lemma Math_max_upper (a b : TimeBound) :
  TimeBounds.le a (Math_max a b) /\ TimeBounds.le b (Math_max a b).
Proof.
  unfold TimeBounds.le, Math_max.
  destruct (TimeBounds.leb a b) eqn:E.
  - split; [assumption | apply leb_refl].
  - split; [apply leb_refl |]. destruct (leb_total a b); congruence.
Qed.

Lemma Math_min_comm (a b : TimeBound) :
  TimeBounds.eq (Math_min a b) (Math_min b a).
Proof.
  unfold Math_min.
  destruct a as [| x |], b as [| y |]; simpl; try exact I; try reflexivity.
  destruct (Qle_bool x y) eqn:E1, (Qle_bool y x) eqn:E2; simpl;
    try reflexivity.
  - apply Qle_bool_iff in E1. apply Qle_bool_iff in E2. lra.
  - apply Qle_bool_false in E1. apply Qle_bool_false in E2. lra.
Qed.

Lemma Math_max_comm (a b : TimeBound) :
  TimeBounds.eq (Math_max a b) (Math_max b a).
Proof.
  unfold Math_max.
  destruct a as [| x |], b as [| y |]; simpl; try exact I; try reflexivity.
  destruct (Qle_bool x y) eqn:E1, (Qle_bool y x) eqn:E2; simpl;
    try reflexivity.
  - apply Qle_bool_iff in E1. apply Qle_bool_iff in E2. lra.
  - apply Qle_bool_false in E1. apply Qle_bool_false in E2. lra.
Qed.

(** ** Resolved bounds *)

(** C1.  Whatever the raw bounds are, and in whichever order they were
    assigned, [startYear] is their [Math.min] and [endYear] their [Math.max]:
    each is one of the two raw bounds, [startYear] is below both and [endYear]
    above both, so the resolved start never exceeds the resolved end; swapping
    the raw bounds changes neither accessor. *)
Theorem resolved_bounds_are_min_and_max :
  forall s : Timeline.t,
    Timeline.startYear s
      = Math_min (Timeline.startYearRaw s) (Timeline.endYearRaw s)
    /\ Timeline.endYear s
       = Math_max (Timeline.startYearRaw s) (Timeline.endYearRaw s)
    /\ TimeBounds.le (Timeline.startYear s) (Timeline.endYear s)
    /\ TimeBounds.le (Timeline.startYear s) (Timeline.startYearRaw s)
    /\ TimeBounds.le (Timeline.startYear s) (Timeline.endYearRaw s)
    /\ TimeBounds.le (Timeline.startYearRaw s) (Timeline.endYear s)
    /\ TimeBounds.le (Timeline.endYearRaw s) (Timeline.endYear s)
    /\ ((Timeline.startYear s = Timeline.startYearRaw s
         /\ Timeline.endYear s = Timeline.endYearRaw s)
        \/ (Timeline.startYear s = Timeline.endYearRaw s
            /\ Timeline.endYear s = Timeline.startYearRaw s))
    /\ (let swapped :=
          Timeline.set_endYearRaw (Timeline.startYearRaw s)
            (Timeline.set_startYearRaw (Timeline.endYearRaw s) s) in
        TimeBounds.eq (Timeline.startYear swapped) (Timeline.startYear s)
        /\ TimeBounds.eq (Timeline.endYear swapped) (Timeline.endYear s)).
Proof.
  intro s. unfold Timeline.startYear, Timeline.endYear.
  destruct s as [p pl dt a b off ar qf]; simpl.
  repeat split; try reflexivity.
  - apply Math_min_max_le.
  - apply Math_min_lower.
  - apply Math_min_lower.
  - apply Math_max_upper.
  - apply Math_max_upper.
  - unfold Math_min, Math_max. destruct (TimeBounds.leb a b); auto.
  - apply Math_min_comm.
  - apply Math_max_comm.
Qed.

Lemma boundAsGiven_ok : bound_of_time_range Examples.boundAsGiven.
Proof. intros lo hi t. left. reflexivity. Qed.

Lemma boundWithSentinels_ok : bound_of_time_range Examples.boundWithSentinels.
Proof.
  intros lo hi t. unfold Examples.boundWithSentinels. simpl.
  destruct (Qle_bool t lo) eqn:E1.
  - right; left. split; [now apply Qle_bool_iff | reflexivity].
  - destruct (Qle_bool hi t) eqn:E2.
    + right; right. split; [now apply Qle_bool_iff | reflexivity].
    + left. reflexivity.
Qed.

(** ** The axis: clamping and snapping *)

(** Case analysis on the [Math.max] and the [Math.min] of a clamped year. *)
Ltac clamp_cases s x :=
  let L1 := fresh "L" in
  let E1 := fresh "E" in
  let L2 := fresh "L" in
  let E2 := fresh "E" in
  destruct (Q.max_spec (Timeline.minYear s) x) as [[L1 E1] | [L1 E1]];
  destruct (Q.min_spec (Timeline.maxYear s) (Qmax (Timeline.minYear s) x))
    as [[L2 E2] | [L2 E2]].

Lemma getClampedYear_bounds (s : Timeline.t) (x : Time) :
  Timeline.minYear s <= Timeline.maxYear s ->
  Timeline.minYear s <= Timeline.getClampedYear s x
  /\ Timeline.getClampedYear s x <= Timeline.maxYear s.
Proof.
  intro H. unfold Timeline.getClampedYear.
  clamp_cases s x; lra.
Qed.

Lemma getClampedYear_inside (s : Timeline.t) (x : Time) :
  Timeline.minYear s <= x -> x <= Timeline.maxYear s ->
  Timeline.getClampedYear s x == x.
Proof.
  intros H1 H2. unfold Timeline.getClampedYear.
  clamp_cases s x; lra.
Qed.

Lemma getClampedYear_le (s : Timeline.t) (x : Time) :
  Timeline.minYear s <= x -> Timeline.getClampedYear s x <= x.
Proof.
  intros H1. unfold Timeline.getClampedYear.
  clamp_cases s x; lra.
Qed.

Lemma getClampedYear_ge (s : Timeline.t) (x : Time) :
  x <= Timeline.maxYear s -> x <= Timeline.getClampedYear s x.
Proof.
  intros H1. unfold Timeline.getClampedYear.
  clamp_cases s x; lra.
Qed.


(** The candidate kept by [findClosestYear] is one of the years and no year
    is nearer to the target. *)
Lemma closestFrom_nearest (years : list Time) (targetYear : Time) :
  forall best,
    In (Util.closestFrom best years targetYear) (best :: years)
    /\ forall z, In z (best :: years) ->
         Qabs (Util.closestFrom best years targetYear - targetYear)
         <= Qabs (z - targetYear).
Proof.
  induction years as [| y rest IH]; intro best; cbn [Util.closestFrom].
  - split; [now left |]. intros z [<- | []]. lra.
  - set (best' := if Qlt_bool (Qabs (y - targetYear))
                       (Qabs (best - targetYear)) then y else best).
    destruct (IH best') as [Hin Hmin].
    assert (Hb : Qabs (best' - targetYear) <= Qabs (best - targetYear)
                 /\ Qabs (best' - targetYear) <= Qabs (y - targetYear)
                 /\ (best' = y \/ best' = best)).
    { subst best'.
      destruct (Qlt_bool (Qabs (y - targetYear)) (Qabs (best - targetYear)))
        eqn:E.
      - apply Qlt_bool_true in E. repeat split; [lra | lra | now left].
      - apply Qlt_bool_false in E. repeat split; [lra | lra | now right]. }
    destruct Hb as (Hb1 & Hb2 & Hb3).
    split.
    + destruct Hin as [Hin | Hin].
      * rewrite <- Hin. destruct Hb3 as [E | E]; rewrite E.
        -- right; now left.
        -- now left.
      * right; now right.
    + intros z Hz.
      assert (H0 := Hmin best' (or_introl eq_refl)).
      destruct Hz as [<- | [<- | Hz]].
      * lra.
      * lra.
      * apply Hmin. now right.
Qed.

Lemma findClosestYear_nearest (years : list Time) (targetYear c : Time) :
  Util.findClosestYear years targetYear = Some c ->
  In c years
  /\ forall z, In z years -> Qabs (c - targetYear) <= Qabs (z - targetYear).
Proof.
  destruct years as [| y rest]; simpl; [discriminate |].
  intro H. injection H as <-. apply closestFrom_nearest.
Qed.

Lemma findClosestYear_defined (years : list Time) (targetYear : Time) :
  years <> [] -> exists c, Util.findClosestYear years targetYear = Some c.
Proof.
  destruct years as [| y rest]; [congruence |]. intros _. simpl. eauto.
Qed.

(** C6, as the code has it.  [getClosest] returns a sentinel unchanged,
    whatever the axis.  For a concrete year on an axis that has at least one
    year it returns a year of the axis, and no year of the axis is nearer
    (by absolute distance) to the bound; on an empty axis there is no year
    to return and it returns the default it was given. *)
Theorem getClosest_snaps_to_axis :
  forall (s : Timeline.t) (defaultValue : TimeBound),
    Timeline.getClosest s unboundedLeft defaultValue = unboundedLeft
    /\ Timeline.getClosest s unboundedRight defaultValue = unboundedRight
    /\ forall y : Time,
         match Timeline.years s with
         | [] =>
             Timeline.getClosest s (concrete y) defaultValue = defaultValue
         | _ :: _ =>
             exists c : Time,
               Timeline.getClosest s (concrete y) defaultValue = concrete c
               /\ In c (Timeline.years s)
               /\ forall z, In z (Timeline.years s) ->
                    Qabs (c - y) <= Qabs (z - y)
         end.
Proof.
  intros s d. repeat split.
  intro y. unfold Timeline.getClosest. cbn [isUnbounded isUnboundedLeft
    isUnboundedRight orb].
  destruct (Timeline.years s) as [| y0 rest] eqn:E; [reflexivity |].
  destruct (findClosestYear_defined (y0 :: rest) y) as [c Hc]; [congruence |].
  rewrite Hc. exists c. split; [reflexivity |].
  now apply findClosestYear_nearest.
Qed.

(** C6 as stated fails on an empty axis: the concrete bound 2000 snaps to the
    default sentinel, which is no element of the axis. *)
Lemma getClosest_empty_axis_counterexample :
  Timeline.getClosest
    (Examples.timelineOf [] (concrete 2000) (concrete 2000))
    (concrete 2000) unboundedLeft = unboundedLeft
  /\ ~ exists c : Time,
         Timeline.getClosest
           (Examples.timelineOf [] (concrete 2000) (concrete 2000))
           (concrete 2000) unboundedLeft = concrete c
         /\ In c (Timeline.years
                    (Examples.timelineOf [] (concrete 2000) (concrete 2000))).
Proof.
  split; [reflexivity |].
  intros [c [_ H]]. exact H.
Qed.

(** C7, as the code has it.  [getYearUI] maps the left sentinel to [minYear],
    the right sentinel to [maxYear], and a concrete year to itself, without
    clamping; so the result equals the clamped year, and lies in
    [minYear, maxYear], exactly when the year itself lies there. *)
Theorem getYearUI_resolves_sentinels_only :
  forall s : Timeline.t,
    Timeline.getYearUI s unboundedLeft = Timeline.minYear s
    /\ Timeline.getYearUI s unboundedRight = Timeline.maxYear s
    /\ forall y : Time,
         Timeline.getYearUI s (concrete y) = y
         /\ (Timeline.minYear s <= Timeline.maxYear s ->
             (Timeline.getYearUI s (concrete y) == Timeline.getClampedYear s y
              <-> Timeline.minYear s <= y <= Timeline.maxYear s)).
Proof.
  intro s. split; [reflexivity |]. split; [reflexivity |].
  intro y. split; [reflexivity |].
  intro H. cbn [Timeline.getYearUI].
  pose proof (getClampedYear_bounds s y H) as [B1 B2].
  split.
  - intro E. lra.
  - intros [C1 C2]. symmetry. now apply getClampedYear_inside.
Qed.

(** C7 as stated fails: on the axis 1990..2010 the concrete bound 1800
    resolves to 1800, below [minYear], and not to the clamped year 1990. *)
Lemma getYearUI_not_clamped_counterexample :
  Timeline.getYearUI
    (Examples.timelineOf Examples.axis (concrete 1800) (concrete 2010))
    (concrete 1800)
  < Timeline.minYear
      (Examples.timelineOf Examples.axis (concrete 1800) (concrete 2010))
  /\ ~ (Timeline.getYearUI
          (Examples.timelineOf Examples.axis (concrete 1800) (concrete 2010))
          (concrete 1800)
        == Timeline.getClampedYear
             (Examples.timelineOf Examples.axis (concrete 1800)
                (concrete 2010))
             1800).
Proof.
  split.
  - reflexivity.
  - vm_compute. discriminate.
Qed.

(** C8.  On an empty year axis the constructor returns the component and
    logs one warning; in every state of that component [minYear] is 1900 and
    [maxYear] is 2000, so the divisor [maxYear - minYear] of the position
    arithmetic is 100, clamping stays within 1900..2000, and the freshly
    constructed component places its handles at 0 and 1. *)
Theorem empty_axis_uses_default_years :
  forall p : TimelineProps.t,
    TimelineProps.years p = [] ->
    snd (Timeline.constructor p)
      = [console_warn "invoking HTMLTimeline with empty years array"]
    /\ Timeline.props (fst (Timeline.constructor p)) = p
    /\ Timeline.startYearProgress (fst (Timeline.constructor p)) == 0
    /\ Timeline.endYearProgress (fst (Timeline.constructor p)) == 1
    /\ forall s : Timeline.t,
         Timeline.props s = p ->
         Timeline.minYear s = 1900
         /\ Timeline.maxYear s = 2000
         /\ Timeline.maxYear s - Timeline.minYear s == 100
         /\ ~ Timeline.maxYear s - Timeline.minYear s == 0
         /\ forall x : Time,
              1900 <= Timeline.getClampedYear s x <= 2000.
Proof.
  intros p Hp.
  assert (Hmin : forall s, Timeline.props s = p -> Timeline.minYear s = 1900).
  { intros s Hs. unfold Timeline.minYear. rewrite Hs, Hp. reflexivity. }
  assert (Hmax : forall s, Timeline.props s = p -> Timeline.maxYear s = 2000).
  { intros s Hs. unfold Timeline.maxYear. rewrite Hs, Hp. reflexivity. }
  assert (Hs0 : Timeline.props (fst (Timeline.constructor p)) = p)
    by reflexivity.
  split; [| split; [| split; [| split]]].
  - unfold Timeline.constructor. rewrite Hp. reflexivity.
  - exact Hs0.
  - unfold Timeline.startYearProgress, Timeline.startYearUI.
    rewrite (Hmax _ Hs0).
    change (Timeline.getYearUI (fst (Timeline.constructor p))
              (Timeline.startYear (fst (Timeline.constructor p))))
      with (Timeline.minYear (fst (Timeline.constructor p))).
    rewrite (Hmin _ Hs0). reflexivity.
  - unfold Timeline.endYearProgress, Timeline.endYearUI.
    rewrite (Hmin _ Hs0).
    change (Timeline.getYearUI (fst (Timeline.constructor p))
              (Timeline.endYear (fst (Timeline.constructor p))))
      with (Timeline.maxYear (fst (Timeline.constructor p))).
    rewrite (Hmax _ Hs0). reflexivity.
  - intros s Hs.
    assert (Hle : Timeline.minYear s <= Timeline.maxYear s).
    { rewrite (Hmin s Hs), (Hmax s Hs). discriminate. }
    split; [now apply Hmin |]. split; [now apply Hmax |].
    split; [rewrite (Hmin s Hs), (Hmax s Hs); reflexivity |].
    split; [rewrite (Hmin s Hs), (Hmax s Hs); discriminate |].
    intro x. pose proof (getClampedYear_bounds s x Hle) as [B1 B2].
    rewrite (Hmin s Hs) in B1. rewrite (Hmax s Hs) in B2. now split.
Qed.

Lemma empty_axis_uses_default_years_witness :
  snd (Timeline.constructor
         (Examples.propsOf [] unboundedLeft unboundedRight))
    = [console_warn "invoking HTMLTimeline with empty years array"]
  /\ Timeline.minYear
       (fst (Timeline.constructor
               (Examples.propsOf [] unboundedLeft unboundedRight))) = 1900.
Proof.
  pose proof (empty_axis_uses_default_years
                (Examples.propsOf [] unboundedLeft unboundedRight) eq_refl)
    as (H1 & _ & _ & _ & H2).
  split; [exact H1 |].
  exact (proj1 (H2 (fst (Timeline.constructor
                           (Examples.propsOf [] unboundedLeft unboundedRight)))
                  eq_refl)).
Defined.

(** C5, as the code has it.  On the axis 1990, 1995, 2000, 2005, 2010 with
    the external range (unboundedLeft, unboundedRight), mounting makes one
    call of [onTargetChange], with the two sentinels unchanged; it is the
    resolution for display, [startYearUI] and [endYearUI], that is 1990 and
    2010. *)
Theorem unbounded_range_is_emitted_unchanged :
  Page.onTargetChangeCalls
    (Examples.mountedOn Examples.axis unboundedLeft unboundedRight)
    = [(unboundedLeft, unboundedRight)]
  /\ Timeline.startYearUI
       (Page.timeline
          (Examples.mountedOn Examples.axis unboundedLeft unboundedRight))
     = 1990
  /\ Timeline.endYearUI
       (Page.timeline
          (Examples.mountedOn Examples.axis unboundedLeft unboundedRight))
     = 2010
  /\ forall getBoundFromTimeRange,
       Page.step getBoundFromTimeRange
         (Page.create
            (Examples.propsOf Examples.axis unboundedLeft unboundedRight))
         Page.didMount
       = Some (Examples.mountedOn Examples.axis unboundedLeft unboundedRight).
Proof.
  repeat split.
Qed.

(** C5 as stated fails: no call of [onTargetChange] carries a concrete pair,
    so (1990, 2010) is not what is emitted. *)
Lemma unbounded_range_counterexample :
  ~ exists a b : Time,
      In (concrete a, concrete b)
        (Page.onTargetChangeCalls
           (Examples.mountedOn Examples.axis unboundedLeft unboundedRight)).
Proof.
  intros (a & b & H). vm_compute in H.
  destruct H as [H | []]. discriminate H.
Qed.

(** ** Dragging *)

Section Dragging.

Variable getBoundFromTimeRange : Time * Time -> Time -> TimeBound.
Hypothesis bound_ok : bound_of_time_range getBoundFromTimeRange.

(** The bound made from a year of the domain resolves, for display, to that
    year. *)
Lemma bound_resolves_to_its_year (s : Timeline.t) (y : Time) :
  Timeline.minYear s <= y -> y <= Timeline.maxYear s ->
  Timeline.getYearUI s (getBoundFromTimeRange (Timeline.timeDomain s) y) == y.
Proof.
  intros H1 H2. unfold Timeline.timeDomain.
  destruct (bound_ok (Timeline.minYear s) (Timeline.maxYear s) y)
    as [E | [[L E] | [L E]]]; rewrite E; simpl; lra.
Qed.

(** A state whose raw bounds were made from an ordered pair of years of the
    domain displays that pair. *)
Lemma range_of_domain_resolves (s s' : Timeline.t) (a b : Time) :
  Timeline.props s' = Timeline.props s ->
  Timeline.startYearRaw s' = getBoundFromTimeRange (Timeline.timeDomain s) a ->
  Timeline.endYearRaw s' = getBoundFromTimeRange (Timeline.timeDomain s) b ->
  Timeline.minYear s <= a -> a <= b -> b <= Timeline.maxYear s ->
  Timeline.startYearUI s' == a /\ Timeline.endYearUI s' == b.
Proof.
  intros Hp Ra Rb H1 H2 H3.
  unfold Timeline.startYearUI, Timeline.endYearUI, Timeline.startYear,
    Timeline.endYear.
  rewrite Ra, Rb. unfold Timeline.timeDomain.
  assert (Hui : forall bd,
             Timeline.getYearUI s' bd
             = match bd with
               | unboundedLeft => Timeline.minYear s
               | concrete y => y
               | unboundedRight => Timeline.maxYear s
               end).
  { intros [| y |]; cbn [Timeline.getYearUI];
      unfold Timeline.minYear, Timeline.maxYear; rewrite ?Hp; reflexivity. }
  rewrite !Hui. unfold Math_min, Math_max.
  set (lo := Timeline.minYear s) in *. set (hi := Timeline.maxYear s) in *.
  destruct (bound_ok lo hi a) as [Ea | [[La Ea] | [La Ea]]];
    destruct (bound_ok lo hi b) as [Eb | [[Lb Eb] | [Lb Eb]]];
    rewrite Ea, Eb; cbn [TimeBounds.leb];
    try (destruct (Qle_bool a b) eqn:E;
         [| apply Qle_bool_false in E]);
    split; lra.
Qed.

Lemma onDrag_keeps_mode (s : Timeline.t) (x : Time) :
  Timeline.props (Timeline.onDrag getBoundFromTimeRange x s) = Timeline.props s
  /\ Timeline.isPlaying (Timeline.onDrag getBoundFromTimeRange x s)
     = Timeline.isPlaying s
  /\ Timeline.dragTarget (Timeline.onDrag getBoundFromTimeRange x s)
     = Timeline.dragTarget s
  /\ Timeline.dragOffsets (Timeline.onDrag getBoundFromTimeRange x s)
     = Timeline.dragOffsets s.
Proof.
  unfold Timeline.onDrag.
  destruct (TimelineProps.singleYearMode (Timeline.props s)
            || Timeline.isPlaying s
               && TimelineProps.singleYearPlay (Timeline.props s)).
  - repeat split.
  - destruct (Timeline.dragTarget s) as [[| |] |] eqn:Et;
      repeat match goal with
             | |- context [if ?b then _ else _] => destruct b
             end;
      repeat split; exact Et.
Qed.

(** C9.  While [dragTarget] is "start", outside single-year mode and
    single-year play, [onDrag] writes one field: [startYearRaw] becomes the
    bound of the clamped input year, which resolves to that year; the raw end
    bound and every other field stay as they were, wherever the new start
    lies relative to the end. *)
Theorem onDrag_start_writes_start_only (s : Timeline.t) (inputYear : Time) :
  Timeline.minYear s <= Timeline.maxYear s ->
  Timeline.dragTarget s = Some Timeline.dragStart ->
  TimelineProps.singleYearMode (Timeline.props s) = false ->
  Timeline.isPlaying s && TimelineProps.singleYearPlay (Timeline.props s)
    = false ->
  Timeline.onDrag getBoundFromTimeRange inputYear s
    = Timeline.set_startYearRaw
        (getBoundFromTimeRange (Timeline.timeDomain s)
           (Timeline.getClampedYear s inputYear))
        s
  /\ Timeline.endYearRaw (Timeline.onDrag getBoundFromTimeRange inputYear s)
     = Timeline.endYearRaw s
  /\ Timeline.getYearUI s
       (Timeline.startYearRaw
          (Timeline.onDrag getBoundFromTimeRange inputYear s))
     == Timeline.getClampedYear s inputYear.
Proof.
  intros Hle Ht Hm Hp.
  assert (E : Timeline.onDrag getBoundFromTimeRange inputYear s
              = Timeline.set_startYearRaw
                  (getBoundFromTimeRange (Timeline.timeDomain s)
                     (Timeline.getClampedYear s inputYear)) s).
  { unfold Timeline.onDrag. rewrite Hm, Hp, Ht. reflexivity. }
  rewrite E. split; [reflexivity |]. split; [reflexivity |].
  cbn [Timeline.startYearRaw Timeline.set_startYearRaw].
  destruct (getClampedYear_bounds s inputYear Hle) as [B1 B2].
  now apply bound_resolves_to_its_year.
Qed.


(** The "both" branch of [onDrag], with offsets recorded in order: the
    displayed bounds stay within the axis and in order, and are the shifted
    interval, or the interval pinned at the end of the axis it crossed. *)
Lemma onDrag_both_resolved
    (s : Timeline.t) (inputYear : Time) :
  Timeline.minYear s <= Timeline.maxYear s ->
  Timeline.dragTarget s = Some Timeline.dragBoth ->
  TimelineProps.singleYearMode (Timeline.props s) = false ->
  Timeline.isPlaying s && TimelineProps.singleYearPlay (Timeline.props s)
    = false ->
  fst (Timeline.dragOffsets s) <= snd (Timeline.dragOffsets s) ->
  let s' := Timeline.onDrag getBoundFromTimeRange inputYear s in
  let offsetStart := fst (Timeline.dragOffsets s) in
  let offsetEnd := snd (Timeline.dragOffsets s) in
  (Timeline.minYear s <= Timeline.startYearUI s'
   /\ Timeline.startYearUI s' <= Timeline.endYearUI s'
   /\ Timeline.endYearUI s' <= Timeline.maxYear s)
  /\ Timeline.endYearUI s' - Timeline.startYearUI s' <= offsetEnd - offsetStart
  /\ (Timeline.minYear s <= offsetStart + inputYear ->
      offsetEnd + inputYear <= Timeline.maxYear s ->
      Timeline.startYearUI s' == offsetStart + inputYear
      /\ Timeline.endYearUI s' == offsetEnd + inputYear
      /\ Timeline.endYearUI s' - Timeline.startYearUI s'
         == offsetEnd - offsetStart)
  /\ (offsetStart + inputYear < Timeline.minYear s ->
      Timeline.startYearUI s' == Timeline.minYear s
      /\ Timeline.endYearUI s'
         == Timeline.getClampedYear s
              (Timeline.minYear s + (offsetEnd - offsetStart)))
  /\ (Timeline.minYear s <= offsetStart + inputYear ->
      Timeline.maxYear s < offsetEnd + inputYear ->
      Timeline.endYearUI s' == Timeline.maxYear s
      /\ Timeline.startYearUI s'
         == Timeline.getClampedYear s
              (Timeline.maxYear s + (offsetStart - offsetEnd))).
Proof.
  intros Hle Ht Hm Hp Ho. cbv zeta.
  unfold Timeline.onDrag. rewrite Hm, Hp, Ht. cbn [orb].
  destruct (Timeline.dragOffsets s) as [o0 o1]. cbn [fst snd] in *.
  assert (lo_ok := getClampedYear_bounds s (Timeline.minYear s + (o1 - o0)) Hle).
  assert (hi_ok := getClampedYear_bounds s (Timeline.maxYear s + (o0 - o1)) Hle).
  assert (lo_le : Timeline.getClampedYear s (Timeline.minYear s + (o1 - o0))
                  <= Timeline.minYear s + (o1 - o0)).
  { apply getClampedYear_le. lra. }
  assert (hi_ge : Timeline.maxYear s + (o0 - o1)
                  <= Timeline.getClampedYear s
                       (Timeline.maxYear s + (o0 - o1))).
  { apply getClampedYear_ge. lra. }
  destruct (Qlt_bool (o0 + inputYear) (Timeline.minYear s)) eqn:B1;
    [apply Qlt_bool_true in B1
    | apply Qlt_bool_false in B1;
      destruct (Qlt_bool (Timeline.maxYear s) (o1 + inputYear)) eqn:B2;
      [apply Qlt_bool_true in B2 | apply Qlt_bool_false in B2]];
    match goal with
    | |- context [Timeline.onRangeYearChange _ (?a, ?b) s] =>
        destruct (range_of_domain_resolves s
                    (Timeline.onRangeYearChange getBoundFromTimeRange (a, b) s)
                    a b eq_refl eq_refl eq_refl)
          as [Ea Eb]; [lra | lra | lra |]
    end;
    repeat apply conj; try lra; intros; repeat apply conj; lra.
Qed.


End Dragging.

(** The start handle dragged to 2008, past the end at 2005: the raw end
    stays 2005. *)
Lemma onDrag_start_writes_start_only_witness :
  Timeline.dragTarget Examples.draggedStart = Some Timeline.dragStart
  /\ Timeline.endYearRaw
       (Timeline.onDrag Examples.boundAsGiven 2008 Examples.draggedStart)
     = concrete 2005.
Proof.
  split; [reflexivity |].
  assert (H1 : Timeline.minYear Examples.draggedStart
               <= Timeline.maxYear Examples.draggedStart)
    by (vm_compute; discriminate).
  destruct (onDrag_start_writes_start_only Examples.boundAsGiven
              boundAsGiven_ok Examples.draggedStart 2008 H1
              eq_refl eq_refl eq_refl) as (_ & E & _).
  rewrite E. reflexivity.
Defined.



(** ** Playback *)

Lemma playFrame_not_playing (s : Timeline.t) (lastTime : option Time)
    (time : Time) :
  Timeline.isPlaying s = false ->
  Timeline.playFrame lastTime time s = Some (s, None).
Proof. intro H. unfold Timeline.playFrame. rewrite H. reflexivity. Qed.

Lemma playFrame_first_at_end (s : Timeline.t) (time : Time) :
  Timeline.isPlaying s = true ->
  Timeline.maxYear s <= Timeline.endYearUI s ->
  Timeline.playFrame None time s
  = Some (Timeline.set_endYearRaw (concrete (Timeline.minYear s))
            (Timeline.set_startYearRaw (concrete (Timeline.minYear s)) s),
          Some time).
Proof.
  intros H L. unfold Timeline.playFrame. rewrite H. cbn [negb].
  apply Qle_bool_iff in L. rewrite L. reflexivity.
Qed.

Lemma playFrame_first_before_end (s : Timeline.t) (time : Time) :
  Timeline.isPlaying s = true ->
  Timeline.endYearUI s < Timeline.maxYear s ->
  Timeline.playFrame None time s = Some (s, Some time).
Proof.
  intros H L. unfold Timeline.playFrame. rewrite H. cbn [negb].
  apply Qle_bool_false in L. rewrite L. reflexivity.
Qed.

Lemma playFrame_later_at_end (s : Timeline.t) (lastTime time : Time) :
  Timeline.isPlaying s = true ->
  Timeline.maxYear s <= Timeline.endYearUI s ->
  Timeline.playFrame (Some lastTime) time s
  = Some (Timeline.set_isPlaying false s, Some time).
Proof.
  intros H L. unfold Timeline.playFrame. rewrite H. cbn [negb].
  apply Qle_bool_iff in L. rewrite L. reflexivity.
Qed.

Lemma filter_only_frame (h : nat) (cb : Page.Callback) :
  filter (fun hc : nat * Page.Callback => negb (Nat.eqb (fst hc) h)) [(h, cb)]
  = [].
Proof. simpl. rewrite Nat.eqb_refl. reflexivity. Qed.

(** Unfolding of the record fields and setters of the page and the
    component. *)
Ltac page_simpl :=
  cbn [Page.timeline Page.lifecycle Page.nextHandle Page.frameCallbacks
       Page.debounceMode Page.onTargetChangeCalls Page.targetSeen
       Page.targetPending Page.console
       Page.set_timeline Page.set_lifecycle Page.set_frames
       Page.set_debounceMode Page.set_target Page.isMounted
       Timeline.props Timeline.isPlaying Timeline.dragTarget
       Timeline.startYearRaw Timeline.endYearRaw Timeline.dragOffsets
       Timeline.animRequest Timeline.queuedAnimationFrame
       Timeline.set_props Timeline.set_isPlaying Timeline.set_dragTarget
       Timeline.set_startYearRaw Timeline.set_endYearRaw
       Timeline.set_dragOffsets Timeline.set_animRequest
       Timeline.set_queuedAnimationFrame
       negb xorb orb andb app fst snd map].

Lemma lockToClosest_keeps_mode (s : Timeline.t) :
  Timeline.isPlaying (Timeline.lockToClosest s) = Timeline.isPlaying s
  /\ Timeline.dragTarget (Timeline.lockToClosest s) = Timeline.dragTarget s
  /\ Timeline.props (Timeline.lockToClosest s) = Timeline.props s.
Proof.
  unfold Timeline.lockToClosest.
  destruct (negb (Timeline.isPlaying s) && negb (Timeline.isDragging s));
    repeat split.
Qed.

(** On the mounted page, the frame in which playback stops leaves no frame
    pending: the reaction to [isPlaying] runs [onStopPlaying], which cancels
    the request the closure has just made. *)
Lemma stop_frame_cancels_request
    (getBoundFromTimeRange : Time * Time -> Time -> TimeBound)
    (w : Page.t) (h : nat) (lastTime time : Time) :
  Page.isMounted w = true ->
  Page.frameCallbacks w = [(h, Page.playFrame_callback (Some lastTime))] ->
  Timeline.isPlaying (Page.timeline w) = true ->
  Timeline.maxYear (Page.timeline w) <= Timeline.endYearUI (Page.timeline w) ->
  exists w',
    Page.step getBoundFromTimeRange w (Page.animationFrame time) = Some w'
    /\ Page.frameCallbacks w' = []
    /\ Timeline.isPlaying (Page.timeline w') = false
    /\ Page.timeline w'
       = Timeline.lockToClosest
           (Timeline.set_animRequest (Some (Page.nextHandle w))
              (Timeline.set_isPlaying false (Page.timeline w))).
Proof.
  intros Hm Hf Hp Hend.
  destruct w as [s lc nh fr db calls seen pend cons].
  cbn in Hm, Hf, Hp, Hend. subst fr.
  destruct lc; try discriminate.
  unfold Page.step, Page.handle. page_simpl.
  cbn [Page.runFrame].
  unfold Page.lookupCallback. page_simpl.
  cbn [find fst]. rewrite Nat.eqb_refl.
  unfold Page.runCallback, Page.action, Page.playFrame,
    Page.cancelAnimationFrame.
  page_simpl.
  rewrite (playFrame_later_at_end s lastTime time Hp Hend).
  rewrite filter_only_frame.
  unfold Page.requestAnimationFrame. page_simpl.
  unfold Page.reactions. page_simpl.
  rewrite Hp. page_simpl.
  unfold Page.reaction_playing. page_simpl.
  unfold Page.onStopPlaying, Page.cancelAnimationFrame. page_simpl.
  rewrite filter_only_frame.
  unfold Page.reaction_debounce, Page.reaction_lock. page_simpl.
  eexists. split; [reflexivity |].
  unfold Page.runTimers, Page.invalidate_onTargetChange,
    Page.reaction_onTargetChange.
  page_simpl.
  repeat match goal with
         | |- context [match ?b with _ => _ end] => destruct b
         end; page_simpl; repeat split;
    now rewrite (proj1 (lockToClosest_keeps_mode _)).
Qed.

(** ** Locking to the closest year *)








Lemma invalidate_onTargetChange_timeline (w : Page.t) :
  Page.timeline (Page.invalidate_onTargetChange w) = Page.timeline w.
Proof.
  unfold Page.invalidate_onTargetChange.
  destruct (Page.targetSeen w) as [seen |]; [| reflexivity].
  destruct (Page.pair_eqb seen (Page.target w)); reflexivity.
Qed.




(** ** Unmounting *)

(** C4 on the code.  [componentWillUnmount] leaves every pending frame
    callback in place.  Unmounted in the middle of a playback, the page still
    holds the frame requested by [playFrame]; when that frame fires the raw
    end bound moves on, from 1995 + 5/3 to 1995 + 8/3, and a further frame is
    requested.  [onTargetChange] is not called again. *)
Theorem unmount_leaves_frames_pending :
  (forall w : Page.t,
     Page.frameCallbacks (Page.componentWillUnmount w) = Page.frameCallbacks w
     /\ Page.timeline (Page.componentWillUnmount w) = Page.timeline w)
  /\ (forall getBoundFromTimeRange,
     exists w1 w2 w3 : Page.t,
       Page.run getBoundFromTimeRange
         (Page.create
            (Examples.propsOf Examples.axis (concrete 1990) (concrete 1995)))
         Examples.playbackEvents = Some w1
       /\ Page.step getBoundFromTimeRange w1 Page.willUnmount = Some w2
       /\ Page.lifecycle w2 = Page.unmounted
       /\ Page.frameCallbacks w2 = [(3%nat, Page.playFrame_callback (Some 200))]
       /\ Page.step getBoundFromTimeRange w2 (Page.animationFrame 400)
          = Some w3
       /\ TimeBounds.eq (Timeline.endYearRaw (Page.timeline w2))
            (concrete (1995 + 5 / 3))
       /\ TimeBounds.eq (Timeline.endYearRaw (Page.timeline w3))
            (concrete (1995 + 8 / 3))
       /\ Page.frameCallbacks w3 = [(4%nat, Page.playFrame_callback (Some 400))]
       /\ Page.onTargetChangeCalls w3 = Page.onTargetChangeCalls w2).
Proof.
  split; [intro w; split; reflexivity |].
  intro gb. do 3 eexists.
  split; [vm_compute; reflexivity |].
  split; [vm_compute; reflexivity |].
  split; [reflexivity |].
  split; [reflexivity |].
  split; [vm_compute; reflexivity |].
  split; [vm_compute; reflexivity |].
  split; [vm_compute; reflexivity |].
  split; reflexivity.
Qed.

(** ** More on the displayed bounds *)

(** A bound is within the axis when its display resolution is. *)
Lemma getYearUI_Math_min (s : Timeline.t) (p q : TimeBound) :
  Timeline.minYear s <= Timeline.maxYear s ->
  Timeline.minYear s <= Timeline.getYearUI s p <= Timeline.maxYear s ->
  Timeline.minYear s <= Timeline.getYearUI s q <= Timeline.maxYear s ->
  Timeline.getYearUI s (Math_min p q)
  == Qmin (Timeline.getYearUI s p) (Timeline.getYearUI s q)
  /\ Timeline.getYearUI s (Math_max p q)
     == Qmax (Timeline.getYearUI s p) (Timeline.getYearUI s q).
Proof.
  intros Hle Hp Hq. unfold Math_min, Math_max.
  destruct (Q.min_spec (Timeline.getYearUI s p) (Timeline.getYearUI s q))
    as [[L1 E1] | [L1 E1]];
    destruct (Q.max_spec (Timeline.getYearUI s p) (Timeline.getYearUI s q))
      as [[L2 E2] | [L2 E2]];
    destruct p as [| x |], q as [| y |]; cbn [TimeBounds.leb];
    try (destruct (Qle_bool x y) eqn:E;
         [apply Qle_bool_iff in E | apply Qle_bool_false in E]);
    cbn [Timeline.getYearUI] in *;
    split; lra.
Qed.

(** X1.  When both raw bounds resolve within [minYear, maxYear], the
    displayed start and end are the smaller and the larger of the two
    displayed raw bounds, so the displayed start is not above the displayed
    end. *)
Theorem displayed_bounds_are_min_and_max (s : Timeline.t) :
  Timeline.minYear s <= Timeline.maxYear s ->
  Timeline.minYear s <= Timeline.getYearUI s (Timeline.startYearRaw s)
    <= Timeline.maxYear s ->
  Timeline.minYear s <= Timeline.getYearUI s (Timeline.endYearRaw s)
    <= Timeline.maxYear s ->
  Timeline.startYearUI s
  == Qmin (Timeline.getYearUI s (Timeline.startYearRaw s))
          (Timeline.getYearUI s (Timeline.endYearRaw s))
  /\ Timeline.endYearUI s
     == Qmax (Timeline.getYearUI s (Timeline.startYearRaw s))
             (Timeline.getYearUI s (Timeline.endYearRaw s))
  /\ Timeline.minYear s <= Timeline.startYearUI s
  /\ Timeline.startYearUI s <= Timeline.endYearUI s
  /\ Timeline.endYearUI s <= Timeline.maxYear s.
Proof.
  intros Hle Hs He.
  destruct (getYearUI_Math_min s _ _ Hle Hs He) as [E1 E2].
  unfold Timeline.startYearUI, Timeline.endYearUI, Timeline.startYear,
    Timeline.endYear.
  destruct (Q.min_spec (Timeline.getYearUI s (Timeline.startYearRaw s))
              (Timeline.getYearUI s (Timeline.endYearRaw s)))
    as [[L1 M1] | [L1 M1]];
    destruct (Q.max_spec (Timeline.getYearUI s (Timeline.startYearRaw s))
                (Timeline.getYearUI s (Timeline.endYearRaw s)))
      as [[L2 M2] | [L2 M2]];
    repeat apply conj; lra.
Qed.

(** The raw bounds (2005, 1995), inverted as a drag leaves them, display as
    1995 to 2005. *)
Lemma displayed_bounds_are_min_and_max_witness :
  Timeline.startYearUI
    (Examples.timelineOf Examples.axis (concrete 2005) (concrete 1995))
  == 1995
  /\ Timeline.endYearUI
       (Examples.timelineOf Examples.axis (concrete 2005) (concrete 1995))
     == 2005.
Proof.
  assert (H0 : Timeline.minYear
                 (Examples.timelineOf Examples.axis (concrete 2005)
                    (concrete 1995))
               <= Timeline.maxYear
                    (Examples.timelineOf Examples.axis (concrete 2005)
                       (concrete 1995)))
    by (vm_compute; discriminate).
  destruct (displayed_bounds_are_min_and_max
              (Examples.timelineOf Examples.axis (concrete 2005)
                 (concrete 1995)) H0)
    as (E1 & E2 & _).
  - split; vm_compute; discriminate.
  - split; vm_compute; discriminate.
  - split; [rewrite E1 | rewrite E2]; vm_compute; reflexivity.
Defined.

(** X2.  Outside that range the display can invert: with the left sentinel
    as one raw bound and a concrete year below [minYear] as the other, in
    either order, the displayed start is [minYear] and the displayed end is
    that year, which is smaller. *)
Theorem displayed_bounds_invert_below_axis (s : Timeline.t) (y : Time) :
  (Timeline.startYearRaw s = unboundedLeft
   /\ Timeline.endYearRaw s = concrete y)
  \/ (Timeline.startYearRaw s = concrete y
      /\ Timeline.endYearRaw s = unboundedLeft) ->
  y < Timeline.minYear s ->
  Timeline.startYearUI s = Timeline.minYear s
  /\ Timeline.endYearUI s = y
  /\ Timeline.endYearUI s < Timeline.startYearUI s.
Proof.
  intros [[Hs He] | [Hs He]] Hy;
    unfold Timeline.startYearUI, Timeline.endYearUI, Timeline.startYear,
      Timeline.endYear;
    rewrite Hs, He; cbn; repeat split; exact Hy.
Qed.

Lemma displayed_bounds_invert_below_axis_witness :
  Timeline.startYearUI
    (Examples.timelineOf Examples.axis unboundedLeft (concrete 1800))
  = 1990
  /\ Timeline.endYearUI
       (Examples.timelineOf Examples.axis unboundedLeft (concrete 1800))
     = 1800.
Proof.
  destruct (displayed_bounds_invert_below_axis
              (Examples.timelineOf Examples.axis unboundedLeft (concrete 1800))
              1800 (or_introl (conj eq_refl eq_refl)) eq_refl)
    as (E1 & E2 & _).
  split; [exact E1 | exact E2].
Defined.

(** ** More on dragging *)

Section MoreDragging.

Variable getBoundFromTimeRange : Time * Time -> Time -> TimeBound.
Hypothesis bound_ok : bound_of_time_range getBoundFromTimeRange.

(** X3.  While [dragTarget] is "end", outside single-year mode and
    single-year play, [onDrag] writes one field: [endYearRaw] becomes the
    bound of the clamped input year, which resolves to that year; the raw
    start bound and every other field stay as they were. *)
Theorem onDrag_end_writes_end_only (s : Timeline.t) (inputYear : Time) :
  Timeline.minYear s <= Timeline.maxYear s ->
  Timeline.dragTarget s = Some Timeline.dragEnd ->
  TimelineProps.singleYearMode (Timeline.props s) = false ->
  Timeline.isPlaying s && TimelineProps.singleYearPlay (Timeline.props s)
    = false ->
  Timeline.onDrag getBoundFromTimeRange inputYear s
    = Timeline.set_endYearRaw
        (getBoundFromTimeRange (Timeline.timeDomain s)
           (Timeline.getClampedYear s inputYear))
        s
  /\ Timeline.startYearRaw (Timeline.onDrag getBoundFromTimeRange inputYear s)
     = Timeline.startYearRaw s
  /\ Timeline.getYearUI s
       (Timeline.endYearRaw
          (Timeline.onDrag getBoundFromTimeRange inputYear s))
     == Timeline.getClampedYear s inputYear.
Proof.
  intros Hle Ht Hm Hp.
  assert (E : Timeline.onDrag getBoundFromTimeRange inputYear s
              = Timeline.set_endYearRaw
                  (getBoundFromTimeRange (Timeline.timeDomain s)
                     (Timeline.getClampedYear s inputYear)) s).
  { unfold Timeline.onDrag. rewrite Hm, Hp, Ht. reflexivity. }
  rewrite E. split; [reflexivity |]. split; [reflexivity |].
  cbn [Timeline.endYearRaw Timeline.set_endYearRaw].
  destruct (getClampedYear_bounds s inputYear Hle) as [B1 B2].
  now apply bound_resolves_to_its_year.
Qed.

(** X4.  Dragging one handle, the other raw bound resolving within the
    axis: the displayed interval runs from the smaller to the larger of the
    clamped input year and the display of the other bound.  A handle dragged
    across the other therefore swaps roles with it in the display. *)
Theorem onDrag_one_handle_displays_ordered_interval
    (s : Timeline.t) (inputYear : Time) (fixed : TimeBound) :
  Timeline.minYear s <= Timeline.maxYear s ->
  TimelineProps.singleYearMode (Timeline.props s) = false ->
  Timeline.isPlaying s && TimelineProps.singleYearPlay (Timeline.props s)
    = false ->
  (Timeline.dragTarget s = Some Timeline.dragStart
   /\ fixed = Timeline.endYearRaw s)
  \/ (Timeline.dragTarget s = Some Timeline.dragEnd
      /\ fixed = Timeline.startYearRaw s) ->
  Timeline.minYear s <= Timeline.getYearUI s fixed <= Timeline.maxYear s ->
  Timeline.startYearUI (Timeline.onDrag getBoundFromTimeRange inputYear s)
  == Qmin (Timeline.getYearUI s fixed) (Timeline.getClampedYear s inputYear)
  /\ Timeline.endYearUI (Timeline.onDrag getBoundFromTimeRange inputYear s)
     == Qmax (Timeline.getYearUI s fixed)
             (Timeline.getClampedYear s inputYear).
Proof.
  intros Hle Hm Hp Ht Hfixed.
  destruct (getClampedYear_bounds s inputYear Hle) as [B1 B2].
  pose proof (bound_resolves_to_its_year getBoundFromTimeRange bound_ok s
                (Timeline.getClampedYear s inputYear) B1 B2) as Ec.
  set (c := Timeline.getClampedYear s inputYear) in *.
  set (b := getBoundFromTimeRange (Timeline.timeDomain s) c) in *.
  assert (Hb : Timeline.minYear s <= Timeline.getYearUI s b
               <= Timeline.maxYear s) by (split; lra).
  destruct Ht as [[Ht ->] | [Ht ->]].
  - assert (E : Timeline.onDrag getBoundFromTimeRange inputYear s
                = Timeline.set_startYearRaw b s).
    { unfold Timeline.onDrag. rewrite Hm, Hp, Ht. reflexivity. }
    rewrite E.
    destruct (getYearUI_Math_min s b (Timeline.endYearRaw s) Hle Hb Hfixed)
      as [E1 E2].
    unfold Timeline.startYearUI, Timeline.endYearUI, Timeline.startYear,
      Timeline.endYear.
    cbn [Timeline.startYearRaw Timeline.endYearRaw Timeline.set_startYearRaw].
    change (Timeline.getYearUI (Timeline.set_startYearRaw b s))
      with (Timeline.getYearUI s).
    rewrite E1, E2, Ec. split; [apply Q.min_comm | apply Q.max_comm].
  - assert (E : Timeline.onDrag getBoundFromTimeRange inputYear s
                = Timeline.set_endYearRaw b s).
    { unfold Timeline.onDrag. rewrite Hm, Hp, Ht. reflexivity. }
    rewrite E.
    destruct (getYearUI_Math_min s (Timeline.startYearRaw s) b Hle Hfixed Hb)
      as [E1 E2].
    unfold Timeline.startYearUI, Timeline.endYearUI, Timeline.startYear,
      Timeline.endYear.
    cbn [Timeline.startYearRaw Timeline.endYearRaw Timeline.set_endYearRaw].
    change (Timeline.getYearUI (Timeline.set_endYearRaw b s))
      with (Timeline.getYearUI s).
    rewrite E1, E2, Ec. split; reflexivity.
Qed.

(** X5.  In single-year mode, or while playing with single-year play,
    [onDrag] ignores the drag target: both raw bounds become the bound of
    the clamped input year, the resolved start and end coincide and display
    that year, and on an axis with at least one year the two snapped bounds
    are the same. *)
Theorem onDrag_single_year_moves_both_bounds
    (s : Timeline.t) (inputYear : Time) :
  Timeline.minYear s <= Timeline.maxYear s ->
  TimelineProps.singleYearMode (Timeline.props s)
  || (Timeline.isPlaying s && TimelineProps.singleYearPlay (Timeline.props s))
    = true ->
  let s' := Timeline.onDrag getBoundFromTimeRange inputYear s in
  let year :=
    getBoundFromTimeRange (Timeline.timeDomain s)
      (Timeline.getClampedYear s inputYear) in
  s' = Timeline.set_endYearRaw year (Timeline.set_startYearRaw year s)
  /\ Timeline.startYear s' = year
  /\ Timeline.endYear s' = year
  /\ Timeline.startYearUI s' == Timeline.getClampedYear s inputYear
  /\ Timeline.endYearUI s' == Timeline.getClampedYear s inputYear
  /\ (Timeline.years s <> [] ->
      Timeline.startYearClosest s' = Timeline.endYearClosest s').
Proof.
  intros Hle Hmode. cbv zeta.
  assert (E : Timeline.onDrag getBoundFromTimeRange inputYear s
              = Timeline.set_endYearRaw
                  (getBoundFromTimeRange (Timeline.timeDomain s)
                     (Timeline.getClampedYear s inputYear))
                  (Timeline.set_startYearRaw
                     (getBoundFromTimeRange (Timeline.timeDomain s)
                        (Timeline.getClampedYear s inputYear)) s)).
  { unfold Timeline.onDrag. rewrite Hmode. reflexivity. }
  rewrite E.
  set (year := getBoundFromTimeRange (Timeline.timeDomain s)
                 (Timeline.getClampedYear s inputYear)).
  destruct (getClampedYear_bounds s inputYear Hle) as [B1 B2].
  pose proof (bound_resolves_to_its_year getBoundFromTimeRange bound_ok s
                (Timeline.getClampedYear s inputYear) B1 B2) as Ec.
  fold year in Ec.
  assert (Es : Timeline.startYear
                 (Timeline.set_endYearRaw year
                    (Timeline.set_startYearRaw year s)) = year).
  { unfold Timeline.startYear, Math_min. cbn.
    now destruct (TimeBounds.leb year year). }
  assert (Ee : Timeline.endYear
                 (Timeline.set_endYearRaw year
                    (Timeline.set_startYearRaw year s)) = year).
  { unfold Timeline.endYear, Math_max. cbn.
    now destruct (TimeBounds.leb year year). }
  split; [reflexivity |]. split; [exact Es |]. split; [exact Ee |].
  unfold Timeline.startYearUI, Timeline.endYearUI,
    Timeline.startYearClosest, Timeline.endYearClosest.
  rewrite Es, Ee.
  change (Timeline.getYearUI
            (Timeline.set_endYearRaw year (Timeline.set_startYearRaw year s)))
    with (Timeline.getYearUI s).
  split; [exact Ec |]. split; [exact Ec |].
  intro Hne. unfold Timeline.getClosest.
  change (Timeline.years
            (Timeline.set_endYearRaw year (Timeline.set_startYearRaw year s)))
    with (Timeline.years s).
  destruct year as [| y |]; cbn; try reflexivity.
  destruct (findClosestYear_defined (Timeline.years s) y Hne) as [c Hc].
  now rewrite Hc.
Qed.

End MoreDragging.

(** The end handle of (1995, 2005) dragged to 1992, across the start: the
    raw start stays 1995 and the display runs from 1992 to 1995. *)
Lemma onDrag_end_writes_end_only_witness :
  Timeline.startYearRaw
    (Timeline.onDrag Examples.boundAsGiven 1992
       (Timeline.set_dragTarget (Some Timeline.dragEnd)
          (Examples.timelineOf Examples.axis (concrete 1995) (concrete 2005))))
  = concrete 1995.
Proof.
  assert (H1 : Timeline.minYear
                 (Timeline.set_dragTarget (Some Timeline.dragEnd)
                    (Examples.timelineOf Examples.axis (concrete 1995)
                       (concrete 2005)))
               <= Timeline.maxYear
                    (Timeline.set_dragTarget (Some Timeline.dragEnd)
                       (Examples.timelineOf Examples.axis (concrete 1995)
                          (concrete 2005))))
    by (vm_compute; discriminate).
  destruct (onDrag_end_writes_end_only Examples.boundAsGiven boundAsGiven_ok
              (Timeline.set_dragTarget (Some Timeline.dragEnd)
                 (Examples.timelineOf Examples.axis (concrete 1995)
                    (concrete 2005)))
              1992 H1 eq_refl eq_refl eq_refl) as (_ & E & _).
  rewrite E. reflexivity.
Defined.

Lemma onDrag_one_handle_displays_ordered_interval_witness :
  Timeline.startYearUI
    (Timeline.onDrag Examples.boundWithSentinels 1992
       (Timeline.set_dragTarget (Some Timeline.dragEnd)
          (Examples.timelineOf Examples.axis (concrete 1995) (concrete 2005))))
  == 1992
  /\ Timeline.endYearUI
       (Timeline.onDrag Examples.boundWithSentinels 1992
          (Timeline.set_dragTarget (Some Timeline.dragEnd)
             (Examples.timelineOf Examples.axis (concrete 1995)
                (concrete 2005))))
     == 1995.
Proof.
  assert (H1 : Timeline.minYear
                 (Timeline.set_dragTarget (Some Timeline.dragEnd)
                    (Examples.timelineOf Examples.axis (concrete 1995)
                       (concrete 2005)))
               <= Timeline.maxYear
                    (Timeline.set_dragTarget (Some Timeline.dragEnd)
                       (Examples.timelineOf Examples.axis (concrete 1995)
                          (concrete 2005))))
    by (vm_compute; discriminate).
  destruct (onDrag_one_handle_displays_ordered_interval
              Examples.boundWithSentinels boundWithSentinels_ok
              (Timeline.set_dragTarget (Some Timeline.dragEnd)
                 (Examples.timelineOf Examples.axis (concrete 1995)
                    (concrete 2005)))
              1992 (concrete 1995) H1 eq_refl eq_refl
              (or_intror (conj eq_refl eq_refl)))
    as [E1 E2].
  - split; vm_compute; discriminate.
  - split; [rewrite E1 | rewrite E2]; vm_compute; reflexivity.
Defined.

(** Single-year mode on the axis 1990, 1995, ..., 2010, pointer at 1998:
    both bounds display 1998 and snap to 2000. *)
Lemma onDrag_single_year_moves_both_bounds_witness :
  Timeline.startYearClosest
    (Timeline.onDrag Examples.boundAsGiven 1998
       (Timeline.syncFromProps
          (fst (Timeline.constructor
                  (TimelineProps.mk Examples.axis unboundedLeft unboundedRight
                     true false false)))))
  = concrete 2000
  /\ Timeline.endYearClosest
       (Timeline.onDrag Examples.boundAsGiven 1998
          (Timeline.syncFromProps
             (fst (Timeline.constructor
                     (TimelineProps.mk Examples.axis unboundedLeft
                        unboundedRight true false false)))))
     = concrete 2000.
Proof.
  assert (H1 : Timeline.minYear
                 (Timeline.syncFromProps
                    (fst (Timeline.constructor
                            (TimelineProps.mk Examples.axis unboundedLeft
                               unboundedRight true false false))))
               <= Timeline.maxYear
                    (Timeline.syncFromProps
                       (fst (Timeline.constructor
                               (TimelineProps.mk Examples.axis unboundedLeft
                                  unboundedRight true false false)))))
    by (vm_compute; discriminate).
  destruct (onDrag_single_year_moves_both_bounds Examples.boundAsGiven
              boundAsGiven_ok
              (Timeline.syncFromProps
                 (fst (Timeline.constructor
                         (TimelineProps.mk Examples.axis unboundedLeft
                            unboundedRight true false false))))
              1998 H1 eq_refl) as (_ & _ & _ & _ & _ & E).
  assert (Hne : Timeline.years
                  (Timeline.syncFromProps
                     (fst (Timeline.constructor
                             (TimelineProps.mk Examples.axis unboundedLeft
                                unboundedRight true false false))))
                <> []) by discriminate.
  specialize (E Hne). split; [| rewrite <- E]; vm_compute; reflexivity.
Defined.

(** ** Clamping and the pixel mapping *)

(** X6.  [getClampedYear] on an axis with [minYear <= maxYear] returns a year
    of [minYear, maxYear], returns a year of that range unchanged, and is
    idempotent; on an axis whose first year is above its last it returns
    [maxYear] for every input. *)
Theorem getClampedYear_clamps (s : Timeline.t) (x : Time) :
  (Timeline.minYear s <= Timeline.maxYear s ->
   Timeline.minYear s <= Timeline.getClampedYear s x <= Timeline.maxYear s
   /\ (Timeline.minYear s <= x <= Timeline.maxYear s ->
       Timeline.getClampedYear s x == x)
   /\ (x <= Timeline.minYear s ->
       Timeline.getClampedYear s x == Timeline.minYear s)
   /\ (Timeline.maxYear s <= x ->
       Timeline.getClampedYear s x == Timeline.maxYear s)
   /\ Timeline.getClampedYear s (Timeline.getClampedYear s x)
      == Timeline.getClampedYear s x)
  /\ (Timeline.maxYear s < Timeline.minYear s ->
      Timeline.getClampedYear s x == Timeline.maxYear s).
Proof.
  split.
  - intro Hle.
    pose proof (getClampedYear_bounds s x Hle) as [B1 B2].
    split; [now split |].
    split; [intros [C1 C2]; now apply getClampedYear_inside |].
    split; [| split].
    + intro C. unfold Timeline.getClampedYear. clamp_cases s x; lra.
    + intro C. unfold Timeline.getClampedYear. clamp_cases s x; lra.
    + now apply getClampedYear_inside.
  - intro Hgt. unfold Timeline.getClampedYear. clamp_cases s x; lra.
Qed.

(** X7.  The pointer-to-year mapping.  On a slider of non-zero width
    [getInputYearFromMouse] is defined and linear in the pointer position:
    the left edge maps to [minYear] and the right edge to [maxYear]; with
    [minYear <= maxYear] and a positive width, a pointer within the slider
    maps into [minYear, maxYear]; and a pointer
    placed where [render] draws the start (or end) handle maps back to the
    displayed start (or end) year. *)
Theorem getInputYearFromMouse_inverts_render
    (s : Timeline.t) (evt : PointerEvent) :
  ~ sliderWidth evt == 0 ->
  exists inputYear : Time,
    Timeline.getInputYearFromMouse s evt = Some inputYear
    /\ inputYear
       == Timeline.minYear s
          + mouseX evt / sliderWidth evt
            * (Timeline.maxYear s - Timeline.minYear s)
    /\ (mouseX evt == 0 -> inputYear == Timeline.minYear s)
    /\ (mouseX evt == sliderWidth evt -> inputYear == Timeline.maxYear s)
    /\ (Timeline.minYear s <= Timeline.maxYear s ->
        0 < sliderWidth evt ->
        0 <= mouseX evt <= sliderWidth evt ->
        Timeline.minYear s <= inputYear <= Timeline.maxYear s)
    /\ (~ Timeline.maxYear s - Timeline.minYear s == 0 ->
        (mouseX evt == Timeline.startYearProgress s * sliderWidth evt ->
         inputYear == Timeline.startYearUI s)
        /\ (mouseX evt == Timeline.endYearProgress s * sliderWidth evt ->
            inputYear == Timeline.endYearUI s)).
Proof.
  intro Hw. unfold Timeline.getInputYearFromMouse.
  destruct (Qeq_bool (sliderWidth evt) 0) eqn:E.
  { apply Qeq_bool_iff in E. contradiction. }
  eexists. split; [reflexivity |]. split; [reflexivity |].
  set (w := sliderWidth evt) in *. set (m := mouseX evt) in *.
  set (lo := Timeline.minYear s). set (hi := Timeline.maxYear s).
  split; [| split; [| split]].
  - intro H0. rewrite H0. field. exact Hw.
  - intro H1. rewrite H1. field. exact Hw.
  - intros Hle Hpos [M0 M1].
    assert (F0 : 0 <= m / w).
    { apply Qle_shift_div_l; [exact Hpos | lra]. }
    assert (F1 : m / w <= 1).
    { apply Qle_shift_div_r; [exact Hpos | lra]. }
    split; nra.
  - intro Hd. unfold Timeline.startYearProgress, Timeline.endYearProgress.
    fold lo hi.
    split; intro H; rewrite H; field; split; assumption.
Qed.

Lemma getInputYearFromMouse_inverts_render_witness :
  exists inputYear : Time,
    Timeline.getInputYearFromMouse
      (Examples.timelineOf Examples.axis (concrete 1995) (concrete 2005))
      (Examples.pointerAt 25)
    = Some inputYear
    /\ inputYear == 1995.
Proof.
  assert (Hw : ~ sliderWidth (Examples.pointerAt 25) == 0)
    by (vm_compute; discriminate).
  destruct (getInputYearFromMouse_inverts_render
              (Examples.timelineOf Examples.axis (concrete 1995)
                 (concrete 2005))
              (Examples.pointerAt 25) Hw)
    as (y & E & _ & _ & _ & _ & Hback).
  exists y. split; [exact E |].
  assert (Hd : ~ Timeline.maxYear
                   (Examples.timelineOf Examples.axis (concrete 1995)
                      (concrete 2005))
                 - Timeline.minYear
                     (Examples.timelineOf Examples.axis (concrete 1995)
                        (concrete 2005)) == 0)
    by (vm_compute; discriminate).
  destruct (Hback Hd) as [Hs _].
  rewrite Hs; vm_compute; reflexivity.
Defined.

(** ** More on playback *)

Lemma last_nth_error (xs : list Time) (m : Time) :
  Util.last xs = Some m -> nth_error xs (List.length xs - 1) = Some m.
Proof.
  induction xs as [| x rest IH]; [discriminate |].
  destruct rest as [| y rest'].
  - cbn. intro H. exact H.
  - intro H. change (Util.last (x :: y :: rest')) with (Util.last (y :: rest'))
      in H.
    specialize (IH H). cbn [List.length] in *.
    replace (S (S (List.length rest')) - 1)%nat with (S (List.length rest')) by lia.
    replace (S (List.length rest') - 1)%nat with (List.length rest') in IH by lia.
    exact IH.
Qed.

Lemma indexOf_found (xs : list Time) (x : Time) :
  (Util.indexOf xs x = (-1)%Z)
  \/ (exists (i : nat) (y : Time),
        Util.indexOf xs x = Z.of_nat i
        /\ nth_error xs i = Some y /\ y == x).
Proof.
  induction xs as [| z rest IH]; [now left |].
  cbn [Util.indexOf].
  destruct (Qeq_bool z x) eqn:E.
  - right. exists 0%nat, z. repeat split. now apply Qeq_bool_iff.
  - destruct IH as [IH | (i & y & Ei & Hn & Hy)].
    + left. rewrite IH. reflexivity.
    + right. exists (S i), y. rewrite Ei.
      destruct (Z.of_nat i <? 0)%Z eqn:L; [lia |].
      repeat split; [lia | exact Hn | exact Hy].
Qed.

(** The year after the displayed end exists whenever the axis has a year and
    the displayed end is below its last year. *)
Lemma next_year_defined (xs : list Time) (x m : Time) :
  Util.last xs = Some m -> x < m ->
  exists nextYear, Util.at_index xs (Util.indexOf xs x + 1) = Some nextYear.
Proof.
  intros Hl Hx.
  assert (Hlen : (0 < List.length xs)%nat)
    by (destruct xs; [discriminate | cbn; lia]).
  pose proof (last_nth_error xs m Hl) as Hm.
  unfold Util.at_index.
  destruct (indexOf_found xs x) as [E | (i & y & E & Hn & Hy)]; rewrite E.
  - cbn. destruct xs as [| z rest]; [cbn in Hlen; lia | eauto].
  - destruct (Z.of_nat i + 1 <? 0)%Z eqn:L; [lia |].
    replace (Z.to_nat (Z.of_nat i + 1)) with (S i) by lia.
    assert (Hi : (i < List.length xs)%nat)
      by (apply nth_error_Some; congruence).
    destruct (Nat.eq_dec (S i) (List.length xs)) as [Elast | Nlast].
    + replace (List.length xs - 1)%nat with i in Hm by lia.
      rewrite Hn in Hm. injection Hm as ->. lra.
    + destruct (nth_error xs (S i)) as [n |] eqn:En; [eauto |].
      apply nth_error_None in En. lia.
Qed.

Lemma next_year_on_axis (s : Timeline.t) :
  Timeline.years s <> [] ->
  Timeline.endYearUI s < Timeline.maxYear s ->
  exists nextYear,
    Util.at_index (Timeline.years s)
      (Util.indexOf (Timeline.years s) (Timeline.endYearUI s) + 1)
    = Some nextYear.
Proof.
  intros Hne Hend.
  destruct (Timeline.years s) as [| y0 rest] eqn:Hy; [congruence |].
  assert (Hl : exists m, Util.last (y0 :: rest) = Some m
                         /\ Timeline.maxYear s = m).
  { unfold Timeline.maxYear. unfold Timeline.years in Hy. rewrite Hy.
    destruct (Util.last (y0 :: rest)) as [m |] eqn:El.
    - exists m. split; reflexivity.
    - exfalso. clear - El. revert y0 El.
      induction rest as [| z r IH]; intros y0 El; [discriminate |].
      exact (IH z El). }
  destruct Hl as (m & Hl & Hmax). rewrite Hmax in Hend.
  exact (next_year_defined (y0 :: rest) (Timeline.endYearUI s) m Hl Hend).
Qed.

(** X8.  [playFrame] leaves the numbers only on an empty axis: its result is
    undefined exactly when the component is playing, the frame is not the
    first of its run, the displayed end is below [maxYear], and the axis has
    no year.  On an axis with at least one year every frame is defined. *)
Theorem playFrame_undefined_only_on_empty_axis
    (s : Timeline.t) (lastTime : option Time) (time : Time) :
  Timeline.playFrame lastTime time s = None
  <-> (Timeline.isPlaying s = true
       /\ lastTime <> None
       /\ Timeline.endYearUI s < Timeline.maxYear s
       /\ Timeline.years s = []).
Proof.
  unfold Timeline.playFrame.
  destruct (Timeline.isPlaying s) eqn:Hp; cbn [negb].
  2: { split; [discriminate | intros (H & _); discriminate]. }
  destruct lastTime as [lt |].
  2: { split.
       - destruct (Qle_bool (Timeline.maxYear s) (Timeline.endYearUI s));
           discriminate.
       - intros (_ & H & _). congruence. }
  destruct (Qle_bool (Timeline.maxYear s) (Timeline.endYearUI s)) eqn:Hend.
  { split; [discriminate |].
    intros (_ & _ & H & _). apply Qle_bool_iff in Hend. lra. }
  apply Qle_bool_false in Hend.
  destruct (Timeline.years s) as [| y0 rest] eqn:Hy.
  - cbn. split; [| reflexivity]. intros _. repeat split; congruence.
  - assert (Hl : exists m, Util.last (y0 :: rest) = Some m
                           /\ Timeline.maxYear s = m).
    { unfold Timeline.maxYear. unfold Timeline.years in Hy. rewrite Hy.
      destruct (Util.last (y0 :: rest)) as [m |] eqn:El.
      - exists m. split; reflexivity.
      - exfalso. clear - El. revert y0 El.
        induction rest as [| z r IH]; intros y0 El; [discriminate |].
        exact (IH z El). }
    destruct Hl as (m & Hl & Hmax). rewrite Hmax in Hend.
    destruct (next_year_defined (y0 :: rest) (Timeline.endYearUI s) m Hl Hend)
      as [n Hn].
    rewrite Hn. split; [discriminate |]. intros (_ & _ & _ & H). discriminate.
Qed.

Lemma advance_bound (rate d e : Q) :
  1 <= rate -> 0 <= d -> e + d / 200 <= e + rate * d * 5 / 1000.
Proof.
  intros H1 H2.
  assert (H3 : 0 <= (rate - 1) * d) by nra.
  assert (E : rate * d * 5 / 1000 == d / 200 + (rate - 1) * d / 200) by field.
  rewrite E.
  assert (H4 : 0 <= (rate - 1) * d / 200).
  { apply Qle_shift_div_l; [reflexivity | lra]. }
  lra.
Qed.

(** X9.  A frame that advances.  While playing, on an axis with at least one
    year, a frame after the first that finds the displayed end below
    [maxYear] keeps playing and requests the next frame; it sets the raw end
    to a concrete year that, when time has not gone backwards, is at least
    the displayed end plus one year per 200 ms elapsed; in single-year mode
    or single-year play the raw start is set to the same year, otherwise it
    is unchanged. *)
Theorem playFrame_advances_at_least_one_year_per_200ms
    (s : Timeline.t) (lastTime time : Time) :
  Timeline.isPlaying s = true ->
  Timeline.years s <> [] ->
  Timeline.endYearUI s < Timeline.maxYear s ->
  exists (s' : Timeline.t) (newEnd : Time),
    Timeline.playFrame (Some lastTime) time s = Some (s', Some time)
    /\ Timeline.isPlaying s' = true
    /\ Timeline.endYearRaw s' = concrete newEnd
    /\ (lastTime <= time ->
        Timeline.endYearUI s + (time - lastTime) / 200 <= newEnd)
    /\ (lastTime == time -> newEnd == Timeline.endYearUI s)
    /\ Timeline.startYearRaw s'
       = (if TimelineProps.singleYearMode (Timeline.props s)
             || TimelineProps.singleYearPlay (Timeline.props s)
          then concrete newEnd
          else Timeline.startYearRaw s).
Proof.
  intros Hp Hne Hend.
  destruct (next_year_on_axis s Hne Hend) as [nextYear Hnext].
  unfold Timeline.playFrame. rewrite Hp. cbn [negb].
  pose proof Hend as Hend'. apply Qle_bool_false in Hend'.
  rewrite Hend', Hnext. cbv zeta.
  set (rate := Qmax ((nextYear - Timeline.endYearUI s) / 3) 1).
  assert (Hrate : 1 <= rate) by apply Q.le_max_r.
  exists (if TimelineProps.singleYearMode (Timeline.props s)
             || TimelineProps.singleYearPlay (Timeline.props s)
          then
            Timeline.set_startYearRaw
              (concrete
                 (Timeline.endYearUI s
                  + rate * (time - lastTime) * Timeline.ticksPerSec / 1000))
              (Timeline.set_endYearRaw
                 (concrete
                    (Timeline.endYearUI s
                     + rate * (time - lastTime) * Timeline.ticksPerSec / 1000))
                 s)
          else
            Timeline.set_endYearRaw
              (concrete
                 (Timeline.endYearUI s
                  + rate * (time - lastTime) * Timeline.ticksPerSec / 1000))
              s),
    (Timeline.endYearUI s
     + rate * (time - lastTime) * Timeline.ticksPerSec / 1000).
  split; [reflexivity |].
  unfold Timeline.ticksPerSec.
  destruct (TimelineProps.singleYearMode (Timeline.props s)
            || TimelineProps.singleYearPlay (Timeline.props s));
    (split; [exact Hp |]); (split; [reflexivity |]);
    (split; [intro Ht; apply advance_bound; [exact Hrate | lra] |]);
    (split; [intro Ht; rewrite Ht; field |]); reflexivity.
Qed.

Lemma playFrame_advances_at_least_one_year_per_200ms_witness :
  exists (s' : Timeline.t) (newEnd : Time),
    Timeline.playFrame (Some 0) 200
      (Timeline.onTogglePlay
         (Examples.timelineOf Examples.axis (concrete 1990) (concrete 1995)))
    = Some (s', Some 200)
    /\ Timeline.endYearRaw s' = concrete newEnd
    /\ 1996 <= newEnd.
Proof.
  assert (Hne : Timeline.years
                  (Timeline.onTogglePlay
                     (Examples.timelineOf Examples.axis (concrete 1990)
                        (concrete 1995))) <> []) by discriminate.
  destruct (playFrame_advances_at_least_one_year_per_200ms
              (Timeline.onTogglePlay
                 (Examples.timelineOf Examples.axis (concrete 1990)
                    (concrete 1995)))
              0 200 eq_refl Hne eq_refl)
    as (s' & newEnd & E & _ & Er & Hadv & _).
  exists s', newEnd. split; [exact E |]. split; [exact Er |].
  assert (H0 : 0 <= 200) by discriminate.
  specialize (Hadv H0).
  assert (Hui : Timeline.endYearUI
                  (Timeline.onTogglePlay
                     (Examples.timelineOf Examples.axis (concrete 1990)
                        (concrete 1995))) == 1995)
    by (vm_compute; reflexivity).
  rewrite Hui in Hadv.
  assert (Hq : (200 - 0) / 200 == 1) by (vm_compute; reflexivity).
  rewrite Hq in Hadv. lra.
Defined.

(** ** Pointer-down *)

Section PointerDown.

Variable getBoundFromTimeRange : Time * Time -> Time -> TimeBound.
Hypothesis bound_ok : bound_of_time_range getBoundFromTimeRange.

(** X10.  Pointer-down on the slider, outside the handles and outside
    single-year mode: at or left of the displayed start it grabs the start
    handle and writes only the raw start; right of the displayed start and
    at or right of the displayed end it grabs the end handle and writes only
    the raw end.  In both cases the bound written is that of the clamped
    input year. *)
Theorem onMouseDown_beside_interval_grabs_a_handle
    (s : Timeline.t) (e : PointerEvent) (inputYear : Time) :
  classed_toggle e = false ->
  classed_startMarker e = false ->
  classed_endMarker e = false ->
  Timeline.getInputYearFromMouse s e = Some inputYear ->
  TimelineProps.singleYearMode (Timeline.props s) = false ->
  Timeline.isPlaying s && TimelineProps.singleYearPlay (Timeline.props s)
    = false ->
  (inputYear <= Timeline.startYearUI s ->
   Timeline.onMouseDown getBoundFromTimeRange e s
   = Some (Timeline.set_startYearRaw
             (getBoundFromTimeRange (Timeline.timeDomain s)
                (Timeline.getClampedYear s inputYear))
             (Timeline.set_dragTarget (Some Timeline.dragStart) s)))
  /\ (Timeline.startYearUI s < inputYear ->
      Timeline.endYearUI s <= inputYear ->
      Timeline.onMouseDown getBoundFromTimeRange e s
      = Some (Timeline.set_endYearRaw
                (getBoundFromTimeRange (Timeline.timeDomain s)
                   (Timeline.getClampedYear s inputYear))
                (Timeline.set_dragTarget (Some Timeline.dragEnd) s))).
Proof.
  intros Ht Hsm Hem Hin Hm Hp.
  unfold Timeline.onMouseDown. rewrite Ht, Hin, Hsm, Hem, Hm.
  cbn [orb andb negb]. rewrite andb_false_r.
  split.
  - intro L. apply Qle_bool_iff in L. rewrite L.
    unfold Timeline.onDrag.
    cbn [Timeline.props Timeline.isPlaying Timeline.dragTarget
         Timeline.set_dragTarget].
    rewrite Hm, Hp. reflexivity.
  - intros L1 L2. apply Qle_bool_false in L1. rewrite L1.
    apply Qle_bool_iff in L2. rewrite L2.
    unfold Timeline.onDrag.
    cbn [Timeline.props Timeline.isPlaying Timeline.dragTarget
         Timeline.set_dragTarget].
    rewrite Hm, Hp. reflexivity.
Qed.

(** X11.  Pointer-down strictly between the displayed handles, outside
    single-year mode, with the displayed interval within the axis: the whole
    interval is grabbed ([dragTarget] is "both", the offsets are those of the
    two displayed bounds from the input year) and the displayed interval
    does not move. *)
Theorem onMouseDown_between_handles_keeps_interval
    (s : Timeline.t) (e : PointerEvent) (inputYear : Time) :
  classed_toggle e = false ->
  classed_startMarker e = false ->
  classed_endMarker e = false ->
  Timeline.getInputYearFromMouse s e = Some inputYear ->
  TimelineProps.singleYearMode (Timeline.props s) = false ->
  Timeline.isPlaying s && TimelineProps.singleYearPlay (Timeline.props s)
    = false ->
  Timeline.minYear s <= Timeline.startYearUI s ->
  Timeline.startYearUI s < inputYear ->
  inputYear < Timeline.endYearUI s ->
  Timeline.endYearUI s <= Timeline.maxYear s ->
  exists s' : Timeline.t,
    Timeline.onMouseDown getBoundFromTimeRange e s = Some s'
    /\ Timeline.dragTarget s' = Some Timeline.dragBoth
    /\ Timeline.dragOffsets s'
       = (Timeline.startYearUI s - inputYear, Timeline.endYearUI s - inputYear)
    /\ Timeline.startYearUI s' == Timeline.startYearUI s
    /\ Timeline.endYearUI s' == Timeline.endYearUI s.
Proof.
  intros Ht Hsm Hem Hin Hm Hp B0 B1 B2 B3.
  unfold Timeline.onMouseDown. rewrite Ht, Hin, Hsm, Hem, Hm.
  cbn [orb andb negb]. rewrite andb_false_r.
  pose proof B1 as L1. apply Qle_bool_false in L1. rewrite L1.
  pose proof B2 as L2. apply Qle_bool_false in L2. rewrite L2.
  eexists. split; [reflexivity |].
  set (s2 := Timeline.set_dragOffsets
               (Timeline.startYearUI
                  (Timeline.set_dragTarget (Some Timeline.dragBoth) s)
                - inputYear,
                Timeline.endYearUI
                  (Timeline.set_dragTarget (Some Timeline.dragBoth) s)
                - inputYear)
               (Timeline.set_dragTarget (Some Timeline.dragBoth) s)).
  destruct (onDrag_keeps_mode getBoundFromTimeRange s2 inputYear)
    as (_ & _ & Kt & Ko).
  split; [rewrite Kt; reflexivity |].
  split; [rewrite Ko; reflexivity |].
  assert (Hle : Timeline.minYear s2 <= Timeline.maxYear s2).
  { change (Timeline.minYear s <= Timeline.maxYear s). lra. }
  assert (Hord : fst (Timeline.dragOffsets s2) <= snd (Timeline.dragOffsets s2)).
  { cbn. change (Timeline.startYearUI s - inputYear
                 <= Timeline.endYearUI s - inputYear). lra. }
  pose proof (onDrag_both_resolved getBoundFromTimeRange bound_ok s2 inputYear
                Hle eq_refl Hm Hp Hord) as R.
  cbv zeta in R. destruct R as (_ & _ & R & _).
  change (fst (Timeline.dragOffsets s2)) with (Timeline.startYearUI s - inputYear)
    in R.
  change (snd (Timeline.dragOffsets s2)) with (Timeline.endYearUI s - inputYear)
    in R.
  change (Timeline.minYear s2) with (Timeline.minYear s) in R.
  change (Timeline.maxYear s2) with (Timeline.maxYear s) in R.
  destruct R as (R1 & R2 & _); [lra | lra |].
  split; lra.
Qed.

End PointerDown.

(** On the range (1995, 2005), pointer-down at 1992 grabs the start handle
    and leaves the raw end 2005. *)
Lemma onMouseDown_beside_interval_grabs_a_handle_witness :
  Timeline.dragTarget Examples.draggedStart = Some Timeline.dragStart
  /\ Timeline.endYearRaw Examples.draggedStart = concrete 2005.
Proof.
  assert (Hin : exists y,
             Timeline.getInputYearFromMouse
               (Examples.timelineOf Examples.axis (concrete 1995)
                  (concrete 2005)) (Examples.pointerAt 10) = Some y
             /\ y <= Timeline.startYearUI
                       (Examples.timelineOf Examples.axis (concrete 1995)
                          (concrete 2005))).
  { eexists. split; [reflexivity |]. vm_compute. discriminate. }
  destruct Hin as (y & Hy & Hle).
  destruct (onMouseDown_beside_interval_grabs_a_handle Examples.boundAsGiven
              (Examples.timelineOf Examples.axis (concrete 1995)
                 (concrete 2005))
              (Examples.pointerAt 10) y eq_refl eq_refl eq_refl Hy eq_refl
              eq_refl) as [Hstart _].
  specialize (Hstart Hle).
  unfold Examples.draggedStart. rewrite Hstart. split; reflexivity.
Defined.

(** On the range (1995, 2005), pointer-down at 2000 grabs the interval and
    leaves it displayed at 1995 to 2005. *)
Lemma onMouseDown_between_handles_keeps_interval_witness :
  Timeline.dragTarget Examples.draggedBoth = Some Timeline.dragBoth
  /\ Timeline.startYearUI Examples.draggedBoth == 1995
  /\ Timeline.endYearUI Examples.draggedBoth == 2005.
Proof.
  assert (Hin : exists y,
             Timeline.getInputYearFromMouse
               (Examples.timelineOf Examples.axis (concrete 1995)
                  (concrete 2005)) (Examples.pointerAt 50) = Some y
             /\ Timeline.startYearUI
                  (Examples.timelineOf Examples.axis (concrete 1995)
                     (concrete 2005)) < y
             /\ y < Timeline.endYearUI
                      (Examples.timelineOf Examples.axis (concrete 1995)
                         (concrete 2005))).
  { eexists. split; [reflexivity |]. split; vm_compute; reflexivity. }
  destruct Hin as (y & Hy & L1 & L2).
  assert (B0 : Timeline.minYear
                 (Examples.timelineOf Examples.axis (concrete 1995)
                    (concrete 2005))
               <= Timeline.startYearUI
                    (Examples.timelineOf Examples.axis (concrete 1995)
                       (concrete 2005)))
    by (vm_compute; discriminate).
  assert (B3 : Timeline.endYearUI
                 (Examples.timelineOf Examples.axis (concrete 1995)
                    (concrete 2005))
               <= Timeline.maxYear
                    (Examples.timelineOf Examples.axis (concrete 1995)
                       (concrete 2005)))
    by (vm_compute; discriminate).
  destruct (onMouseDown_between_handles_keeps_interval
              Examples.boundWithSentinels boundWithSentinels_ok
              (Examples.timelineOf Examples.axis (concrete 1995)
                 (concrete 2005))
              (Examples.pointerAt 50) y eq_refl eq_refl eq_refl Hy eq_refl
              eq_refl B0 L1 L2 B3)
    as (s' & Es & Ht & _ & E1 & E2).
  unfold Examples.draggedBoth. rewrite Es.
  split; [exact Ht |].
  split; [rewrite E1 | rewrite E2]; vm_compute; reflexivity.
Defined.

(** ** What holds in every state the page reaches *)

Section StepPrinciple.

Variable getBoundFromTimeRange : Time * Time -> Time -> TimeBound.

(** [P] holds between events, [Q] while one is handled. *)
Variables P Q : Page.t -> Prop.

Hypothesis P_Q : forall w, P w -> Q w.
Hypothesis Q_timers : forall w, Q w -> P (Page.runTimers w).
Hypothesis Q_mount :
  forall w, P w -> Page.lifecycle w = Page.constructed ->
            Q (Page.componentDidMount w).
Hypothesis Q_unmount :
  forall w, P w -> Page.lifecycle w = Page.mounted ->
            Q (Page.componentWillUnmount w).
Hypothesis Q_handler :
  forall w w1,
    P w -> Page.lifecycle w = Page.mounted ->
    Reachable.handler_action getBoundFromTimeRange w w1 ->
    Q (Page.reactions (Page.timeline w) w1).
Hypothesis Q_callback :
  forall w h cb time w',
    Q w -> In (h, cb) (Page.frameCallbacks w) ->
    Page.runCallback getBoundFromTimeRange time cb
      (Page.cancelAnimationFrame h w) = Some w' ->
    Q w'.

Lemma lookupCallback_In (h : nat) (w : Page.t) (cb : Page.Callback) :
  Page.lookupCallback h w = Some cb -> In (h, cb) (Page.frameCallbacks w).
Proof.
  unfold Page.lookupCallback.
  destruct (find (fun hc => Nat.eqb (fst hc) h) (Page.frameCallbacks w))
    as [[h' cb'] |] eqn:E; [| discriminate].
  intro H. injection H as <-.
  apply find_some in E. destruct E as [Hin Heq].
  cbn in Heq. apply Nat.eqb_eq in Heq. now subst.
Qed.

Lemma runFrame_preserves (time : Time) (handles : list nat) :
  forall w w', Q w ->
    Page.runFrame getBoundFromTimeRange time handles w = Some w' -> Q w'.
Proof.
  induction handles as [| h rest IH]; intros w w' Hq Hrun; cbn in Hrun.
  - now injection Hrun as <-.
  - destruct (Page.lookupCallback h w) as [cb |] eqn:El.
    + destruct (Page.runCallback getBoundFromTimeRange time cb
                  (Page.cancelAnimationFrame h w)) as [w1 |] eqn:Ec;
        [| discriminate].
      apply (IH w1 w'); [| exact Hrun].
      apply (Q_callback w h cb time w1 Hq); [| exact Ec].
      now apply lookupCallback_In.
    + now apply (IH w w').
Qed.

Lemma step_preserves (w w' : Page.t) (e : Page.Event) :
  P w -> Page.step getBoundFromTimeRange w e = Some w' -> P w'.
Proof.
  intros Hp Hstep. unfold Page.step in Hstep.
  destruct (Page.handle getBoundFromTimeRange e w) as [w1 |] eqn:Eh;
    [| discriminate].
  injection Hstep as <-. apply Q_timers.
  unfold Page.handle in Eh.
  destruct e as [| p | | | ev | ev | | time];
    destruct (Page.lifecycle w) eqn:El;
    try (injection Eh as <-; now apply P_Q);
    try (apply (runFrame_preserves time _ w w1 (P_Q w Hp) Eh)).
  - injection Eh as <-. now apply Q_mount.
  - unfold Page.action, Page.on_timeline in Eh. injection Eh as <-.
    apply Q_handler; [exact Hp | exact El | apply Reachable.act_didUpdate].
  - injection Eh as <-. now apply Q_unmount.
  - destruct (TimelineProps.disablePlay (Timeline.props (Page.timeline w))).
    + injection Eh as <-. now apply P_Q.
    + unfold Page.action, Page.on_timeline in Eh. injection Eh as <-.
      apply Q_handler; [exact Hp | exact El | apply Reachable.act_onTogglePlay].
  - unfold Page.action in Eh.
    destruct (Timeline.onMouseDown getBoundFromTimeRange ev (Page.timeline w))
      as [s |] eqn:Ed; [| discriminate].
    injection Eh as <-.
    apply Q_handler; [exact Hp | exact El | apply (Reachable.act_onMouseDown _ _ ev s Ed)].
  - unfold Page.action in Eh. injection Eh as <-.
    apply Q_handler; [exact Hp | exact El | apply Reachable.act_onMouseMove].
  - unfold Page.action, Page.on_timeline in Eh. injection Eh as <-.
    apply Q_handler; [exact Hp | exact El | apply Reachable.act_onMouseUp].
Qed.

Lemma run_preserves (events : list Page.Event) :
  forall w w', P w ->
    Page.run getBoundFromTimeRange w events = Some w' -> P w'.
Proof.
  induction events as [| e rest IH]; intros w w' Hp Hrun; cbn in Hrun.
  - now injection Hrun as <-.
  - destruct (Page.step getBoundFromTimeRange w e) as [w1 |] eqn:Es;
      [| discriminate].
    apply (IH w1 w'); [| exact Hrun].
    now apply (step_preserves w w1 e).
Qed.

End StepPrinciple.

(** *** Fields the operations leave alone *)

Lemma runTimers_fields (w : Page.t) :
  Page.timeline (Page.runTimers w) = Page.timeline w
  /\ Page.lifecycle (Page.runTimers w) = Page.lifecycle w
  /\ Page.debounceMode (Page.runTimers w) = Page.debounceMode w
  /\ Page.frameCallbacks (Page.runTimers w) = Page.frameCallbacks w
  /\ Page.nextHandle (Page.runTimers w) = Page.nextHandle w.
Proof.
  unfold Page.runTimers, Page.reaction_onTargetChange.
  destruct (Page.targetPending w); [destruct (Page.isMounted w) |];
    repeat split.
Qed.

Lemma isMounted_iff (w : Page.t) :
  Page.isMounted w = true <-> Page.lifecycle w = Page.mounted.
Proof.
  unfold Page.isMounted. destruct (Page.lifecycle w); split; congruence.
Qed.

Lemma busy_lockToClosest (s : Timeline.t) :
  Reachable.busy (Timeline.lockToClosest s) = Reachable.busy s.
Proof.
  destruct (lockToClosest_keeps_mode s) as (Ep & Ed & _).
  unfold Reachable.busy, Timeline.isDragging. now rewrite Ep, Ed.
Qed.

Lemma reaction_playing_fields (w : Page.t) :
  Page.lifecycle (Page.reaction_playing w) = Page.lifecycle w
  /\ Page.debounceMode (Page.reaction_playing w) = Page.debounceMode w
  /\ Timeline.isPlaying (Page.timeline (Page.reaction_playing w))
     = Timeline.isPlaying (Page.timeline w)
  /\ Timeline.dragTarget (Page.timeline (Page.reaction_playing w))
     = Timeline.dragTarget (Page.timeline w)
  /\ Page.onTargetChangeCalls (Page.reaction_playing w)
     = Page.onTargetChangeCalls w
  /\ Page.targetSeen (Page.reaction_playing w) = Page.targetSeen w
  /\ Page.targetPending (Page.reaction_playing w) = Page.targetPending w.
Proof.
  unfold Page.reaction_playing, Page.onStartPlaying, Page.onStopPlaying,
    Page.requestAnimationFrame, Page.cancelAnimationFrame.
  destruct (Timeline.isPlaying (Page.timeline w)) eqn:E.
  - page_simpl. repeat split. exact E.
  - destruct (Timeline.animRequest (Page.timeline w)); page_simpl;
      repeat split; exact E.
Qed.

(** The reactions leave the component mounted as it was, and after them the
    debounce flag of a mounted component says whether it is playing or
    dragging, provided it did before the action. *)
Lemma reactions_debounce (before : Timeline.t) (w : Page.t) :
  Page.lifecycle (Page.reactions before w) = Page.lifecycle w
  /\ Reachable.busy (Page.timeline (Page.reactions before w))
     = Reachable.busy (Page.timeline w)
  /\ (Page.lifecycle w = Page.mounted ->
      Page.debounceMode w = Reachable.busy before ->
      Page.debounceMode (Page.reactions before w)
      = Reachable.busy (Page.timeline w)).
Proof.
  unfold Page.reactions.
  destruct (Page.isMounted w) eqn:Hm; cbn [negb].
  2: { split; [reflexivity |]. split; [reflexivity |].
       intro H. apply isMounted_iff in H. congruence. }
  destruct (reaction_playing_fields w) as (Rl & Rd & Rp & Rt & _).
  assert (Rb : Reachable.busy (Page.timeline (Page.reaction_playing w))
               = Reachable.busy (Page.timeline w)).
  { unfold Reachable.busy, Timeline.isDragging. now rewrite Rp, Rt. }
  unfold Page.invalidate_onTargetChange, Page.reaction_lock,
    Page.reaction_debounce.
  destruct (xorb (Timeline.isPlaying before)
              (Timeline.isPlaying (Page.timeline w))) eqn:X1;
    destruct (xorb (Timeline.isDragging before)
                (Timeline.isDragging (Page.timeline w))) eqn:X2;
    cbn [orb];
    repeat match goal with
           | |- context [match ?b with _ => _ end] => destruct b
           end;
    page_simpl; rewrite ?busy_lockToClosest, ?Rb, ?Rl, ?Rd;
    (split; [reflexivity |]); (split; [reflexivity |]);
    intros _ Hd; try reflexivity; try exact Rb.
  all: apply xorb_eq in X1; apply xorb_eq in X2;
    rewrite Hd; unfold Reachable.busy; now rewrite X1, X2.
Qed.

Lemma onMouseMove_fields (e : PointerEvent) (w : Page.t) :
  Page.lifecycle (Page.onMouseMove e w) = Page.lifecycle w
  /\ Page.debounceMode (Page.onMouseMove e w) = Page.debounceMode w
  /\ Page.onTargetChangeCalls (Page.onMouseMove e w)
     = Page.onTargetChangeCalls w
  /\ Page.targetSeen (Page.onMouseMove e w) = Page.targetSeen w
  /\ Page.targetPending (Page.onMouseMove e w) = Page.targetPending w.
Proof.
  unfold Page.onMouseMove, Page.requestAnimationFrame,
    Page.cancelAnimationFrame.
  destruct (Timeline.dragTarget (Page.timeline w)); [| repeat split].
  destruct (Timeline.queuedAnimationFrame (Page.timeline w)) as [[| h] |];
    page_simpl; repeat split.
Qed.

Lemma handler_action_fields
    (getBoundFromTimeRange : Time * Time -> Time -> TimeBound)
    (w w1 : Page.t) :
  Reachable.handler_action getBoundFromTimeRange w w1 ->
  Page.lifecycle w1 = Page.lifecycle w
  /\ Page.debounceMode w1 = Page.debounceMode w
  /\ Page.onTargetChangeCalls w1 = Page.onTargetChangeCalls w
  /\ Page.targetSeen w1 = Page.targetSeen w
  /\ Page.targetPending w1 = Page.targetPending w.
Proof.
  intros [p | | e s Hs | e |]; try (repeat split).
  all: apply onMouseMove_fields.
Qed.

Lemma playFrame_fields (lastTime : option Time) (time : Time)
    (w w1 : Page.t) :
  Page.playFrame lastTime time w = Some w1 ->
  Page.lifecycle w1 = Page.lifecycle w
  /\ Page.debounceMode w1 = Page.debounceMode w
  /\ Page.onTargetChangeCalls w1 = Page.onTargetChangeCalls w
  /\ Page.targetSeen w1 = Page.targetSeen w
  /\ Page.targetPending w1 = Page.targetPending w.
Proof.
  unfold Page.playFrame, Page.requestAnimationFrame.
  destruct (Timeline.playFrame lastTime time (Page.timeline w))
    as [[s [lt |]] |]; [| | discriminate];
    intro H; injection H as <-; page_simpl; repeat split.
Qed.

(** A frame callback is an action on the page it finds, followed by the
    reactions. *)
Lemma runCallback_shape
    (getBoundFromTimeRange : Time * Time -> Time -> TimeBound)
    (time : Time) (cb : Page.Callback) (w w' : Page.t) :
  Page.runCallback getBoundFromTimeRange time cb w = Some w' ->
  exists w1,
    w' = Page.reactions (Page.timeline w) w1
    /\ Page.lifecycle w1 = Page.lifecycle w
    /\ Page.debounceMode w1 = Page.debounceMode w
    /\ Page.onTargetChangeCalls w1 = Page.onTargetChangeCalls w
    /\ Page.targetSeen w1 = Page.targetSeen w
    /\ Page.targetPending w1 = Page.targetPending w.
Proof.
  unfold Page.runCallback, Page.action. destruct cb as [lastTime | ev].
  - destruct (Page.playFrame lastTime time w) as [w1 |] eqn:E;
      [| discriminate].
    intro H. injection H as <-. exists w1. split; [reflexivity |].
    now apply (playFrame_fields lastTime time).
  - destruct (Page.isMounted w) eqn:Hm.
    + destruct (Timeline.getInputYearFromMouse (Page.timeline w) ev)
        as [y |]; [| discriminate].
      unfold Page.on_timeline. intro H. injection H as <-.
      eexists. split; [reflexivity |]. repeat split.
    + intro H. injection H as <-. exists w.
      split; [unfold Page.reactions; rewrite Hm; reflexivity |].
      repeat split.
Qed.

Lemma cancelAnimationFrame_fields (h : nat) (w : Page.t) :
  Page.timeline (Page.cancelAnimationFrame h w) = Page.timeline w
  /\ Page.lifecycle (Page.cancelAnimationFrame h w) = Page.lifecycle w
  /\ Page.debounceMode (Page.cancelAnimationFrame h w) = Page.debounceMode w
  /\ Page.onTargetChangeCalls (Page.cancelAnimationFrame h w)
     = Page.onTargetChangeCalls w
  /\ Page.targetSeen (Page.cancelAnimationFrame h w) = Page.targetSeen w
  /\ Page.targetPending (Page.cancelAnimationFrame h w)
     = Page.targetPending w
  /\ Page.nextHandle (Page.cancelAnimationFrame h w) = Page.nextHandle w.
Proof. repeat split. Qed.

Lemma componentDidMount_fields (w : Page.t) :
  Page.lifecycle (Page.componentDidMount w) = Page.mounted
  /\ Page.debounceMode (Page.componentDidMount w)
     = Reachable.busy (Page.timeline (Page.componentDidMount w))
  /\ Page.targetPending (Page.componentDidMount w) = true
  /\ Page.onTargetChangeCalls (Page.componentDidMount w)
     = Page.onTargetChangeCalls w
  /\ Page.targetSeen (Page.componentDidMount w) = Page.targetSeen w.
Proof.
  unfold Page.componentDidMount, Page.reaction_lock, Page.reaction_debounce.
  set (w0 := Page.set_lifecycle Page.mounted
               (Page.set_timeline (Timeline.syncFromProps (Page.timeline w))
                  w)).
  destruct (reaction_playing_fields w0) as (Rl & Rd & Rp & Rt & Rc & Rs & _).
  page_simpl. rewrite busy_lockToClosest.
  split; [exact Rl |].
  split; [unfold Reachable.busy, Timeline.isDragging; reflexivity |].
  split; [reflexivity |]. split; [exact Rc | exact Rs].
Qed.

(** X12.  The debounce signal.  In every state the page reaches while the
    component is mounted, [debounceMode] is true exactly when the component
    is playing or dragging. *)
Theorem debounceMode_follows_playing_or_dragging
    (getBoundFromTimeRange : Time * Time -> Time -> TimeBound)
    (p : TimelineProps.t) (w : Page.t) :
  Reachable.reachable getBoundFromTimeRange p w ->
  Page.lifecycle w = Page.mounted ->
  Page.debounceMode w
  = Timeline.isPlaying (Page.timeline w)
    || Timeline.isDragging (Page.timeline w).
Proof.
  intros [events Hrun].
  set (D := fun w : Page.t =>
              Page.lifecycle w = Page.mounted ->
              Page.debounceMode w = Reachable.busy (Page.timeline w)).
  apply (run_preserves getBoundFromTimeRange D D) with (events := events)
                                                      (w := Page.create p);
    try exact Hrun; subst D; cbn beta.
  - auto.
  - intros w0 H. destruct (runTimers_fields w0) as (Et & El & Ed & _).
    rewrite Et, El, Ed. exact H.
  - intros w0 _ _ _. apply componentDidMount_fields.
  - intros w0 _ _ H. cbn in H. discriminate.
  - intros w0 w1 H El Hact _.
    destruct (handler_action_fields _ _ _ Hact) as (Al & Ad & _).
    destruct (reactions_debounce (Page.timeline w0) w1) as (_ & Rb & Rd).
    rewrite Rb. apply Rd; [congruence |]. rewrite Ad. now apply H.
  - intros w0 h cb time w' H _ Hcb Hl.
    destruct (runCallback_shape _ _ _ _ _ Hcb) as (w1 & -> & Al & Ad & _).
    destruct (reactions_debounce
                (Page.timeline (Page.cancelAnimationFrame h w0)) w1)
      as (Rl & Rb & Rd).
    rewrite Rl, Al in Hl. cbn in Hl.
    rewrite Rb. apply Rd; [rewrite Al; exact Hl |].
    rewrite Ad. cbn. now apply H.
  - intro H. cbn in H. unfold Page.create in H.
    destruct (Timeline.constructor p). discriminate.
Qed.

Lemma TimeBound_eqb_refl (a : TimeBound) : TimeBounds.eqb a a = true.
Proof.
  destruct a as [| x |]; cbn; try reflexivity.
  apply Qeq_bool_iff. reflexivity.
Qed.

Lemma TimeBound_eqb_eq (a b : TimeBound) :
  TimeBounds.eqb a b = true -> TimeBounds.eq a b.
Proof.
  destruct a as [| x |], b as [| y |]; cbn; try discriminate; try easy.
  apply Qeq_bool_iff.
Qed.

Lemma pair_eqb_refl (p : TimeBound * TimeBound) : Page.pair_eqb p p = true.
Proof. unfold Page.pair_eqb. now rewrite !TimeBound_eqb_refl. Qed.

(** What the host has been told, while an event is being handled: as between
    events, except that the timer may be set. *)
Lemma reactions_target (before : Timeline.t) (w : Page.t) :
  Page.onTargetChangeCalls (Page.reactions before w)
  = Page.onTargetChangeCalls w
  /\ Page.targetSeen (Page.reactions before w) = Page.targetSeen w
  /\ (Page.lifecycle w = Page.mounted ->
      Page.targetPending (Page.reactions before w) = true
      \/ exists p,
           Page.targetSeen w = Some p
           /\ Page.pair_eqb p (Page.target (Page.reactions before w)) = true).
Proof.
  unfold Page.reactions.
  destruct (Page.isMounted w) eqn:Hm; cbn [negb].
  2: { split; [reflexivity |]. split; [reflexivity |].
       intro H. apply isMounted_iff in H. congruence. }
  set (w3 := if xorb (Timeline.isPlaying before)
                  (Timeline.isPlaying (Page.timeline w))
                || xorb (Timeline.isDragging before)
                     (Timeline.isDragging (Page.timeline w))
             then _ else _).
  assert (F : Page.onTargetChangeCalls w3 = Page.onTargetChangeCalls w
              /\ Page.targetSeen w3 = Page.targetSeen w).
  { subst w3. destruct (reaction_playing_fields w) as (_ & _ & _ & _ & Rc & Rs & _).
    unfold Page.reaction_lock, Page.reaction_debounce.
    repeat match goal with
           | |- context [if ?b then _ else _] => destruct b
           end; page_simpl; split; assumption || reflexivity. }
  destruct F as [Fc Fs].
  unfold Page.invalidate_onTargetChange.
  destruct (Page.targetSeen w3) as [seen |] eqn:Es.
  - destruct (Page.pair_eqb seen (Page.target w3)) eqn:Ep.
    + split; [exact Fc |]. split; [congruence |].
      intros _. right. exists seen. split; [congruence | exact Ep].
    + page_simpl. split; [exact Fc |]. split; [congruence |].
      intros _. now left.
  - page_simpl. split; [exact Fc |]. split; [congruence |].
    intros _. now left.
Qed.

(** X13.  In every state the page reaches while the component is mounted,
    the host has been told the current range: [onTargetChange] has been
    called, and the pair of its last call equals, as numbers, the snapped
    bounds [startYearClosest] and [endYearClosest] of the component. *)
Theorem host_knows_the_snapped_range
    (getBoundFromTimeRange : Time * Time -> Time -> TimeBound)
    (p : TimelineProps.t) (w : Page.t) :
  Reachable.reachable getBoundFromTimeRange p w ->
  Page.lifecycle w = Page.mounted ->
  exists earlier lastCall,
    Page.onTargetChangeCalls w = earlier ++ [lastCall]
    /\ TimeBounds.eq (fst lastCall)
         (Timeline.startYearClosest (Page.timeline w))
    /\ TimeBounds.eq (snd lastCall)
         (Timeline.endYearClosest (Page.timeline w)).
Proof.
  intros [events Hrun] Hl.
  set (K := fun w : Page.t =>
              forall q, Page.targetSeen w = Some q ->
                        exists earlier,
                          Page.onTargetChangeCalls w = earlier ++ [q]).
  set (Q := fun w : Page.t =>
              K w
              /\ (Page.lifecycle w = Page.mounted ->
                  Page.targetPending w = true
                  \/ exists q, Page.targetSeen w = Some q
                               /\ Page.pair_eqb q (Page.target w) = true)).
  assert (H : Reachable.host_notified w).
  { apply (run_preserves getBoundFromTimeRange Reachable.host_notified Q)
      with (events := events) (w := Page.create p);
      try exact Hrun; subst Q K; cbn beta.
    - intros w0 (H1 & H2 & H3). split; [exact H2 |].
      intro El. right. now apply H3.
    - intros w0 [HK HQ]. unfold Reachable.host_notified, Page.runTimers.
      destruct (Page.targetPending w0) eqn:Ep.
      + destruct (Page.isMounted w0) eqn:Em.
        * unfold Page.reaction_onTargetChange. page_simpl.
          split; [reflexivity |].
          split; [intros q Hq; injection Hq as <-; eauto |].
          intros _. eexists. split; [reflexivity |]. apply pair_eqb_refl.
        * page_simpl. split; [reflexivity |]. split; [exact HK |].
          intro El. apply isMounted_iff in El. congruence.
      + split; [exact Ep |]. split; [exact HK |].
        intro El. destruct (HQ El) as [Hp | Hq]; [congruence | exact Hq].
    - intros w0 (H1 & H2 & H3) _.
      destruct (componentDidMount_fields w0) as (_ & _ & Ep & Ec & Es).
      split.
      + intros q Hq. rewrite Es in Hq. rewrite Ec. now apply H2.
      + intros _. now left.
    - intros w0 (H1 & H2 & H3) _. split; [exact H2 |].
      intro El. cbn in El. discriminate.
    - intros w0 w1 (H1 & H2 & H3) El Hact.
      destruct (handler_action_fields _ _ _ Hact) as (Al & _ & Ac & As & _).
      destruct (reactions_target (Page.timeline w0) w1) as (Rc & Rs & Rt).
      destruct (reactions_debounce (Page.timeline w0) w1) as (Rl & _).
      split.
      + intros q Hq. rewrite Rs, As in Hq. rewrite Rc, Ac. now apply H2.
      + intros _. destruct Rt as [Hp | (q & Hq & Heq)]; [congruence | now left |].
        right. exists q. split; [congruence | exact Heq].
    - intros w0 h cb time w' [HK HQ] _ Hcb.
      destruct (runCallback_shape _ _ _ _ _ Hcb)
        as (w1 & -> & Al & _ & Ac & As & _).
      destruct (reactions_target
                  (Page.timeline (Page.cancelAnimationFrame h w0)) w1)
        as (Rc & Rs & Rt).
      destruct (reactions_debounce
                  (Page.timeline (Page.cancelAnimationFrame h w0)) w1)
        as (Rl & _).
      split.
      + intros q Hq. rewrite Rs, As in Hq. rewrite Rc, Ac. now apply HK.
      + intro El. rewrite Rl in El.
        destruct (Rt El) as [Hp | (q & Hq & Heq)]; [now left |].
        right. exists q. split; [congruence | exact Heq].
    - unfold Reachable.host_notified, Page.create.
      destruct (Timeline.constructor p) as [s msgs]. cbn.
      split; [reflexivity |]. split; intros; discriminate. }
  destruct H as (_ & HK & Hm).
  destruct (Hm Hl) as (q & Hq & Heq).
  destruct (HK q Hq) as [earlier He].
  exists earlier, q. split; [exact He |].
  unfold Page.pair_eqb in Heq. apply andb_prop in Heq as [E1 E2].
  split; now apply TimeBound_eqb_eq.
Qed.

(** *** The pending frames *)

Lemma onDrag_keeps_handles
    (getBoundFromTimeRange : Time * Time -> Time -> TimeBound)
    (s : Timeline.t) (x : Time) :
  Timeline.animRequest (Timeline.onDrag getBoundFromTimeRange x s)
  = Timeline.animRequest s
  /\ Timeline.queuedAnimationFrame (Timeline.onDrag getBoundFromTimeRange x s)
     = Timeline.queuedAnimationFrame s.
Proof.
  unfold Timeline.onDrag.
  destruct (TimelineProps.singleYearMode (Timeline.props s)
            || Timeline.isPlaying s
               && TimelineProps.singleYearPlay (Timeline.props s));
    [split; reflexivity |].
  destruct (Timeline.dragTarget s) as [[| |] |];
    repeat match goal with
           | |- context [if ?b then _ else _] => destruct b
           end; split; reflexivity.
Qed.

Lemma onMouseDown_keeps_handles
    (getBoundFromTimeRange : Time * Time -> Time -> TimeBound)
    (e : PointerEvent) (s s' : Timeline.t) :
  Timeline.onMouseDown getBoundFromTimeRange e s = Some s' ->
  Timeline.animRequest s' = Timeline.animRequest s
  /\ Timeline.queuedAnimationFrame s' = Timeline.queuedAnimationFrame s
  /\ Timeline.isPlaying s' = Timeline.isPlaying s.
Proof.
  unfold Timeline.onMouseDown.
  destruct (classed_toggle e).
  { intro H. injection H as <-. repeat split. }
  destruct (Timeline.getInputYearFromMouse s e) as [x |]; [| discriminate].
  cbv zeta. intro H. injection H as <-.
  match goal with
  | |- context [Timeline.onDrag _ x ?s2] =>
      destruct (onDrag_keeps_handles getBoundFromTimeRange s2 x) as [Ea Eq];
      destruct (onDrag_keeps_mode getBoundFromTimeRange s2 x)
        as (_ & Ep & _);
      rewrite Ea, Eq, Ep
  end.
  repeat match goal with
         | |- context [if ?b then _ else _] => destruct b
         end; repeat split.
Qed.

Lemma componentDidUpdate_keeps_handles (s : Timeline.t) :
  Timeline.animRequest (Timeline.componentDidUpdate s) = Timeline.animRequest s
  /\ Timeline.queuedAnimationFrame (Timeline.componentDidUpdate s)
     = Timeline.queuedAnimationFrame s
  /\ Timeline.isPlaying (Timeline.componentDidUpdate s) = Timeline.isPlaying s.
Proof.
  unfold Timeline.componentDidUpdate.
  destruct (negb (Timeline.isPlaying s) && negb (Timeline.isDragging s));
    repeat split.
Qed.

Lemma lockToClosest_keeps_handles (s : Timeline.t) :
  Timeline.animRequest (Timeline.lockToClosest s) = Timeline.animRequest s
  /\ Timeline.queuedAnimationFrame (Timeline.lockToClosest s)
     = Timeline.queuedAnimationFrame s.
Proof.
  unfold Timeline.lockToClosest.
  destruct (negb (Timeline.isPlaying s) && negb (Timeline.isDragging s));
    repeat split.
Qed.

Lemma Timeline_playFrame_keeps_handles
    (lastTime : option Time) (time : Time) (s s' : Timeline.t)
    (next : option Time) :
  Timeline.playFrame lastTime time s = Some (s', next) ->
  Timeline.animRequest s' = Timeline.animRequest s
  /\ Timeline.queuedAnimationFrame s' = Timeline.queuedAnimationFrame s
  /\ (Timeline.isPlaying s = false -> s' = s /\ next = None).
Proof.
  unfold Timeline.playFrame.
  destruct (Timeline.isPlaying s) eqn:Hp; cbn [negb].
  2: { intro H. injection H as <- <-. repeat split. }
  destruct lastTime as [lt |].
  - destruct (Qle_bool (Timeline.maxYear s) (Timeline.endYearUI s)).
    + intro H. injection H as <- <-. repeat split; discriminate.
    + destruct (Util.at_index _ _) as [n |]; [| discriminate].
      intro H. injection H as <- <-.
      destruct (TimelineProps.singleYearMode (Timeline.props s)
                || TimelineProps.singleYearPlay (Timeline.props s));
        repeat split; discriminate.
  - destruct (Qle_bool (Timeline.maxYear s) (Timeline.endYearUI s));
      intro H; injection H as <- <-; repeat split; discriminate.
Qed.

(** [frames_wellformed] reads the pending frames, the next handle and the
    two handle fields of the component. *)
Lemma frames_wellformed_ext (w w' : Page.t) :
  Page.frameCallbacks w' = Page.frameCallbacks w ->
  Page.nextHandle w' = Page.nextHandle w ->
  Timeline.animRequest (Page.timeline w')
  = Timeline.animRequest (Page.timeline w) ->
  Timeline.queuedAnimationFrame (Page.timeline w')
  = Timeline.queuedAnimationFrame (Page.timeline w) ->
  Reachable.frames_wellformed w -> Reachable.frames_wellformed w'.
Proof.
  intros Ef En Ea Eq. unfold Reachable.frames_wellformed.
  now rewrite Ef, En, Ea, Eq.
Qed.

Lemma NoDup_map_filter {A B : Type} (f : A -> B) (keep : A -> bool)
    (l : list A) :
  NoDup (map f l) -> NoDup (map f (filter keep l)).
Proof.
  induction l as [| a l IH]; cbn; [auto |].
  intro H. inversion H as [| ? ? Hnot Hnd]; subst.
  destruct (keep a); cbn; [| auto].
  constructor; [| auto].
  intro Hin. apply Hnot. apply in_map_iff in Hin as (x & Ex & Hx).
  apply filter_In in Hx as [Hx _]. apply in_map_iff. eauto.
Qed.

Lemma cancel_wellformed (h : nat) (w : Page.t) :
  Reachable.frames_wellformed w ->
  Reachable.frames_wellformed (Page.cancelAnimationFrame h w)
  /\ (forall h' cb,
        In (h', cb) (Page.frameCallbacks (Page.cancelAnimationFrame h w)) ->
        In (h', cb) (Page.frameCallbacks w) /\ h' <> h).
Proof.
  intros (H1 & H2 & H3 & H4 & H5).
  assert (Sub : forall h' cb,
            In (h', cb) (Page.frameCallbacks (Page.cancelAnimationFrame h w)) ->
            In (h', cb) (Page.frameCallbacks w) /\ h' <> h).
  { intros h' cb Hin. cbn in Hin. apply filter_In in Hin as [Hin Hk].
    split; [exact Hin |]. cbn in Hk. apply negb_true_iff in Hk.
    now apply Nat.eqb_neq in Hk. }
  split; [| exact Sub].
  unfold Reachable.frames_wellformed.
  split; [exact H1 |].
  split; [cbn; now apply NoDup_map_filter |].
  split; [intros h' cb Hin; apply (H3 h' cb); now apply Sub |].
  split.
  - intros h' lt Hin. apply (H4 h' lt). now apply Sub.
  - intros h' ev Hin. apply (H5 h' ev). now apply Sub.
Qed.

(** Requesting a [playFrame] when none is pending, and recording its handle
    in [animRequest]. *)
Lemma request_play_wellformed (lastTime : option Time) (w : Page.t) :
  Reachable.frames_wellformed w ->
  (forall h lt, ~ In (h, Page.playFrame_callback lt) (Page.frameCallbacks w)) ->
  Reachable.frames_wellformed
    (Page.set_timeline
       (Timeline.set_animRequest (Some (Page.nextHandle w)) (Page.timeline w))
       (Page.set_frames (S (Page.nextHandle w))
          (Page.frameCallbacks w
           ++ [(Page.nextHandle w, Page.playFrame_callback lastTime)])
          w)).
Proof.
  intros (H1 & H2 & H3 & H4 & H5) Hnone.
  unfold Reachable.frames_wellformed. page_simpl.
  split; [lia |].
  split.
  { rewrite map_app. apply NoDup_app; [exact H2 | repeat constructor; easy |].
    intros a Ha [<- | []]. apply in_map_iff in Ha as ([h cb] & E & Hin).
    cbn in E. subst. specialize (H3 _ _ Hin). lia. }
  split.
  { intros h cb Hin. apply in_app_or in Hin as [Hin | [E | []]].
    - specialize (H3 _ _ Hin). lia.
    - injection E as <- <-. lia. }
  split.
  - intros h lt Hin. apply in_app_or in Hin as [Hin | [E | []]].
    + now apply Hnone in Hin.
    + now injection E as <- _.
  - intros h ev Hin. apply in_app_or in Hin as [Hin | [E | []]].
    + now apply (H5 h ev).
    + discriminate.
Qed.

(** Requesting a pointer-move frame when none is pending, and recording its
    handle in [queuedAnimationFrame]. *)
Lemma request_drag_wellformed (ev : PointerEvent) (w : Page.t) :
  Reachable.frames_wellformed w ->
  (forall h e, ~ In (h, Page.drag_callback e) (Page.frameCallbacks w)) ->
  Reachable.frames_wellformed
    (Page.set_timeline
       (Timeline.set_queuedAnimationFrame (Some (Page.nextHandle w))
          (Page.timeline w))
       (Page.set_frames (S (Page.nextHandle w))
          (Page.frameCallbacks w
           ++ [(Page.nextHandle w, Page.drag_callback ev)])
          w)).
Proof.
  intros (H1 & H2 & H3 & H4 & H5) Hnone.
  unfold Reachable.frames_wellformed. page_simpl.
  split; [lia |].
  split.
  { rewrite map_app. apply NoDup_app; [exact H2 | repeat constructor; easy |].
    intros a Ha [<- | []]. apply in_map_iff in Ha as ([h cb] & E & Hin).
    cbn in E. subst. specialize (H3 _ _ Hin). lia. }
  split.
  { intros h cb Hin. apply in_app_or in Hin as [Hin | [E | []]].
    - specialize (H3 _ _ Hin). lia.
    - injection E as <- <-. lia. }
  split.
  - intros h lt Hin. apply in_app_or in Hin as [Hin | [E | []]].
    + now apply (H4 h lt).
    + discriminate.
  - intros h e Hin. apply in_app_or in Hin as [Hin | [E | []]].
    + now apply Hnone in Hin.
    + now injection E as <- _.
Qed.

(** Cancelling the frame a handle field names removes every pending frame
    of that kind. *)
Lemma cancel_animRequest_removes_playFrames (w : Page.t) :
  Reachable.frames_wellformed w ->
  forall h lt,
    ~ In (h, Page.playFrame_callback lt)
        (Page.frameCallbacks (Page.onStopPlaying w)).
Proof.
  intros Hw h lt Hin. unfold Page.onStopPlaying in Hin.
  destruct Hw as (_ & _ & _ & H4 & _).
  destruct (Timeline.animRequest (Page.timeline w)) as [h0 |] eqn:Ea.
  - cbn in Hin. apply filter_In in Hin as [Hin Hk].
    specialize (H4 _ _ Hin). injection H4 as ->.
    cbn in Hk. now rewrite Nat.eqb_refl in Hk.
  - specialize (H4 _ _ Hin). discriminate.
Qed.

Lemma onStopPlaying_wellformed (w : Page.t) :
  Reachable.frames_wellformed w ->
  Reachable.frames_wellformed (Page.onStopPlaying w).
Proof.
  intro Hw. unfold Page.onStopPlaying.
  destruct (Timeline.animRequest (Page.timeline w)); [| exact Hw].
  now apply cancel_wellformed.
Qed.

Lemma onMouseMove_wellformed (e : PointerEvent) (w : Page.t) :
  Reachable.frames_wellformed w ->
  Reachable.frames_wellformed (Page.onMouseMove e w)
  /\ (forall h lt,
        In (h, Page.playFrame_callback lt)
          (Page.frameCallbacks (Page.onMouseMove e w)) ->
        In (h, Page.playFrame_callback lt) (Page.frameCallbacks w))
  /\ Timeline.isPlaying (Page.timeline (Page.onMouseMove e w))
     = Timeline.isPlaying (Page.timeline w).
Proof.
  intro Hw. unfold Page.onMouseMove.
  destruct (Timeline.dragTarget (Page.timeline w)); [| auto].
  set (w1 := match Timeline.queuedAnimationFrame (Page.timeline w) with
             | Some (S h) => Page.cancelAnimationFrame (S h) w
             | _ => w
             end).
  assert (Hw1 : Reachable.frames_wellformed w1
                /\ (forall h cb, In (h, cb) (Page.frameCallbacks w1) ->
                                 In (h, cb) (Page.frameCallbacks w))
                /\ (forall h ev,
                      ~ In (h, Page.drag_callback ev) (Page.frameCallbacks w1))
                /\ Page.timeline w1 = Page.timeline w).
  { subst w1. destruct Hw as (H1 & H2 & H3 & H4 & H5).
    assert (Hw : Reachable.frames_wellformed w)
      by (unfold Reachable.frames_wellformed; auto).
    destruct (Timeline.queuedAnimationFrame (Page.timeline w))
      as [[| h0] |] eqn:Eq.
    - split; [exact Hw |]. split; [auto |]. split; [| reflexivity].
      intros h ev Hin. pose proof (H3 _ _ Hin). specialize (H5 _ _ Hin).
      injection H5 as <-. lia.
    - destruct (cancel_wellformed (S h0) w Hw) as [Hc Hsub].
      split; [exact Hc |].
      split; [intros h cb Hin; now apply Hsub |].
      split; [| reflexivity].
      intros h ev Hin. apply Hsub in Hin as [Hin Hne].
      specialize (H5 _ _ Hin). congruence.
    - split; [exact Hw |]. split; [auto |]. split; [| reflexivity].
      intros h ev Hin. specialize (H5 _ _ Hin). discriminate. }
  destruct Hw1 as (Hwf & Hsub & Hnone & Et).
  unfold Page.requestAnimationFrame.
  split; [exact (request_drag_wellformed e w1 Hwf Hnone) |].
  split.
  - intros h lt Hin. cbn in Hin.
    apply in_app_or in Hin as [Hin | [E | []]]; [auto | discriminate].
  - cbn. now rewrite Et.
Qed.

Lemma reactions_tail_fields (b : bool) (w : Page.t) :
  let w' :=
    Page.invalidate_onTargetChange
      (if b
       then Page.reaction_lock (if b then Page.reaction_debounce w else w)
       else (if b then Page.reaction_debounce w else w)) in
  Page.frameCallbacks w' = Page.frameCallbacks w
  /\ Page.nextHandle w' = Page.nextHandle w
  /\ Page.lifecycle w' = Page.lifecycle w
  /\ Timeline.animRequest (Page.timeline w')
     = Timeline.animRequest (Page.timeline w)
  /\ Timeline.queuedAnimationFrame (Page.timeline w')
     = Timeline.queuedAnimationFrame (Page.timeline w)
  /\ Timeline.isPlaying (Page.timeline w')
     = Timeline.isPlaying (Page.timeline w).
Proof.
  cbv zeta.
  unfold Page.invalidate_onTargetChange, Page.reaction_lock,
    Page.reaction_debounce.
  destruct (lockToClosest_keeps_handles (Page.timeline w)) as [La Lq].
  destruct (lockToClosest_keeps_mode (Page.timeline w)) as (Lp & _).
  destruct b;
    repeat match goal with
           | |- context [match ?x with _ => _ end] => destruct x
           end; page_simpl; repeat split; assumption.
Qed.

(** After the reactions the pending frames are well formed and follow
    [isPlaying], when the action left them well formed and added no
    [playFrame] to a component that was not playing. *)
Lemma reactions_frames (before : Timeline.t) (w : Page.t) :
  Reachable.frames_wellformed w ->
  (Page.lifecycle w = Page.mounted ->
   Timeline.isPlaying before = false ->
   forall h lt, ~ In (h, Page.playFrame_callback lt) (Page.frameCallbacks w)) ->
  (Page.lifecycle w = Page.constructed -> Page.frameCallbacks w = []) ->
  Reachable.frames_wellformed (Page.reactions before w)
  /\ Reachable.loop_follows_isPlaying (Page.reactions before w).
Proof.
  intros Hw Hnone Hcons. unfold Page.reactions.
  destruct (Page.isMounted w) eqn:Hm; cbn [negb].
  2: { split; [exact Hw |]. split; [exact Hcons |].
       intro El. apply isMounted_iff in El. congruence. }
  apply isMounted_iff in Hm. cbv zeta.
  set (changed := xorb (Timeline.isPlaying before)
                    (Timeline.isPlaying (Page.timeline w))).
  set (wA := if changed then Page.reaction_playing w else w).
  assert (HA : Reachable.frames_wellformed wA
               /\ Page.lifecycle wA = Page.mounted
               /\ (Timeline.isPlaying (Page.timeline wA) = false ->
                   forall h lt,
                     ~ In (h, Page.playFrame_callback lt)
                         (Page.frameCallbacks wA))).
  { subst wA. destruct changed eqn:Ec.
    - destruct (reaction_playing_fields w) as (Rl & _ & Rp & _).
      unfold Page.reaction_playing in *.
      destruct (Timeline.isPlaying (Page.timeline w)) eqn:Ep.
      + subst changed.
        assert (Hb : Timeline.isPlaying before = false)
          by (destruct (Timeline.isPlaying before); [discriminate | easy]).
        split; [| split; [congruence |]].
        * exact (request_play_wellformed None w Hw (Hnone Hm Hb)).
        * rewrite Rp. discriminate.
      + split; [now apply onStopPlaying_wellformed |].
        split; [congruence |].
        intros _. now apply cancel_animRequest_removes_playFrames.
    - split; [exact Hw |]. split; [exact Hm |].
      intros Ep. apply Hnone; [exact Hm |].
      subst changed. apply xorb_eq in Ec. congruence. }
  destruct HA as (HAw & HAl & HAn).
  destruct (reactions_tail_fields
              (changed
               || xorb (Timeline.isDragging before)
                    (Timeline.isDragging (Page.timeline w))) wA)
    as (Tf & Tn & Tl & Ta & Tq & Tp).
  split.
  - now apply (frames_wellformed_ext wA).
  - unfold Reachable.loop_follows_isPlaying.
    rewrite Tf, Tl, Tp. split; [congruence |]. intros _. exact HAn.
Qed.

(** The pending frames are well formed and follow [isPlaying] in every state
    the page reaches. *)
Lemma frames_after_timers (w : Page.t) :
  Reachable.frames_wellformed w /\ Reachable.loop_follows_isPlaying w ->
  Reachable.frames_wellformed (Page.runTimers w)
  /\ Reachable.loop_follows_isPlaying (Page.runTimers w).
Proof.
  intros [Hw Hl]. destruct (runTimers_fields w) as (Et & El & _ & Ef & En).
  split.
  - apply (frames_wellformed_ext w); congruence.
  - unfold Reachable.loop_follows_isPlaying. now rewrite Ef, El, Et.
Qed.

Lemma frames_after_mount (w0 : Page.t) :
  Reachable.frames_wellformed w0 /\ Reachable.loop_follows_isPlaying w0 ->
  Page.lifecycle w0 = Page.constructed ->
  Reachable.frames_wellformed (Page.componentDidMount w0)
  /\ Reachable.loop_follows_isPlaying (Page.componentDidMount w0).
Proof.
  intros [Hw [Hc _]] El. specialize (Hc El).
  unfold Page.componentDidMount.
  set (w1 := Page.set_lifecycle Page.mounted
               (Page.set_timeline (Timeline.syncFromProps (Page.timeline w0))
                  w0)).
  assert (Hw1 : Reachable.frames_wellformed w1)
    by (apply (frames_wellformed_ext w0); [reflexivity .. | exact Hw]).
  assert (Hn1 : forall h lt,
             ~ In (h, Page.playFrame_callback lt) (Page.frameCallbacks w1))
    by (cbn; rewrite Hc; intros h lt []).
  set (w2 := Page.reaction_playing w1).
  assert (H2 : Reachable.frames_wellformed w2
               /\ (Timeline.isPlaying (Page.timeline w2) = false ->
                   forall h lt,
                     ~ In (h, Page.playFrame_callback lt)
                         (Page.frameCallbacks w2))).
  { subst w2. destruct (reaction_playing_fields w1) as (_ & _ & Rp & _).
    unfold Page.reaction_playing in *.
    destruct (Timeline.isPlaying (Page.timeline w1)) eqn:Ep.
    - split; [exact (request_play_wellformed None w1 Hw1 Hn1) |].
      rewrite Rp. discriminate.
    - split; [now apply onStopPlaying_wellformed |].
      intros _. now apply cancel_animRequest_removes_playFrames. }
  destruct H2 as [H2w H2n].
  destruct (reaction_playing_fields w1) as (Rl & _).
  fold w2 in Rl.
  unfold Page.reaction_lock, Page.reaction_debounce.
  destruct (lockToClosest_keeps_handles (Page.timeline w2)) as [La Lq].
  destruct (lockToClosest_keeps_mode (Page.timeline w2)) as (Lp & _).
  split.
  - apply (frames_wellformed_ext w2); page_simpl; try reflexivity;
      assumption.
  - unfold Reachable.loop_follows_isPlaying. page_simpl.
    rewrite Rl, Lp. split; [discriminate |]. intros _. exact H2n.
Qed.

Lemma frames_after_handler
    (getBoundFromTimeRange : Time * Time -> Time -> TimeBound)
    (w0 w1 : Page.t) :
  Reachable.frames_wellformed w0 /\ Reachable.loop_follows_isPlaying w0 ->
  Page.lifecycle w0 = Page.mounted ->
  Reachable.handler_action getBoundFromTimeRange w0 w1 ->
  Reachable.frames_wellformed (Page.reactions (Page.timeline w0) w1)
  /\ Reachable.loop_follows_isPlaying
       (Page.reactions (Page.timeline w0) w1).
Proof.
  intros [Hw [Hc Hs]] El Hact.
  apply reactions_frames.
  - destruct Hact as [q | | e s Hs' | e |].
    + destruct (componentDidUpdate_keeps_handles
                  (Timeline.set_props q (Page.timeline w0))) as (Ea & Eq & _).
      apply (frames_wellformed_ext w0); try reflexivity; assumption.
    + apply (frames_wellformed_ext w0); try reflexivity; assumption.
    + destruct (onMouseDown_keeps_handles _ _ _ _ Hs') as (Ea & Eq & _).
      apply (frames_wellformed_ext w0); try reflexivity; assumption.
    + now apply onMouseMove_wellformed.
    + apply (frames_wellformed_ext w0); try reflexivity; assumption.
  - intros _ Hp h lt Hin.
    apply (Hs El Hp h lt).
    destruct Hact as [q | | e s Hs' | e |]; try exact Hin.
    now apply (onMouseMove_wellformed e w0 Hw).
  - destruct (handler_action_fields _ _ _ Hact) as (Al & _).
    intro H. congruence.
Qed.

Lemma frames_after_callback
    (getBoundFromTimeRange : Time * Time -> Time -> TimeBound)
    (w0 : Page.t) (h : nat) (cb : Page.Callback) (time : Time)
    (w' : Page.t) :
  Reachable.frames_wellformed w0 /\ Reachable.loop_follows_isPlaying w0 ->
  In (h, cb) (Page.frameCallbacks w0) ->
  Page.runCallback getBoundFromTimeRange time cb
    (Page.cancelAnimationFrame h w0) = Some w' ->
  Reachable.frames_wellformed w' /\ Reachable.loop_follows_isPlaying w'.
Proof.
  intros [Hw [Hc Hs]] Hin Hcb.
  destruct (cancel_wellformed h w0 Hw) as [Hcw Hsub].
  set (wc := Page.cancelAnimationFrame h w0) in *.
  assert (Hnc : Page.lifecycle w0 <> Page.constructed).
  { intro El. rewrite (Hc El) in Hin. destruct Hin. }
  unfold Page.runCallback, Page.action in Hcb.
  destruct cb as [lastTime | ev].
  - (* playFrame *)
    assert (Hothers : forall h' lt,
               ~ In (h', Page.playFrame_callback lt)
                   (Page.frameCallbacks wc)).
    { intros h' lt Hin'. apply Hsub in Hin' as [Hin' Hne].
      destruct Hw as (_ & _ & _ & H4 & _).
      pose proof (H4 _ _ Hin) as E1. pose proof (H4 _ _ Hin') as E2.
      congruence. }
    destruct (Page.playFrame lastTime time wc) as [w1 |] eqn:Ep;
      [| discriminate].
    injection Hcb as <-.
    unfold Page.playFrame in Ep.
    destruct (Timeline.playFrame lastTime time (Page.timeline wc))
      as [[s next] |] eqn:Et; [| discriminate].
    destruct (Timeline_playFrame_keeps_handles _ _ _ _ _ Et)
      as (Ea & Eq & Hstop).
    assert (Hws : Reachable.frames_wellformed (Page.set_timeline s wc))
      by (apply (frames_wellformed_ext wc); try reflexivity; assumption).
    apply reactions_frames.
    + destruct next as [lt' |]; injection Ep as <-; [| exact Hws].
      exact (request_play_wellformed (Some lt') (Page.set_timeline s wc)
               Hws Hothers).
    + intros _ Hp. destruct (Hstop Hp) as [-> ->]. injection Ep as <-.
      exact Hothers.
    + intro El. exfalso. apply Hnc.
      destruct next; injection Ep as <-; exact El.
  - (* the queued pointer-move frame *)
    destruct (Page.isMounted wc) eqn:Hm.
    2: { injection Hcb as <-. split; [exact Hcw |].
         split; [intro El; exfalso; exact (Hnc El) |].
         intro El. apply isMounted_iff in El. congruence. }
    destruct (Timeline.getInputYearFromMouse (Page.timeline wc) ev)
      as [y |]; [| discriminate].
    unfold Page.on_timeline in Hcb. injection Hcb as <-.
    destruct (onDrag_keeps_handles getBoundFromTimeRange (Page.timeline wc) y)
      as [Ea Eq].
    apply reactions_frames.
    + apply (frames_wellformed_ext wc); try reflexivity; assumption.
    + intros El Hp h' lt Hin'. apply Hsub in Hin' as [Hin' _].
      exact (Hs El Hp h' lt Hin').
    + intro El. exfalso. exact (Hnc El).
Qed.

Lemma frames_at_creation (p : TimelineProps.t) :
  Reachable.frames_wellformed (Page.create p)
  /\ Reachable.loop_follows_isPlaying (Page.create p).
Proof.
  unfold Page.create. destruct (Timeline.constructor p) as [s msgs].
  split.
  - unfold Reachable.frames_wellformed. cbn.
    split; [lia |]. split; [constructor |].
    repeat split; intros; contradiction.
  - split; [reflexivity |]. cbn. intros _ _ h lt [].
Qed.

Lemma reachable_frames
    (getBoundFromTimeRange : Time * Time -> Time -> TimeBound)
    (p : TimelineProps.t) (w : Page.t) :
  Reachable.reachable getBoundFromTimeRange p w ->
  Reachable.frames_wellformed w /\ Reachable.loop_follows_isPlaying w.
Proof.
  intros [events Hrun].
  set (I := fun w : Page.t =>
              Reachable.frames_wellformed w
              /\ Reachable.loop_follows_isPlaying w).
  apply (run_preserves getBoundFromTimeRange I I) with (events := events)
                                                      (w := Page.create p);
    try exact Hrun; subst I; cbn beta.
  - auto.
  - exact frames_after_timers.
  - exact frames_after_mount.
  - intros w0 [Hw _] El. split; [exact Hw |].
    split; cbn; discriminate.
  - exact (frames_after_handler getBoundFromTimeRange).
  - intros w0 h cb time w' HI Hin Hcb.
    exact (frames_after_callback getBoundFromTimeRange w0 h cb time w' HI
             Hin Hcb).
  - exact (frames_at_creation p).
Qed.

Lemma filter_at_most_one {A : Type} (key : A -> nat) (kind : A -> bool)
    (l : list A) :
  NoDup (map key l) ->
  (forall a b, In a l -> In b l -> kind a = true -> kind b = true ->
               key a = key b) ->
  (List.length (filter kind l) <= 1)%nat.
Proof.
  induction l as [| x l IH]; cbn; [lia |].
  intros Hnd Hsame. inversion Hnd as [| ? ? Hnot Hnd']; subst.
  assert (IH' : (List.length (filter kind l) <= 1)%nat).
  { apply IH; [exact Hnd' |]. intros a b Ha Hb. apply Hsame; now right. }
  destruct (kind x) eqn:Ex; [| exact IH'].
  destruct (filter kind l) as [| y rest] eqn:Ef; [cbn; lia |].
  exfalso. apply Hnot.
  assert (Hy : In y (filter kind l)) by (rewrite Ef; now left).
  apply filter_In in Hy as [Hy Ky].
  rewrite (Hsame x y (or_introl eq_refl) (or_intror Hy) Ex Ky).
  now apply in_map.
Qed.

(** X14.  Frames are requested cancel-and-replace.  In every state the page
    reaches, the pending animation-frame callbacks have distinct handles; at
    most one of them is a [playFrame] and at most one is a queued pointer
    move; a pending [playFrame] is the one [animRequest] names and a pending
    pointer-move frame the one [queuedAnimationFrame] names. *)
Theorem at_most_one_pending_frame_of_each_kind
    (getBoundFromTimeRange : Time * Time -> Time -> TimeBound)
    (p : TimelineProps.t) (w : Page.t) :
  Reachable.reachable getBoundFromTimeRange p w ->
  NoDup (map fst (Page.frameCallbacks w))
  /\ (List.length (filter Reachable.isPlayFrame (Page.frameCallbacks w)) <= 1)%nat
  /\ (List.length (filter Reachable.isDragFrame (Page.frameCallbacks w)) <= 1)%nat
  /\ (forall h lastTime,
        In (h, Page.playFrame_callback lastTime) (Page.frameCallbacks w) ->
        Timeline.animRequest (Page.timeline w) = Some h)
  /\ (forall h ev,
        In (h, Page.drag_callback ev) (Page.frameCallbacks w) ->
        Timeline.queuedAnimationFrame (Page.timeline w) = Some h).
Proof.
  intro Hr.
  destruct (reachable_frames _ _ _ Hr) as [(H1 & H2 & H3 & H4 & H5) _].
  split; [exact H2 |].
  split; [| split; [| split; [exact H4 | exact H5]]].
  - apply (filter_at_most_one fst); [exact H2 |].
    intros [ha [la | ea]] [hb [lb | eb]] Ha Hb Ka Kb; try discriminate.
    pose proof (H4 _ _ Ha). pose proof (H4 _ _ Hb). cbn. congruence.
  - apply (filter_at_most_one fst); [exact H2 |].
    intros [ha [la | ea]] [hb [lb | eb]] Ha Hb Ka Kb; try discriminate.
    pose proof (H5 _ _ Ha). pose proof (H5 _ _ Hb). cbn. congruence.
Qed.

(** X15.  Stopping playback cancels its frame.  In every state the page
    reaches while the component is mounted and not playing, no [playFrame]
    callback is pending; before the component is mounted no frame is pending
    at all. *)
Theorem no_playFrame_pending_unless_playing
    (getBoundFromTimeRange : Time * Time -> Time -> TimeBound)
    (p : TimelineProps.t) (w : Page.t) :
  Reachable.reachable getBoundFromTimeRange p w ->
  (Page.lifecycle w = Page.mounted ->
   Timeline.isPlaying (Page.timeline w) = false ->
   filter Reachable.isPlayFrame (Page.frameCallbacks w) = [])
  /\ (Page.lifecycle w = Page.constructed -> Page.frameCallbacks w = []).
Proof.
  intro Hr. destruct (reachable_frames _ _ _ Hr) as [_ [Hc Hs]].
  split; [| exact Hc].
  intros El Hp.
  destruct (filter Reachable.isPlayFrame (Page.frameCallbacks w))
    as [| [h cb] rest] eqn:Ef; [reflexivity |].
  exfalso.
  assert (Hin : In (h, cb)
                  (filter Reachable.isPlayFrame (Page.frameCallbacks w)))
    by (rewrite Ef; now left).
  apply filter_In in Hin as [Hin Hk].
  destruct cb as [lt | ev]; [| discriminate].
  exact (Hs El Hp h lt Hin).
Qed.

Lemma Timeline_playFrame_keeps_dragTarget
    (lastTime : option Time) (time : Time) (s s' : Timeline.t)
    (next : option Time) :
  Timeline.playFrame lastTime time s = Some (s', next) ->
  Timeline.dragTarget s' = Timeline.dragTarget s.
Proof.
  unfold Timeline.playFrame.
  destruct (negb (Timeline.isPlaying s)).
  { intro H. now injection H as <- <-. }
  destruct lastTime as [lt |].
  - destruct (Qle_bool (Timeline.maxYear s) (Timeline.endYearUI s)).
    + intro H. now injection H as <- <-.
    + destruct (Util.at_index _ _) as [n |]; [| discriminate].
      intro H. injection H as <- <-.
      now destruct (TimelineProps.singleYearMode (Timeline.props s)
                    || TimelineProps.singleYearPlay (Timeline.props s)).
  - destruct (Qle_bool (Timeline.maxYear s) (Timeline.endYearUI s));
      intro H; now injection H as <- <-.
Qed.

Lemma runCallback_unmounted
    (getBoundFromTimeRange : Time * Time -> Time -> TimeBound)
    (time : Time) (cb : Page.Callback) (w w' : Page.t) :
  Page.lifecycle w = Page.unmounted ->
  Page.runCallback getBoundFromTimeRange time cb w = Some w' ->
  Page.lifecycle w' = Page.unmounted
  /\ Page.onTargetChangeCalls w' = Page.onTargetChangeCalls w
  /\ Page.debounceMode w' = Page.debounceMode w
  /\ Timeline.dragTarget (Page.timeline w')
     = Timeline.dragTarget (Page.timeline w).
Proof.
  intros El Hcb.
  assert (Hid : forall b w1, Page.lifecycle w1 = Page.unmounted ->
                             Page.reactions b w1 = w1).
  { intros b w1 E. unfold Page.reactions, Page.isMounted. now rewrite E. }
  unfold Page.runCallback, Page.action in Hcb. destruct cb as [lastTime | ev].
  - destruct (Page.playFrame lastTime time w) as [w1 |] eqn:Ep;
      [| discriminate].
    injection Hcb as <-.
    destruct (playFrame_fields _ _ _ _ Ep) as (Al & Ad & Ac & _).
    rewrite Hid by congruence.
    split; [congruence |]. split; [exact Ac |]. split; [exact Ad |].
    unfold Page.playFrame, Page.requestAnimationFrame in Ep.
    destruct (Timeline.playFrame lastTime time (Page.timeline w))
      as [[s next] |] eqn:Et; [| discriminate].
    pose proof (Timeline_playFrame_keeps_dragTarget _ _ _ _ _ Et) as Ed.
    destruct next; injection Ep as <-; exact Ed.
  - assert (Hm : Page.isMounted w = false)
      by (unfold Page.isMounted; rewrite El; reflexivity).
    rewrite Hm in Hcb. injection Hcb as <-.
    split; [exact El |]. repeat split.
Qed.

(** X16.  After [componentWillUnmount], whatever events follow and whatever
    frames still fire: the component stays unmounted, [onTargetChange] is
    never called again, and [debounceMode] and [dragTarget] keep the values
    they had at unmount, so a debounce signal raised by a drag or a playback
    in progress is never lowered. *)
Theorem nothing_is_reported_after_unmount
    (getBoundFromTimeRange : Time * Time -> Time -> TimeBound)
    (w w' : Page.t) (events : list Page.Event) :
  Page.lifecycle w = Page.unmounted ->
  Page.run getBoundFromTimeRange w events = Some w' ->
  Page.lifecycle w' = Page.unmounted
  /\ Page.onTargetChangeCalls w' = Page.onTargetChangeCalls w
  /\ Page.debounceMode w' = Page.debounceMode w
  /\ Timeline.dragTarget (Page.timeline w')
     = Timeline.dragTarget (Page.timeline w).
Proof.
  intros El Hrun.
  set (U := fun x : Page.t =>
              Page.lifecycle x = Page.unmounted
              /\ Page.onTargetChangeCalls x = Page.onTargetChangeCalls w
              /\ Page.debounceMode x = Page.debounceMode w
              /\ Timeline.dragTarget (Page.timeline x)
                 = Timeline.dragTarget (Page.timeline w)).
  apply (run_preserves getBoundFromTimeRange U U) with (events := events)
                                                      (w := w);
    try exact Hrun; subst U; cbn beta.
  - auto.
  - intros x (Hl & Hc & Hd & Ht).
    destruct (runTimers_fields x) as (Et & El' & Ed & _).
    rewrite Et, El', Ed. repeat split; try assumption.
    unfold Page.runTimers, Page.isMounted. rewrite Hl.
    now destruct (Page.targetPending x).
  - intros x (Hl & _) E. congruence.
  - intros x (Hl & _) E. congruence.
  - intros x x1 (Hl & _) E. congruence.
  - intros x h cb time x' (Hl & Hc & Hd & Ht) _ Hcb.
    destruct (runCallback_unmounted getBoundFromTimeRange time cb
                (Page.cancelAnimationFrame h x) x' Hl Hcb)
      as (Rl & Rc & Rd & Rt).
    cbn in Rc, Rd, Rt. repeat split; congruence.
  - repeat split. exact El.
Qed.

Lemma reachable_of_run
    (getBoundFromTimeRange : Time * Time -> Time -> TimeBound)
    (p : TimelineProps.t) (events : list Page.Event) (w : Page.t) :
  Page.run getBoundFromTimeRange (Page.create p) events = Some w ->
  Reachable.reachable getBoundFromTimeRange p w.
Proof. intro H. now exists events. Qed.

(** Mounted and with the start handle grabbed, the debounce flag is up. *)
Lemma debounceMode_follows_playing_or_dragging_witness :
  exists w : Page.t,
    Page.run Examples.boundAsGiven
      (Page.create
         (Examples.propsOf Examples.axis (concrete 1995) (concrete 2005)))
      [Page.didMount; Page.mouseDown (Examples.pointerAt 10)] = Some w
    /\ Page.debounceMode w = true.
Proof.
  eexists. split; [vm_compute; reflexivity |].
  match goal with
  | |- Page.debounceMode ?w = _ =>
      assert (R : Reachable.reachable Examples.boundAsGiven
                    (Examples.propsOf Examples.axis (concrete 1995)
                       (concrete 2005)) w)
        by (exists [Page.didMount; Page.mouseDown (Examples.pointerAt 10)];
            vm_compute; reflexivity);
      rewrite (debounceMode_follows_playing_or_dragging _ _ w R eq_refl)
  end.
  reflexivity.
Defined.

(** After the start handle is grabbed at 1992 the host has been told the
    range from 1990, the year 1992 snaps to, to 2005. *)
Lemma host_knows_the_snapped_range_witness :
  exists (w : Page.t) (earlier : list (TimeBound * TimeBound))
         (lastCall : TimeBound * TimeBound),
    Page.run Examples.boundAsGiven
      (Page.create
         (Examples.propsOf Examples.axis (concrete 1995) (concrete 2005)))
      [Page.didMount; Page.mouseDown (Examples.pointerAt 10)] = Some w
    /\ Page.onTargetChangeCalls w = earlier ++ [lastCall]
    /\ TimeBounds.eq (fst lastCall)
         (Timeline.startYearClosest (Page.timeline w))
    /\ Timeline.startYearClosest (Page.timeline w) = concrete 1990.
Proof.
  assert (Hrun : exists w,
             Page.run Examples.boundAsGiven
               (Page.create
                  (Examples.propsOf Examples.axis (concrete 1995)
                     (concrete 2005)))
               [Page.didMount; Page.mouseDown (Examples.pointerAt 10)]
             = Some w
             /\ Page.lifecycle w = Page.mounted
             /\ Timeline.startYearClosest (Page.timeline w) = concrete 1990).
  { eexists. split; [vm_compute; reflexivity |]. split; reflexivity. }
  destruct Hrun as (w & Hrun & El & Es).
  destruct (host_knows_the_snapped_range Examples.boundAsGiven
              (Examples.propsOf Examples.axis (concrete 1995) (concrete 2005))
              w (reachable_of_run _ _ _ _ Hrun) El)
    as (earlier & lastCall & Ec & E1 & _).
  exists w, earlier, lastCall. repeat split; assumption.
Defined.

(** With one pointer move queued during a drag, one frame is pending. *)
Lemma at_most_one_pending_frame_of_each_kind_witness :
  exists w : Page.t,
    Page.run Examples.boundAsGiven
      (Page.create
         (Examples.propsOf Examples.axis (concrete 1995) (concrete 2005)))
      (Examples.dragEvents ++ [Page.mouseMove (Examples.pointerAt 40)])
    = Some w
    /\ (List.length (filter Reachable.isDragFrame (Page.frameCallbacks w))
        <= 1)%nat.
Proof.
  assert (Hrun : exists w,
             Page.run Examples.boundAsGiven
               (Page.create
                  (Examples.propsOf Examples.axis (concrete 1995)
                     (concrete 2005)))
               (Examples.dragEvents
                ++ [Page.mouseMove (Examples.pointerAt 40)])
             = Some w).
  { eexists. vm_compute. reflexivity. }
  destruct Hrun as (w & Hrun).
  exists w. split; [exact Hrun |].
  apply (at_most_one_pending_frame_of_each_kind Examples.boundAsGiven
           (Examples.propsOf Examples.axis (concrete 1995) (concrete 2005))
           w (reachable_of_run _ _ _ _ Hrun)).
Defined.

(** Play switched on and off again: no [playFrame] is left pending. *)
Lemma no_playFrame_pending_unless_playing_witness :
  exists w : Page.t,
    Page.run Examples.boundAsGiven
      (Page.create
         (Examples.propsOf Examples.axis (concrete 1990) (concrete 1995)))
      [Page.didMount; Page.clickToggle; Page.animationFrame 0;
       Page.clickToggle] = Some w
    /\ filter Reachable.isPlayFrame (Page.frameCallbacks w) = [].
Proof.
  assert (Hrun : exists w,
             Page.run Examples.boundAsGiven
               (Page.create
                  (Examples.propsOf Examples.axis (concrete 1990)
                     (concrete 1995)))
               [Page.didMount; Page.clickToggle; Page.animationFrame 0;
                Page.clickToggle] = Some w
             /\ Page.lifecycle w = Page.mounted
             /\ Timeline.isPlaying (Page.timeline w) = false).
  { eexists. split; [vm_compute; reflexivity |]. split; reflexivity. }
  destruct Hrun as (w & Hrun & El & Ep).
  exists w. split; [exact Hrun |].
  apply (no_playFrame_pending_unless_playing Examples.boundAsGiven
           (Examples.propsOf Examples.axis (concrete 1990) (concrete 1995))
           w (reachable_of_run _ _ _ _ Hrun)); assumption.
Defined.

(** Unmounted while the start handle is held: later frames and events leave
    the debounce flag up and make no call. *)
Lemma nothing_is_reported_after_unmount_witness :
  exists w w' : Page.t,
    Page.run Examples.boundAsGiven
      (Page.create
         (Examples.propsOf Examples.axis (concrete 1995) (concrete 2005)))
      (Examples.dragEvents ++ [Page.willUnmount]) = Some w
    /\ Page.run Examples.boundAsGiven w [Page.animationFrame 0; Page.mouseUp]
       = Some w'
    /\ Page.debounceMode w' = true
    /\ Page.onTargetChangeCalls w' = Page.onTargetChangeCalls w.
Proof.
  do 2 eexists.
  split; [vm_compute; reflexivity |].
  split; [vm_compute; reflexivity |].
  match goal with
  | |- Page.debounceMode ?w' = _ /\ _ = Page.onTargetChangeCalls ?w =>
      destruct (nothing_is_reported_after_unmount Examples.boundAsGiven w w'
                  [Page.animationFrame 0; Page.mouseUp] eq_refl
                  ltac:(vm_compute; reflexivity))
        as (_ & Ec & Ed & _)
  end.
  split; [rewrite Ed; reflexivity | exact Ec].
Defined.

(** ** Arrays: the instances meet what is assumed of [sortBy] and [uniq] *)

Lemma insertBy_perm {A : Type} (key : A -> Q) (a : A) (l : list A) :
  Permutation (Arrays.insertBy key a l) (a :: l).
Proof.
  induction l as [|b rest IH]; cbn [Arrays.insertBy].
  - apply Permutation_refl.
  - destruct (Qle_bool (key a) (key b)).
    + apply Permutation_refl.
    + apply Permutation_trans with (b :: a :: rest).
      * apply perm_skip, IH.
      * apply perm_swap.
Qed.

Lemma insertBy_sorted {A : Type} (key : A -> Q) (a : A) (l : list A) :
  StronglySorted (fun x y => key x <= key y) l ->
  StronglySorted (fun x y => key x <= key y) (Arrays.insertBy key a l).
Proof.
  induction 1 as [|b rest Hs IH Hall]; cbn [Arrays.insertBy].
  - constructor; [constructor | constructor].
  - destruct (Qle_bool (key a) (key b)) eqn:E.
    + apply Qle_bool_iff in E.
      constructor.
      * constructor; assumption.
      * constructor; [exact E |].
        rewrite Forall_forall in Hall |- *.
        intros u Hu. specialize (Hall u Hu). lra.
    + assert (Hlt : key b < key a).
      { apply Qnot_le_lt. intro Hle. apply Qle_bool_iff in Hle. congruence. }
      constructor; [exact IH |].
      rewrite Forall_forall in Hall |- *.
      intros u Hu.
      apply (Permutation_in _ (insertBy_perm key a rest)) in Hu.
      destruct Hu as [<- | Hu]; [lra | exact (Hall u Hu)].
Qed.

Lemma insertBy_stable {A : Type} (key : A -> Q) (a : A) (l : list A) (k : Q) :
  filter (fun x => Qeq_bool (key x) k) (Arrays.insertBy key a l)
  = filter (fun x => Qeq_bool (key x) k) (a :: l).
Proof.
  induction l as [|b rest IH]; cbn [Arrays.insertBy]; [reflexivity |].
  destruct (Qle_bool (key a) (key b)) eqn:E; [reflexivity |].
  assert (Hlt : key b < key a).
  { apply Qnot_le_lt. intro Hle. apply Qle_bool_iff in Hle. congruence. }
  cbn [filter] in IH |- *. rewrite IH.
  destruct (Qeq_bool (key a) k) eqn:Ea; [| reflexivity].
  destruct (Qeq_bool (key b) k) eqn:Eb; [| reflexivity].
  apply Qeq_bool_iff in Ea. apply Qeq_bool_iff in Eb. lra.
Qed.

Lemma Arrays_sortBy_sorts_by_key {A : Type} :
  sorts_by_key (@Arrays.sortBy A).
Proof.
  intros l key. unfold Arrays.sortBy.
  induction l as [|a rest (Hp & Hs & Hf)]; cbn [fold_right].
  - repeat split; [apply perm_nil | constructor].
  - split; [| split].
    + apply Permutation_trans with (a :: fold_right (Arrays.insertBy key) [] rest).
      * apply insertBy_perm.
      * apply perm_skip, Hp.
    + apply insertBy_sorted, Hs.
    + intro k. rewrite insertBy_stable. cbn [filter]. rewrite Hf.
      reflexivity.
Qed.

Lemma Arrays_sortBy_numbers_rearranges : rearranges Arrays.sortBy_numbers.
Proof.
  intro l. apply (Arrays_sortBy_sorts_by_key l (fun q => q)).
Qed.

Lemma insert_string_perm (a : string) (l : list string) :
  Permutation (Arrays.insert_string a l) (a :: l).
Proof.
  induction l as [|b rest IH]; cbn [Arrays.insert_string].
  - apply Permutation_refl.
  - destruct (String.leb a b).
    + apply Permutation_refl.
    + apply Permutation_trans with (b :: a :: rest).
      * apply perm_skip, IH.
      * apply perm_swap.
Qed.

Lemma Arrays_sortBy_strings_rearranges : rearranges Arrays.sortBy_strings.
Proof.
  intro l. unfold Arrays.sortBy_strings.
  induction l as [|a rest IH]; cbn [fold_right].
  - apply perm_nil.
  - apply Permutation_trans with (a :: fold_right Arrays.insert_string [] rest).
    + apply insert_string_perm.
    + apply perm_skip, IH.
Qed.

Lemma Arrays_uniq_strings_removes_duplicates :
  removes_duplicates Arrays.uniq_strings.
Proof.
  intro l.
  induction l as [|a rest (Hn & Hi)]; cbn [Arrays.uniq_strings].
  - split; [constructor | tauto].
  - split.
    + constructor.
      * rewrite filter_In. intros (_ & E).
        rewrite String.eqb_refl in E. discriminate.
      * apply NoDup_filter, Hn.
    + intro b. cbn [In]. rewrite filter_In, Hi.
      destruct (String.eqb_spec a b) as [-> | Hne]; cbn [negb].
      * split; [tauto | intros _; left; reflexivity].
      * split; [tauto |].
        intros [-> | H]; [congruence | right; split; [exact H | reflexivity]].
Qed.

(** ** Line series *)

Lemma allValues_flat_map (props : Lines.LinesProps) :
  Lines.allValues props
  = flat_map LineChartSeries.values (Lines.data props).
Proof.
  unfold Lines.allValues.
  assert (G : forall l acc,
             fold_left (fun values s => values ++ LineChartSeries.values s)
               l acc
             = acc ++ flat_map LineChartSeries.values l).
  { induction l as [|s rest IH]; intro acc; cbn [fold_left flat_map].
    - rewrite app_nil_r. reflexivity.
    - rewrite IH, <- app_assoc. reflexivity. }
  apply (G (Lines.data props) []).
Qed.

Lemma filter_headed {A : Type} (p : A -> bool) (l : list A) (c : A)
    (rest : list A) :
  filter p l = c :: rest ->
  exists before after,
    l = before ++ c :: after
    /\ forall u, In u before -> p u = false.
Proof.
  induction l as [|a l IH]; cbn [filter]; [discriminate |].
  destruct (p a) eqn:E.
  - intros [= -> _]. exists [], l. split; [reflexivity | intros u []].
  - intro H. destruct (IH H) as (before & after & -> & Hb).
    exists (a :: before), after. split; [reflexivity |].
    intros u [<- | Hu]; [exact E | exact (Hb u Hu)].
Qed.

Section LinesCursor.

Variable sortBy :
  list LineChartValue.t -> (LineChartValue.t -> Q) -> list LineChartValue.t.
Hypothesis sortBy_sorts : sorts_by_key sortBy.

(** X17.  What the cursor reports.  Outside the inner bounds [onCursorMove]
    passes undefined to [onHover].  Inside them, with no value in any
    series, it throws; otherwise it passes the x of the value whose placed x
    is nearest to the pointer, and among several nearest ones the first in
    the order of [allValues]: every value before it is strictly farther,
    every value after it at least as far. *)
Theorem onCursorMove_reports_first_nearest_value
    (props : Lines.LinesProps) (mouse : Vector2.t) :
  let distance := fun d : LineChartValue.t =>
    Qabs (Lines.xScale_place props (LineChartValue.x d) - Vector2.x mouse) in
  (Lines.innerBounds_contains props mouse = false ->
   Lines.onCursorMove sortBy props mouse = Some None)
  /\ (Lines.innerBounds_contains props mouse = true ->
      Lines.allValues props = [] ->
      Lines.onCursorMove sortBy props mouse = None)
  /\ (Lines.innerBounds_contains props mouse = true ->
      Lines.allValues props <> [] ->
      exists before closestValue after,
        Lines.allValues props = before ++ closestValue :: after
        /\ Lines.onCursorMove sortBy props mouse
           = Some (Some (LineChartValue.x closestValue))
        /\ (forall u, In u before -> distance closestValue < distance u)
        /\ (forall u, In u after -> distance closestValue <= distance u)).
Proof.
  intro distance. unfold Lines.onCursorMove.
  fold distance.
  destruct (sortBy_sorts (Lines.allValues props) distance) as (Hp & Hs & Hf).
  split; [| split].
  - intros ->. reflexivity.
  - intros -> E. rewrite E in Hp.
    apply Permutation_sym, Permutation_nil in Hp. rewrite E, Hp.
    reflexivity.
  - intros -> Hne.
    destruct (sortBy (Lines.allValues props) distance) as [|c rest] eqn:Es.
    + apply Permutation_nil in Hp. contradiction.
    + assert (Hmin : forall u, In u (Lines.allValues props) ->
                       distance c <= distance u).
      { intros u Hu.
        apply (Permutation_in _ (Permutation_sym Hp)) in Hu.
        inversion Hs as [|? ? _ Hall]; subst.
        rewrite Forall_forall in Hall.
        destruct Hu as [<- | Hu]; [apply Qle_refl | exact (Hall u Hu)]. }
      specialize (Hf (distance c)). cbn [filter] in Hf.
      assert (Ec : Qeq_bool (distance c) (distance c) = true)
        by (apply Qeq_bool_iff; reflexivity).
      rewrite Ec in Hf. symmetry in Hf.
      destruct (filter_headed _ _ _ _ Hf) as (before & after & Hl & Hb).
      exists before, c, after.
      split; [exact Hl |]. split; [reflexivity |]. split.
      * intros u Hu.
        assert (Hle : distance c <= distance u).
        { apply Hmin. rewrite Hl. apply in_or_app. left. exact Hu. }
        specialize (Hb u Hu). cbv beta in Hb.
        apply Qle_lteq in Hle. destruct Hle as [Hlt | Heq]; [exact Hlt |].
        symmetry in Heq. apply Qeq_bool_iff in Heq. congruence.
      * intros u Hu. apply Hmin. rewrite Hl.
        apply in_or_app. right. right. exact Hu.
Qed.

End LinesCursor.

Lemma existsb_eqb_In (k : string) (l : list string) :
  existsb (String.eqb k) l = true <-> In k l.
Proof.
  rewrite existsb_exists. split.
  - intros (x & Hx & E). apply String.eqb_eq in E. subst. exact Hx.
  - intro H. exists k. split; [exact H | apply String.eqb_refl].
Qed.

Lemma isFocus_renderSeries (makeSafeForCSS : string -> string)
    (props : Lines.LinesProps) (s : LineChartSeries.t) :
  Lines.isFocus (Lines.renderSeries makeSafeForCSS props s) = true
  <-> (Lines.focusKeys props = []
       \/ In (LineChartSeries.entityDimensionKey s) (Lines.focusKeys props)).
Proof.
  cbn [Lines.renderSeries Lines.isFocus].
  rewrite orb_true_iff, existsb_eqb_In, Nat.eqb_eq, length_zero_iff_nil.
  reflexivity.
Qed.

Lemma filter_negb_perm {A : Type} (p : A -> bool) (l : list A) :
  Permutation (filter p l ++ filter (fun a => negb (p a)) l) l.
Proof.
  induction l as [|a l IH]; cbn [filter]; [apply perm_nil |].
  destruct (p a); cbn [negb app].
  - apply perm_skip, IH.
  - apply Permutation_sym, Permutation_cons_app, Permutation_sym, IH.
Qed.

(** X18.  Foreground and background.  Every series of [data] is drawn once,
    in the focus groups or in the background groups.  It is a focus group
    exactly when no focus key is set or its key is one of them, and a
    background group otherwise; [isFocusMode] is true exactly when some
    series is a focus group, thus for every non-empty [data] without focus
    keys. *)
Theorem every_series_is_focus_or_background
    (makeSafeForCSS : string -> string) (props : Lines.LinesProps) :
  Permutation
    (Lines.focusGroups makeSafeForCSS props
     ++ Lines.backgroundGroups makeSafeForCSS props)
    (map (Lines.renderSeries makeSafeForCSS props) (Lines.data props))
  /\ (forall g,
        In g (Lines.focusGroups makeSafeForCSS props)
        <-> exists s, In s (Lines.data props)
              /\ g = Lines.renderSeries makeSafeForCSS props s
              /\ (Lines.focusKeys props = []
                  \/ In (LineChartSeries.entityDimensionKey s)
                       (Lines.focusKeys props)))
  /\ (forall g,
        In g (Lines.backgroundGroups makeSafeForCSS props)
        <-> exists s, In s (Lines.data props)
              /\ g = Lines.renderSeries makeSafeForCSS props s
              /\ Lines.focusKeys props <> []
              /\ ~ In (LineChartSeries.entityDimensionKey s)
                     (Lines.focusKeys props))
  /\ (Lines.isFocusMode makeSafeForCSS props = true
      <-> Lines.focusGroups makeSafeForCSS props <> [])
  /\ (Lines.focusKeys props = [] ->
      Lines.focusGroups makeSafeForCSS props
      = Lines.renderData makeSafeForCSS props
      /\ Lines.backgroundGroups makeSafeForCSS props = []
      /\ Lines.isFocusMode makeSafeForCSS props
         = negb (Nat.eqb (List.length (Lines.data props)) 0)).
Proof.
  unfold Lines.focusGroups, Lines.backgroundGroups, Lines.isFocusMode,
    Lines.renderData.
  split; [apply filter_negb_perm with (p := fun g => Lines.isFocus g) |].
  split; [| split; [| split]].
  - intro g. rewrite filter_In, in_map_iff. split.
    + intros ((s & <- & Hs) & Hf). exists s.
      split; [exact Hs |]. split; [reflexivity |].
      apply isFocus_renderSeries in Hf. exact Hf.
    + intros (s & Hs & -> & Hk). split.
      * exists s. split; [reflexivity | exact Hs].
      * apply isFocus_renderSeries. exact Hk.
  - intro g. rewrite filter_In, in_map_iff. split.
    + intros ((s & <- & Hs) & Hf). exists s.
      split; [exact Hs |]. split; [reflexivity |].
      apply negb_true_iff in Hf.
      split; intro H;
        [assert (Ht : Lines.isFocus
                        (Lines.renderSeries makeSafeForCSS props s) = true)
           by (apply isFocus_renderSeries; left; exact H)
        |assert (Ht : Lines.isFocus
                        (Lines.renderSeries makeSafeForCSS props s) = true)
           by (apply isFocus_renderSeries; right; exact H)];
        congruence.
    + intros (s & Hs & -> & Hne & Hni). split.
      * exists s. split; [reflexivity | exact Hs].
      * apply negb_true_iff.
        destruct (Lines.isFocus (Lines.renderSeries makeSafeForCSS props s))
          eqn:E; [| reflexivity].
        apply isFocus_renderSeries in E. tauto.
  - rewrite existsb_exists. split.
    + intros (g & Hg & Hf) E.
      assert (Hi : In g (filter (fun g => Lines.isFocus g)
                           (map (Lines.renderSeries makeSafeForCSS props)
                              (Lines.data props))))
        by (apply filter_In; split; assumption).
      rewrite E in Hi. exact Hi.
    + intro Hne.
      destruct (filter (fun g => Lines.isFocus g)
                  (map (Lines.renderSeries makeSafeForCSS props)
                     (Lines.data props))) as [|g rest] eqn:E;
        [congruence |].
      assert (Hi : In g (filter (fun g => Lines.isFocus g)
                           (map (Lines.renderSeries makeSafeForCSS props)
                              (Lines.data props))))
        by (rewrite E; left; reflexivity).
      apply filter_In in Hi. exists g. exact Hi.
  - intro Hk.
    assert (Hall : forall s,
               Lines.isFocus (Lines.renderSeries makeSafeForCSS props s)
               = true)
      by (intro s; apply isFocus_renderSeries; left; exact Hk).
    induction (Lines.data props) as [|s rest (IH1 & IH2 & IH3)];
      cbn [map filter existsb List.length Nat.eqb negb].
    + repeat split.
    + rewrite (Hall s). cbn [negb orb]. rewrite IH1, IH2.
      repeat split.
Qed.

Lemma mapi_from_values (data : list LineChartSeries.t) (i : nat)
    (d : LineChartSeries.t) (f : LineChartValue.t -> Vector2.t) :
  nth_error data i = Some d ->
  forall (rest before : list LineChartValue.t),
    LineChartSeries.values d = before ++ rest ->
    mapi_from
      (fun v j =>
         match nth_error data i with
         | None => None
         | Some d =>
             Some (Lines.mkHoverTarget v d
                     (nth_error (LineChartSeries.values d) j))
         end)
      (List.length before) (map f rest)
    = Some (map (fun v => Lines.mkHoverTarget (f v) d (Some v)) rest).
Proof.
  intros Hd rest.
  induction rest as [|v rest IH]; intros before E; cbn [map mapi_from].
  - reflexivity.
  - assert (E' : LineChartSeries.values d = (before ++ [v]) ++ rest)
      by (rewrite <- app_assoc; exact E).
    specialize (IH (before ++ [v]) E').
    rewrite length_app, Nat.add_comm in IH. cbn [List.length Nat.add] in IH.
    rewrite IH, Hd.
    rewrite E, nth_error_app2, Nat.sub_diag by lia.
    reflexivity.
Qed.

(** X19.  Hover targets.  [hoverData] never throws: it lists, series by
    series in the order of [data], every value of the series with the series
    itself and the rounded pixel position of the value.  So the hover
    targets correspond one to one, in order, to [allValues], and point
    markers are drawn exactly when there are fewer than 500 values in
    all. *)
Theorem hoverData_pairs_every_value_with_its_series
    (makeSafeForCSS : string -> string) (props : Lines.LinesProps) :
  let place := fun v : LineChartValue.t =>
    Vector2.mk
      (Math_round (Lines.xScale_place props (LineChartValue.x v)))
      (Math_round (Lines.yScale_place props (LineChartValue.y v))) in
  exists targets,
    Lines.hoverData makeSafeForCSS props = Some targets
    /\ targets
       = flat_map
           (fun d =>
              map (fun v => Lines.mkHoverTarget (place v) d (Some v))
                (LineChartSeries.values d))
           (Lines.data props)
    /\ map Lines.value targets = map Some (Lines.allValues props)
    /\ map Lines.pos targets = map place (Lines.allValues props)
    /\ Lines.hasMarkers makeSafeForCSS props
       = Nat.ltb (List.length targets) 500.
Proof.
  intro place.
  set (target := fun d : LineChartSeries.t =>
         map (fun v => Lines.mkHoverTarget (place v) d (Some v))
           (LineChartSeries.values d)).
  assert (Houter : forall rest before,
             Lines.data props = before ++ rest ->
             mapi_from
               (fun s i =>
                  mapi_from
                    (fun v j =>
                       match nth_error (Lines.data props) i with
                       | None => None
                       | Some d =>
                           Some (Lines.mkHoverTarget v d
                                   (nth_error (LineChartSeries.values d) j))
                       end)
                    0 (Lines.values s))
               (List.length before)
               (map (Lines.renderSeries makeSafeForCSS props) rest)
             = Some (map target rest)).
  { induction rest as [|d rest IH]; intros before E; cbn [map mapi_from].
    - reflexivity.
    - assert (Hd : nth_error (Lines.data props) (List.length before) = Some d).
      { rewrite E, nth_error_app2, Nat.sub_diag by lia. reflexivity. }
      cbn [Lines.renderSeries Lines.values].
      pose proof (mapi_from_values (Lines.data props) (List.length before) d
                    place Hd (LineChartSeries.values d) [] eq_refl) as Hin.
      cbn [List.length] in Hin. fold place. rewrite Hin.
      assert (E' : Lines.data props = (before ++ [d]) ++ rest)
        by (rewrite <- app_assoc; exact E).
      specialize (IH (before ++ [d]) E').
      rewrite length_app, Nat.add_comm in IH.
      cbn [List.length Nat.add] in IH.
      rewrite IH. reflexivity. }
  exists (flat_map target (Lines.data props)).
  split.
  - unfold Lines.hoverData, Lines.renderData.
    pose proof (Houter (Lines.data props) [] eq_refl) as Hall.
    cbn [List.length] in Hall. rewrite Hall.
    cbn [option_map]. rewrite flat_map_concat_map. reflexivity.
  - split; [reflexivity |].
    rewrite allValues_flat_map.
    unfold Lines.hasMarkers, Lines.renderData.
    assert (Hcount : forall l,
              list_sum
                (map (fun g => List.length (Lines.values g))
                   (map (Lines.renderSeries makeSafeForCSS props) l))
              = List.length (flat_map target l)).
    { induction l as [|d rest IH]; cbn [flat_map map]; [reflexivity |].
      rewrite length_app, <- IH. unfold target at 1.
      cbn [Lines.renderSeries Lines.values]. rewrite !length_map.
      reflexivity. }
    assert (Hvalue : forall l,
              map Lines.value (flat_map target l)
              = map Some (flat_map LineChartSeries.values l)).
    { induction l as [|d rest IH]; cbn [flat_map map]; [reflexivity |].
      rewrite !map_app, IH. unfold target at 1. rewrite map_map.
      reflexivity. }
    assert (Hpos : forall l,
              map Lines.pos (flat_map target l)
              = map place (flat_map LineChartSeries.values l)).
    { induction l as [|d rest IH]; cbn [flat_map map]; [reflexivity |].
      rewrite !map_app, IH. unfold target at 1. rewrite map_map.
      reflexivity. }
    rewrite Hcount, Hvalue, Hpos. repeat split.
Qed.

(** ** CSV export *)

Section CsvExport.

Import Dimension.

Variable csvEscape : Cell -> string.
Variable uniq_strings : list string -> list string.
Variable sortBy_strings : list string -> list string.
Variable uniq_numbers : list Q -> list Q.
Variable sortBy_numbers : list Q -> list Q.

Lemma fold_pushValue (entity : string) (year : Q) (dims : list Dimension.t)
    (acc : list Cell * bool) :
  fold_left (DataTab.pushValue entity year) dims acc
  = (fst acc
     ++ map
          (fun dim =>
             match DataTab.value dim entity year with
             | Some v => v
             | None => text ""
             end)
          dims,
     snd acc
     || existsb
          (fun dim =>
             match DataTab.value dim entity year with
             | Some _ => true
             | None => false
             end)
          dims).
Proof.
  revert acc.
  induction dims as [|dim dims IH]; intros [row has];
    cbn [fold_left map existsb fst snd].
  - rewrite app_nil_r, orb_false_r. reflexivity.
  - rewrite IH. unfold DataTab.pushValue.
    destruct (DataTab.value dim entity year); cbn [fst snd];
      rewrite <- app_assoc; cbn [app orb];
      [rewrite orb_true_r | ]; reflexivity.
Qed.

Lemma titleRow_length (chart : DataTab.ChartConfig) :
  List.length (DataTab.titleRow csvEscape chart)
  = (3 + List.length (DataTab.dimensions chart))%nat.
Proof.
  unfold DataTab.titleRow.
  assert (G : forall dims (acc : list string),
             List.length
               (fold_left
                  (fun titleRow dim =>
                     titleRow
                     ++ [csvEscape (text (Dimension.fullNameWithUnit dim))])
                  dims acc)
             = (List.length acc + List.length dims)%nat).
  { induction dims as [|dim dims IH]; intro acc; cbn [fold_left List.length].
    - lia.
    - rewrite IH, length_app. cbn [List.length]. lia. }
  rewrite G. reflexivity.
Qed.

(** X20.  Rows and columns.  A row of the export has as many cells as the
    title row: the entity, the code of its entry in [entityMetaByKey] or the
    empty string when it has none, and the formatted year, then one cell for
    each dimension that is not the colour dimension, in their order, holding
    the value of the dimension for the entity and the year or the empty
    string; and [rowHasSomeValue] is set exactly when one of these
    dimensions has a value there. *)
Theorem dataRow_has_one_cell_per_column
    (chart : DataTab.ChartConfig) (entity : string) (year : Q)
    (row : list Cell) (rowHasSomeValue : bool) :
  DataTab.dataRow chart entity year = Some (row, rowHasSomeValue) ->
  List.length row = List.length (DataTab.titleRow csvEscape chart)
  /\ List.length row = (3 + List.length (DataTab.dimensions chart))%nat
  /\ nth_error row 0 = Some (text entity)
  /\ (exists meta,
        DataTab.entityMetaByKey chart entity = Some meta
        /\ nth_error row 1
           = Some (text (match DataTab.code meta with
                         | Some code => code
                         | None => ""
                         end)))
  /\ nth_error row 2 = Some (text (DataTab.formatYearFunction chart year))
  /\ (forall i dim,
        nth_error (DataTab.dimensions chart) i = Some dim ->
        nth_error row (3 + i)
        = Some (match DataTab.value dim entity year with
                | Some v => v
                | None => text ""
                end))
  /\ (rowHasSomeValue = true
      <-> exists dim,
            In dim (DataTab.dimensions chart)
            /\ DataTab.value dim entity year <> None).
Proof.
  unfold DataTab.dataRow.
  destruct (DataTab.entityMetaByKey chart entity) as [meta|]; [| discriminate].
  rewrite fold_pushValue. cbn [fst snd orb app].
  intros [= <- <-].
  rewrite titleRow_length. cbn [List.length nth_error].
  rewrite length_map.
  split; [reflexivity |]. split; [reflexivity |].
  split; [reflexivity |].
  split.
  { exists meta. split; [reflexivity |].
    destruct (DataTab.code meta) as [c |]; [| reflexivity].
    destruct (String.eqb_spec c "") as [-> | _]; reflexivity. }
  split; [reflexivity |].
  split.
  - intros i dim Hi. cbn [Nat.add nth_error].
    rewrite nth_error_map, Hi. reflexivity.
  - rewrite existsb_exists. split.
    + intros (dim & Hd & Hv). exists dim. split; [exact Hd |].
      destruct (DataTab.value dim entity year); [discriminate | discriminate].
    + intros (dim & Hd & Hv). exists dim. split; [exact Hd |].
      destruct (DataTab.value dim entity year); [reflexivity | congruence].
Qed.

Lemma dataRow_throws (chart : DataTab.ChartConfig) (entity : string)
    (year : Q) :
  DataTab.dataRow chart entity year = None
  <-> DataTab.entityMetaByKey chart entity = None.
Proof.
  unfold DataTab.dataRow.
  destruct (DataTab.entityMetaByKey chart entity); split; congruence.
Qed.

Lemma forEach_year_rows (chart : DataTab.ChartConfig) (entity : string)
    (years : list Q) (rows rows' : list string) :
  forEach
    (fun year rows =>
       match DataTab.dataRow chart entity year with
       | None => None
       | Some (row, rowHasSomeValue) =>
           Some (if rowHasSomeValue
                 then rows ++ [join "," (map csvEscape row)]
                 else rows)
       end)
    years rows = Some rows' ->
  rows'
  = rows
    ++ flat_map
         (fun year =>
            match DataTab.dataRow chart entity year with
            | Some (row, true) => [join "," (map csvEscape row)]
            | _ => []
            end)
         years.
Proof.
  revert rows.
  induction years as [|year years IH]; intro rows; cbn [forEach flat_map].
  - intros [= <-]. rewrite app_nil_r. reflexivity.
  - destruct (DataTab.dataRow chart entity year) as [[row [|]]|];
      [| | discriminate]; intro H; apply IH in H; rewrite H.
    + rewrite <- app_assoc. reflexivity.
    + reflexivity.
Qed.

Lemma forEach_year_throws (chart : DataTab.ChartConfig) (entity : string)
    (years : list Q) (rows : list string) :
  forEach
    (fun year rows =>
       match DataTab.dataRow chart entity year with
       | None => None
       | Some (row, rowHasSomeValue) =>
           Some (if rowHasSomeValue
                 then rows ++ [join "," (map csvEscape row)]
                 else rows)
       end)
    years rows = None
  <-> (years <> [] /\ DataTab.entityMetaByKey chart entity = None).
Proof.
  revert rows.
  induction years as [|year years IH]; intro rows; cbn [forEach].
  - split; [discriminate | intros [H _]; congruence].
  - destruct (DataTab.dataRow chart entity year) as [[row has]|] eqn:Ed.
    + assert (Hm : DataTab.entityMetaByKey chart entity <> None).
      { intro Hc. apply (dataRow_throws chart entity year) in Hc.
        congruence. }
      rewrite IH. split; intros [_ H]; contradiction.
    + apply dataRow_throws in Ed.
      split; [intros _; split; [discriminate | exact Ed] | reflexivity].
Qed.

(** X21.  Which rows are exported.  When the export succeeds, its rows are
    the title row followed, entity by entity in the order of [entitiesUniq]
    and year by year in the order of [yearsUniq], by the row of each entity
    and year for which some dimension has a value; an entity and a year
    without any value give no row. *)
Theorem csvRows_lists_entity_years_with_values
    (chart : DataTab.ChartConfig) (rows : list string) :
  DataTab.csvRows csvEscape uniq_strings sortBy_strings uniq_numbers
    sortBy_numbers chart = Some rows ->
  rows
  = join "," (DataTab.titleRow csvEscape chart)
    :: flat_map
         (fun entity =>
            flat_map
              (fun year =>
                 match DataTab.dataRow chart entity year with
                 | Some (row, true) => [join "," (map csvEscape row)]
                 | _ => []
                 end)
              (DataTab.yearsUniq uniq_numbers sortBy_numbers chart))
         (DataTab.entitiesUniq uniq_strings sortBy_strings chart).
Proof.
  unfold DataTab.csvRows.
  generalize (DataTab.entitiesUniq uniq_strings sortBy_strings chart).
  intro entities.
  assert (G : forall rows0 rows,
             forEach
               (fun entity rows =>
                  forEach
                    (fun year rows =>
                       match DataTab.dataRow chart entity year with
                       | None => None
                       | Some (row, rowHasSomeValue) =>
                           Some (if rowHasSomeValue
                                 then rows ++ [join "," (map csvEscape row)]
                                 else rows)
                       end)
                    (DataTab.yearsUniq uniq_numbers sortBy_numbers chart)
                    rows)
               entities rows0 = Some rows ->
             rows
             = rows0
               ++ flat_map
                    (fun entity =>
                       flat_map
                         (fun year =>
                            match DataTab.dataRow chart entity year with
                            | Some (row, true) =>
                                [join "," (map csvEscape row)]
                            | _ => []
                            end)
                         (DataTab.yearsUniq uniq_numbers sortBy_numbers chart))
                    entities).
  { clear rows.
    induction entities as [|entity entities IH]; intros rows0 rows;
      cbn [forEach flat_map].
    - intros [= <-]. rewrite app_nil_r. reflexivity.
    - match goal with
      | |- context [forEach ?f (DataTab.yearsUniq _ _ _) rows0] =>
          destruct (forEach f (DataTab.yearsUniq uniq_numbers sortBy_numbers
                                 chart) rows0) as [rows1|] eqn:E1
      end; [| discriminate].
      apply forEach_year_rows in E1. intro H. apply IH in H.
      rewrite H, E1, <- app_assoc. reflexivity. }
  intro H.
  apply (G [join "," (DataTab.titleRow csvEscape chart)] rows H).
Qed.

(** X22.  When the export throws.  [csvBlob] fails exactly when there is at
    least one year and some entity of [entitiesUniq] has no entry in
    [entityMetaByKey], whether or not that entity has any value. *)
Theorem csvBlob_throws_exactly_without_entity_meta
    (chart : DataTab.ChartConfig) :
  DataTab.csvBlob csvEscape uniq_strings sortBy_strings uniq_numbers
    sortBy_numbers chart = None
  <-> (DataTab.yearsUniq uniq_numbers sortBy_numbers chart <> []
       /\ exists entity,
            In entity (DataTab.entitiesUniq uniq_strings sortBy_strings chart)
            /\ DataTab.entityMetaByKey chart entity = None).
Proof.
  unfold DataTab.csvBlob, DataTab.csvRows.
  generalize (DataTab.entitiesUniq uniq_strings sortBy_strings chart).
  intro entities.
  generalize [join "," (DataTab.titleRow csvEscape chart)].
  intro rows0.
  match goal with
  | |- option_map _ ?x = None <-> _ =>
      assert (Hx : option_map (join (String "010"%char EmptyString)) x = None
                   <-> x = None)
        by (destruct x; cbn [option_map]; split; congruence)
  end.
  rewrite Hx. clear Hx. revert rows0.
  induction entities as [|entity entities IH]; intro rows0; cbn [forEach].
  - split; [discriminate | intros (_ & e & [] & _)].
  - match goal with
    | |- context [forEach ?f (DataTab.yearsUniq _ _ _) rows0] =>
        destruct (forEach f (DataTab.yearsUniq uniq_numbers sortBy_numbers
                               chart) rows0) as [rows1|] eqn:E1
    end.
    + assert (Hok : ~ (DataTab.yearsUniq uniq_numbers sortBy_numbers chart
                       <> []
                       /\ DataTab.entityMetaByKey chart entity = None)).
      { intro Hc. apply (forEach_year_throws chart entity _ rows0) in Hc.
        congruence. }
      rewrite IH. split.
      * intros (Hy & e & He & Hm). split; [exact Hy |].
        exists e. split; [right; exact He | exact Hm].
      * intros (Hy & e & [<- | He] & Hm); [tauto |].
        split; [exact Hy |]. exists e. split; assumption.
    + apply forEach_year_throws in E1. destruct E1 as (Hy & Hm).
      split; [| reflexivity].
      intros _. split; [exact Hy |].
      exists entity. split; [left; reflexivity | exact Hm].
Qed.

Hypothesis uniq_removes_duplicates : removes_duplicates uniq_strings.
Hypothesis sortBy_rearranges : rearranges sortBy_strings.

(** X23.  The entities of the export.  With [uniq] removing duplicates and
    [sortBy] rearranging, [entitiesUniq] lists without repetition exactly
    the entities of the dimensions other than the colour dimension: an
    entity of the colour dimension alone is not exported. *)
Theorem entitiesUniq_lists_each_entity_once (chart : DataTab.ChartConfig) :
  NoDup (DataTab.entitiesUniq uniq_strings sortBy_strings chart)
  /\ forall entity,
       In entity (DataTab.entitiesUniq uniq_strings sortBy_strings chart)
       <-> exists dim,
             In dim (DataTab.filledDimensions chart)
             /\ Dimension.property dim <> "color"%string
             /\ In entity (Dimension.entitiesUniq dim).
Proof.
  unfold DataTab.entitiesUniq.
  set (all := List.concat
                (map Dimension.entitiesUniq (DataTab.dimensions chart))).
  destruct (uniq_removes_duplicates all) as (Hn & Hi).
  pose proof (sortBy_rearranges (uniq_strings all)) as Hp.
  split.
  - apply (Permutation_NoDup (Permutation_sym Hp)). exact Hn.
  - intro entity. split.
    + intro H. apply (Permutation_in _ Hp) in H. apply Hi in H.
      unfold all in H. apply in_concat in H.
      destruct H as (l & Hl & He). apply in_map_iff in Hl.
      destruct Hl as (dim & <- & Hd).
      unfold DataTab.dimensions in Hd. apply filter_In in Hd.
      destruct Hd as (Hd & Hc). exists dim. split; [exact Hd |].
      split; [| exact He].
      apply negb_true_iff, String.eqb_neq in Hc. exact Hc.
    + intros (dim & Hd & Hc & He).
      apply (Permutation_in _ (Permutation_sym Hp)). apply Hi.
      unfold all. apply in_concat. exists (Dimension.entitiesUniq dim).
      split; [| exact He].
      apply in_map. unfold DataTab.dimensions. apply filter_In.
      split; [exact Hd |].
      apply negb_true_iff, String.eqb_neq. exact Hc.
Qed.

End CsvExport.

(** ** The logo choice *)

(** X24.  The logo choice round trip.  After [onChangeLogo value] the radio
    group is given [value] back, or "owid" for the empty string, whatever
    the props were before; choosing "none" keeps the stored logo, and any
    other choice clears [hideLogo], so that choosing "none" and then a logo
    shows that logo. *)
Theorem onChangeLogo_then_render_shows_the_choice
    (value : string) (props : EditorTextTab.ChartConfigProps) :
  EditorTextTab.logoValue (EditorTextTab.onChangeLogo value props)
  = (if (value =? "")%string then "owid"%string else value)
  /\ EditorTextTab.logo (EditorTextTab.onChangeLogo "none" props)
     = EditorTextTab.logo props
  /\ (value <> "none"%string ->
      EditorTextTab.hideLogo (EditorTextTab.onChangeLogo value props) = None
      /\ EditorTextTab.onChangeLogo value
           (EditorTextTab.onChangeLogo "none" props)
         = EditorTextTab.onChangeLogo value props).
Proof.
  unfold EditorTextTab.logoValue, EditorTextTab.onChangeLogo.
  split; [| split].
  - destruct (String.eqb_spec value "none") as [-> | Hn].
    + reflexivity.
    + cbn [EditorTextTab.hideLogo EditorTextTab.logo nullish].
      destruct (String.eqb_spec value "") as [-> | He]; [reflexivity |].
      apply String.eqb_neq in He. rewrite He. reflexivity.
  - reflexivity.
  - intro Hn. apply String.eqb_neq in Hn. rewrite Hn. split; reflexivity.
Qed.

(** ** The examples *)

Lemma onCursorMove_reports_first_nearest_value_witness :
  exists before closestValue after,
    Lines.allValues MoreExamples.linesProps = before ++ closestValue :: after
    /\ Lines.onCursorMove Arrays.sortBy MoreExamples.linesProps
         (Vector2.mk 30 50)
       = Some (Some (LineChartValue.x closestValue))
    /\ LineChartValue.x closestValue == 2004.
Proof.
  pose proof (onCursorMove_reports_first_nearest_value Arrays.sortBy
                Arrays_sortBy_sorts_by_key MoreExamples.linesProps
                (Vector2.mk 30 50)) as H.
  cbv zeta in H. destruct H as (_ & _ & H).
  destruct H as (before & c & after & H1 & H2 & _).
  - vm_compute. reflexivity.
  - vm_compute. discriminate.
  - exists before, c, after.
    split; [exact H1 |]. split; [exact H2 |].
    assert (E : Lines.onCursorMove Arrays.sortBy MoreExamples.linesProps
                  (Vector2.mk 30 50)
                = Some (Some 2004)) by (vm_compute; reflexivity).
    rewrite H2 in E. injection E as ->. reflexivity.
Defined.

Lemma dataRow_has_one_cell_per_column_witness :
  exists row,
    DataTab.dataRow MoreExamples.chart "France" 2000 = Some (row, true)
    /\ List.length row = 4%nat
    /\ nth_error row 0 = Some (Dimension.text "France")
    /\ nth_error row 1 = Some (Dimension.text "FRA").
Proof.
  assert (H : exists row,
             DataTab.dataRow MoreExamples.chart "France" 2000
             = Some (row, true))
    by (eexists; vm_compute; reflexivity).
  destruct H as [row H]. exists row.
  destruct (dataRow_has_one_cell_per_column MoreExamples.showCell
              MoreExamples.chart "France" 2000 row true H)
    as (_ & E & E0 & (meta & Em & E1) & _).
  split; [exact H |]. split; [rewrite E; reflexivity |].
  split; [exact E0 |].
  rewrite E1. vm_compute in Em. injection Em as <-. reflexivity.
Defined.

Lemma csvRows_lists_entity_years_with_values_witness :
  exists rows,
    DataTab.csvRows MoreExamples.showCell Arrays.uniq_strings
      Arrays.sortBy_strings Arrays.uniq_numbers Arrays.sortBy_numbers
      MoreExamples.chart = Some rows
    /\ rows
       = ["Entity,Code,Year,Population (people)"; "France,FRA,2000,#";
          "Spain,,2010,#"]%string.
Proof.
  assert (H : exists rows,
             DataTab.csvRows MoreExamples.showCell Arrays.uniq_strings
               Arrays.sortBy_strings Arrays.uniq_numbers
               Arrays.sortBy_numbers MoreExamples.chart = Some rows)
    by (eexists; vm_compute; reflexivity).
  destruct H as [rows H]. exists rows. split; [exact H |].
  rewrite (csvRows_lists_entity_years_with_values MoreExamples.showCell
             Arrays.uniq_strings Arrays.sortBy_strings Arrays.uniq_numbers
             Arrays.sortBy_numbers MoreExamples.chart rows H).
  vm_compute. reflexivity.
Defined.

Lemma entitiesUniq_lists_each_entity_once_witness :
  NoDup
    (DataTab.entitiesUniq Arrays.uniq_strings Arrays.sortBy_strings
       MoreExamples.chart)
  /\ ~ In "Europe"%string
         (DataTab.entitiesUniq Arrays.uniq_strings Arrays.sortBy_strings
            MoreExamples.chart).
Proof.
  destruct (entitiesUniq_lists_each_entity_once Arrays.uniq_strings
              Arrays.sortBy_strings Arrays_uniq_strings_removes_duplicates
              Arrays_sortBy_strings_rearranges MoreExamples.chart)
    as (Hn & Hi).
  split; [exact Hn |].
  intro H. apply Hi in H. destruct H as (dim & Hd & Hc & He).
  destruct Hd as [<- | [<- | []]].
  - vm_compute in He. intuition discriminate.
  - apply Hc. reflexivity.
Defined.

(** On the axis 1990 to 2010 the input year 2050 is clamped to 2010. *)
Lemma getClampedYear_clamps_witness :
  Timeline.getClampedYear
    (Examples.timelineOf Examples.axis (concrete 1995) (concrete 2005)) 2050
  == 2010.
Proof.
  destruct (getClampedYear_clamps
              (Examples.timelineOf Examples.axis (concrete 1995)
                 (concrete 2005)) 2050) as [H _].
  destruct H as (_ & _ & _ & Hmax & _); [vm_compute; discriminate |].
  rewrite Hmax; [vm_compute; reflexivity | vm_compute; discriminate].
Defined.
(** *** The playback loop stays alive *)

Lemma Timeline_playFrame_no_request
    (lastTime : option Time) (time : Time) (s s' : Timeline.t) :
  Timeline.playFrame lastTime time s = Some (s', None) ->
  Timeline.isPlaying s = false.
Proof.
  unfold Timeline.playFrame.
  destruct (Timeline.isPlaying s); cbn [negb]; [| reflexivity].
  destruct lastTime as [lt |].
  - destruct (Qle_bool (Timeline.maxYear s) (Timeline.endYearUI s));
      [discriminate |].
    destruct (Util.at_index (Timeline.years s)
                (Util.indexOf (Timeline.years s) (Timeline.endYearUI s) + 1));
      discriminate.
  - destruct (Qle_bool (Timeline.maxYear s) (Timeline.endYearUI s));
      discriminate.
Qed.

Lemma handles_name_one_callback (w : Page.t) (h : nat)
    (cb cb' : Page.Callback) :
  Reachable.frames_wellformed w ->
  In (h, cb) (Page.frameCallbacks w) ->
  In (h, cb') (Page.frameCallbacks w) ->
  cb = cb'.
Proof.
  intros (_ & Hnd & _). revert Hnd.
  induction (Page.frameCallbacks w) as [| [h0 c0] l IH];
    cbn [map fst In]; [intros _ [] |].
  intros Hnd H1 H2. inversion Hnd as [| ? ? Hnot Hnd']; subst.
  destruct H1 as [E1 | H1]; destruct H2 as [E2 | H2].
  - congruence.
  - injection E1 as -> ->. exfalso. apply Hnot.
    apply (in_map fst) in H2. exact H2.
  - injection E2 as -> ->. exfalso. apply Hnot.
    apply (in_map fst) in H1. exact H1.
  - exact (IH Hnd' H1 H2).
Qed.

Lemma loop_alive_ext (w w' : Page.t) :
  Page.frameCallbacks w' = Page.frameCallbacks w ->
  Page.nextHandle w' = Page.nextHandle w ->
  Page.lifecycle w' = Page.lifecycle w ->
  Timeline.queuedAnimationFrame (Page.timeline w')
  = Timeline.queuedAnimationFrame (Page.timeline w) ->
  Timeline.isPlaying (Page.timeline w') = Timeline.isPlaying (Page.timeline w) ->
  Reachable.loop_alive w -> Reachable.loop_alive w'.
Proof.
  intros Ef En El Eq Ep (A1 & A2 & A3).
  unfold Reachable.loop_alive. rewrite Ef, En, El, Eq, Ep.
  repeat split; assumption.
Qed.

(** The first reaction, run on a page where the handle of the queued frame
    is in order. *)
Lemma reaction_playing_alive (w : Page.t) :
  (forall q, Timeline.queuedAnimationFrame (Page.timeline w) = Some q ->
             (q < Page.nextHandle w)%nat) ->
  (forall h lt,
     In (h, Page.playFrame_callback lt) (Page.frameCallbacks w) ->
     Timeline.queuedAnimationFrame (Page.timeline w) <> Some h) ->
  (forall q,
     Timeline.queuedAnimationFrame (Page.timeline (Page.reaction_playing w))
     = Some q ->
     (q < Page.nextHandle (Page.reaction_playing w))%nat)
  /\ (forall h lt,
        In (h, Page.playFrame_callback lt)
          (Page.frameCallbacks (Page.reaction_playing w)) ->
        Timeline.queuedAnimationFrame
          (Page.timeline (Page.reaction_playing w)) <> Some h)
  /\ (Timeline.isPlaying (Page.timeline (Page.reaction_playing w)) = true ->
      exists h lt,
        In (h, Page.playFrame_callback lt)
          (Page.frameCallbacks (Page.reaction_playing w))).
Proof.
  intros A1 A2. unfold Page.reaction_playing.
  destruct (Timeline.isPlaying (Page.timeline w)) eqn:Ep.
  - unfold Page.onStartPlaying, Page.requestAnimationFrame. page_simpl.
    split; [| split].
    + intros q Hq. specialize (A1 q Hq). lia.
    + intros h lt Hin Hq. apply in_app_or in Hin as [Hin | [Hin | []]].
      * exact (A2 h lt Hin Hq).
      * injection Hin as <- _. specialize (A1 _ Hq). lia.
    + intros _. exists (Page.nextHandle w), None.
      apply in_or_app. right. left. reflexivity.
  - unfold Page.onStopPlaying.
    destruct (Timeline.animRequest (Page.timeline w)) as [a |].
    + unfold Page.cancelAnimationFrame. page_simpl.
      split; [exact A1 |]. split.
      * intros h lt Hin. apply filter_In in Hin as [Hin _].
        exact (A2 h lt Hin).
      * rewrite Ep. discriminate.
    + split; [exact A1 |]. split; [exact A2 |]. rewrite Ep. discriminate.
Qed.

Lemma reactions_alive (before : Timeline.t) (w : Page.t) :
  (forall q, Timeline.queuedAnimationFrame (Page.timeline w) = Some q ->
             (q < Page.nextHandle w)%nat) ->
  (forall h lt,
     In (h, Page.playFrame_callback lt) (Page.frameCallbacks w) ->
     Timeline.queuedAnimationFrame (Page.timeline w) <> Some h) ->
  (Page.lifecycle w = Page.mounted ->
   Timeline.isPlaying before = true ->
   Timeline.isPlaying (Page.timeline w) = true ->
   exists h lt,
     In (h, Page.playFrame_callback lt) (Page.frameCallbacks w)) ->
  Reachable.loop_alive (Page.reactions before w).
Proof.
  intros A1 A2 A3. unfold Page.reactions.
  destruct (Page.isMounted w) eqn:Hm; cbn [negb].
  2: { split; [exact A1 |]. split; [exact A2 |].
       intro El. apply isMounted_iff in El. congruence. }
  apply isMounted_iff in Hm. cbv zeta.
  set (changed := xorb (Timeline.isPlaying before)
                    (Timeline.isPlaying (Page.timeline w))).
  set (wA := if changed then Page.reaction_playing w else w).
  assert (HA : (forall q,
                  Timeline.queuedAnimationFrame (Page.timeline wA) = Some q ->
                  (q < Page.nextHandle wA)%nat)
               /\ (forall h lt,
                     In (h, Page.playFrame_callback lt)
                       (Page.frameCallbacks wA) ->
                     Timeline.queuedAnimationFrame (Page.timeline wA)
                     <> Some h)
               /\ (Timeline.isPlaying (Page.timeline wA) = true ->
                   exists h lt,
                     In (h, Page.playFrame_callback lt)
                       (Page.frameCallbacks wA))).
  { subst wA. destruct changed eqn:Ec.
    - exact (reaction_playing_alive w A1 A2).
    - split; [exact A1 |]. split; [exact A2 |].
      intro Ep. apply A3; [exact Hm | | exact Ep].
      subst changed. apply xorb_eq in Ec. congruence. }
  destruct HA as (B1 & B2 & B3).
  destruct (reactions_tail_fields
              (changed
               || xorb (Timeline.isDragging before)
                    (Timeline.isDragging (Page.timeline w))) wA)
    as (Tf & Tn & Tl & Ta & Tq & Tp).
  unfold Reachable.loop_alive. rewrite Tf, Tn, Tq, Tp.
  split; [exact B1 |]. split; [exact B2 |]. intros _. exact B3.
Qed.

Lemma alive_after_mount (w0 : Page.t) :
  Reachable.loop_alive w0 ->
  Reachable.loop_alive (Page.componentDidMount w0).
Proof.
  intros (A1 & A2 & _).
  unfold Page.componentDidMount.
  set (w1 := Page.set_lifecycle Page.mounted
               (Page.set_timeline (Timeline.syncFromProps (Page.timeline w0))
                  w0)).
  assert (Eq1 : Timeline.queuedAnimationFrame (Page.timeline w1)
                = Timeline.queuedAnimationFrame (Page.timeline w0))
    by reflexivity.
  destruct (reaction_playing_alive w1) as (B1 & B2 & B3).
  { intros q Hq. rewrite Eq1 in Hq. exact (A1 q Hq). }
  { intros h lt Hin. rewrite Eq1. exact (A2 h lt Hin). }
  set (w2 := Page.reaction_playing w1) in *.
  unfold Page.reaction_lock, Page.reaction_debounce.
  destruct (lockToClosest_keeps_handles (Page.timeline w2)) as [La Lq].
  destruct (lockToClosest_keeps_mode (Page.timeline w2)) as (Lp & _).
  unfold Reachable.loop_alive. page_simpl. rewrite Lq, Lp.
  split; [exact B1 |]. split; [exact B2 |]. intros _. exact B3.
Qed.

Lemma alive_after_handler
    (getBoundFromTimeRange : Time * Time -> Time -> TimeBound)
    (w0 w1 : Page.t) :
  Reachable.frames_wellformed w0 ->
  Reachable.loop_alive w0 ->
  Page.lifecycle w0 = Page.mounted ->
  Reachable.handler_action getBoundFromTimeRange w0 w1 ->
  Reachable.loop_alive (Page.reactions (Page.timeline w0) w1).
Proof.
  intros Hw (A1 & A2 & A3) El Hact.
  assert (Hsame : forall s,
             Timeline.queuedAnimationFrame s
             = Timeline.queuedAnimationFrame (Page.timeline w0) ->
             Reachable.loop_alive
               (Page.reactions (Page.timeline w0) (Page.set_timeline s w0))).
  { intros s Eq. apply reactions_alive; page_simpl.
    - rewrite Eq. exact A1.
    - rewrite Eq. exact A2.
    - intros _ Hb _. exact (A3 El Hb). }
  destruct Hact as [q | | e s Hs' | e |].
  - apply Hsame.
    apply (componentDidUpdate_keeps_handles
             (Timeline.set_props q (Page.timeline w0))).
  - apply Hsame. reflexivity.
  - apply Hsame. apply (onMouseDown_keeps_handles _ _ _ _ Hs').
  - unfold Page.onMouseMove.
    destruct (Timeline.dragTarget (Page.timeline w0)) as [t |].
    2: { apply reactions_alive; [exact A1 | exact A2 |].
         intros _ Hb _. exact (A3 El Hb). }
    destruct Hw as (Hn & _ & Hrange & _).
    set (wc := match Timeline.queuedAnimationFrame (Page.timeline w0) with
               | Some (S h) => Page.cancelAnimationFrame (S h) w0
               | _ => w0
               end).
    assert (Hc : Page.nextHandle wc = Page.nextHandle w0
                 /\ Page.lifecycle wc = Page.lifecycle w0
                 /\ (forall h cb, In (h, cb) (Page.frameCallbacks wc) ->
                                  In (h, cb) (Page.frameCallbacks w0))
                 /\ (forall h lt,
                       In (h, Page.playFrame_callback lt)
                         (Page.frameCallbacks w0) ->
                       In (h, Page.playFrame_callback lt)
                         (Page.frameCallbacks wc))).
    { subst wc.
      destruct (Timeline.queuedAnimationFrame (Page.timeline w0))
        as [[| q] |] eqn:Eq; try (repeat split; auto).
      - intros h cb Hin. apply filter_In in Hin. tauto.
      - intros h lt Hin. apply filter_In. split; [exact Hin |].
        cbn [fst]. apply negb_true_iff, Nat.eqb_neq.
        intro E. apply (A2 h lt Hin). rewrite E. reflexivity. }
    destruct Hc as (Cn & Cl & Csub & Ckeep).
    unfold Page.requestAnimationFrame.
    apply reactions_alive; page_simpl.
    + intros q [= <-]. lia.
    + intros h lt Hin [= E].
      apply in_app_or in Hin as [Hin | [Hin | []]]; [| discriminate].
      apply Csub, Hrange in Hin. lia.
    + intros _ Hb _. destruct (A3 El Hb) as (h & lt & Hin).
      exists h, lt. apply in_or_app. left. exact (Ckeep h lt Hin).
  - apply Hsame. reflexivity.
Qed.

Lemma alive_after_callback
    (getBoundFromTimeRange : Time * Time -> Time -> TimeBound)
    (w0 : Page.t) (h : nat) (cb : Page.Callback) (time : Time)
    (w' : Page.t) :
  Reachable.frames_wellformed w0 ->
  Reachable.loop_alive w0 ->
  In (h, cb) (Page.frameCallbacks w0) ->
  Page.runCallback getBoundFromTimeRange time cb
    (Page.cancelAnimationFrame h w0) = Some w' ->
  Reachable.loop_alive w'.
Proof.
  intros Hw (A1 & A2 & A3) Hin Hcb.
  destruct (cancel_wellformed h w0 Hw) as [Hcw Hsub].
  set (wc := Page.cancelAnimationFrame h w0) in *.
  assert (C1 : forall q,
             Timeline.queuedAnimationFrame (Page.timeline wc) = Some q ->
             (q < Page.nextHandle wc)%nat) by exact A1.
  assert (C2 : forall h' lt,
             In (h', Page.playFrame_callback lt) (Page.frameCallbacks wc) ->
             Timeline.queuedAnimationFrame (Page.timeline wc) <> Some h').
  { intros h' lt Hin'. apply Hsub in Hin' as [Hin' _].
    exact (A2 h' lt Hin'). }
  assert (Ckeep : forall h' cb',
             In (h', cb') (Page.frameCallbacks w0) -> h' <> h ->
             In (h', cb') (Page.frameCallbacks wc)).
  { intros h' cb' Hin' Hne. subst wc. unfold Page.cancelAnimationFrame.
    page_simpl. apply filter_In. split; [exact Hin' |].
    cbn [fst]. apply negb_true_iff, Nat.eqb_neq. exact Hne. }
  assert (Etl : Page.timeline wc = Page.timeline w0) by reflexivity.
  assert (Elc : Page.lifecycle wc = Page.lifecycle w0) by reflexivity.
  clearbody wc.
  unfold Page.runCallback, Page.action in Hcb.
  destruct cb as [lastTime | ev].
  - destruct (Page.playFrame lastTime time wc) as [w1 |] eqn:Ep;
      [| discriminate].
    injection Hcb as <-.
    unfold Page.playFrame in Ep.
    destruct (Timeline.playFrame lastTime time (Page.timeline wc))
      as [[s next] |] eqn:Et; [| discriminate].
    destruct (Timeline_playFrame_keeps_handles _ _ _ _ _ Et)
      as (Ea & Eq & _).
    destruct next as [lt' |]; injection Ep as <-.
    + unfold Page.requestAnimationFrame.
      apply reactions_alive; page_simpl.
      * intros q Hq. rewrite Eq in Hq. specialize (C1 q Hq). lia.
      * intros h' lt Hin' Hq. rewrite Eq in Hq.
        apply in_app_or in Hin' as [Hin' | [Hin' | []]].
        -- exact (C2 h' lt Hin' Hq).
        -- injection Hin' as <- _. specialize (C1 _ Hq). lia.
      * intros _ _ _. exists (Page.nextHandle wc), (Some lt').
        apply in_or_app. right. left. reflexivity.
    + apply Timeline_playFrame_no_request in Et.
      apply reactions_alive; page_simpl.
      * rewrite Eq. exact C1.
      * rewrite Eq. exact C2.
      * intros _ Hb _. congruence.
  - destruct (Page.isMounted wc) eqn:Hm.
    2: { injection Hcb as <-. split; [exact C1 |]. split; [exact C2 |].
         intro El. apply isMounted_iff in El. congruence. }
    destruct (Timeline.getInputYearFromMouse (Page.timeline wc) ev)
      as [y |]; [| discriminate].
    unfold Page.on_timeline in Hcb. injection Hcb as <-.
    destruct (onDrag_keeps_handles getBoundFromTimeRange (Page.timeline wc) y)
      as [Ea Eq].
    apply reactions_alive; page_simpl.
    + rewrite Eq. exact C1.
    + rewrite Eq. exact C2.
    + intros El Hb _. rewrite Elc in El. rewrite Etl in Hb.
      destruct (A3 El Hb) as (hp & lt & Hp).
      exists hp, lt. apply Ckeep; [exact Hp |]. intros ->.
      pose proof (handles_name_one_callback w0 h _ _ Hw Hp Hin) as E.
      discriminate.
Qed.

Lemma reachable_alive
    (getBoundFromTimeRange : Time * Time -> Time -> TimeBound)
    (p : TimelineProps.t) (w : Page.t) :
  Reachable.reachable getBoundFromTimeRange p w ->
  Reachable.loop_alive w.
Proof.
  intros [events Hrun].
  set (I := fun w : Page.t =>
              (Reachable.frames_wellformed w
               /\ Reachable.loop_follows_isPlaying w)
              /\ Reachable.loop_alive w).
  assert (HI : I w); [| exact (proj2 HI)].
  apply (run_preserves getBoundFromTimeRange I I) with (events := events)
                                                      (w := Page.create p);
    try exact Hrun; subst I; cbn beta.
  - auto.
  - intros w0 [HF HA]. split; [exact (frames_after_timers w0 HF) |].
    destruct (runTimers_fields w0) as (Et & El & _ & Ef & En).
    apply (loop_alive_ext w0); congruence.
  - intros w0 [HF HA] El.
    split; [exact (frames_after_mount w0 HF El) |].
    exact (alive_after_mount w0 HA).
  - intros w0 [[Hw _] (A1 & A2 & _)] El.
    split; [split; [exact Hw | split; cbn; discriminate] |].
    split; [exact A1 |]. split; [exact A2 |]. cbn. discriminate.
  - intros w0 w1 [HF HA] El Hact.
    split; [exact (frames_after_handler getBoundFromTimeRange w0 w1 HF El
                     Hact) |].
    exact (alive_after_handler getBoundFromTimeRange w0 w1 (proj1 HF) HA El
             Hact).
  - intros w0 h cb time w' [HF HA] Hin Hcb.
    split; [exact (frames_after_callback getBoundFromTimeRange w0 h cb time
                     w' HF Hin Hcb) |].
    exact (alive_after_callback getBoundFromTimeRange w0 h cb time w'
             (proj1 HF) HA Hin Hcb).
  - split; [exact (frames_at_creation p) |].
    unfold Page.create, Timeline.constructor, Reachable.loop_alive. cbn.
    split; [intros q [=] |]. split; [intros h lt [] | discriminate].
Qed.

(** X25.  Playback does not stall.  In every state the page reaches while
    the component is mounted and playing, a [playFrame] callback is pending:
    exactly one, under the handle [animRequest] names, so the next animation
    frame continues the playback. *)
Theorem playFrame_pending_while_playing
    (getBoundFromTimeRange : Time * Time -> Time -> TimeBound)
    (p : TimelineProps.t) (w : Page.t) :
  Reachable.reachable getBoundFromTimeRange p w ->
  Page.lifecycle w = Page.mounted ->
  Timeline.isPlaying (Page.timeline w) = true ->
  exists h lastTime,
    In (h, Page.playFrame_callback lastTime) (Page.frameCallbacks w)
    /\ Timeline.animRequest (Page.timeline w) = Some h
    /\ List.length (filter Reachable.isPlayFrame (Page.frameCallbacks w))
       = 1%nat.
Proof.
  intros Hr El Ep.
  destruct (reachable_frames _ _ _ Hr) as [(H1 & H2 & H3 & H4 & H5) _].
  destruct (reachable_alive _ _ _ Hr) as (_ & _ & A3).
  destruct (A3 El Ep) as (h & lt & Hin).
  exists h, lt. split; [exact Hin |]. split; [exact (H4 h lt Hin) |].
  assert (Hle : (List.length
                   (filter Reachable.isPlayFrame (Page.frameCallbacks w))
                 <= 1)%nat).
  { apply (filter_at_most_one fst); [exact H2 |].
    intros [ha [la | ea]] [hb [lb | eb]] Ha Hb Ka Kb; try discriminate.
    pose proof (H4 _ _ Ha). pose proof (H4 _ _ Hb). cbn. congruence. }
  assert (Hf : In (h, Page.playFrame_callback lt)
                 (filter Reachable.isPlayFrame (Page.frameCallbacks w)))
    by (apply filter_In; split; [exact Hin | reflexivity]).
  destruct (filter Reachable.isPlayFrame (Page.frameCallbacks w))
    as [| x [| y rest]]; [destruct Hf | reflexivity | cbn in Hle; lia].
Qed.

(** Two frames into a playback a [playFrame] is pending. *)
Lemma playFrame_pending_while_playing_witness :
  exists (w : Page.t) (h : nat) (lastTime : option Time),
    Page.run Examples.boundAsGiven
      (Page.create
         (Examples.propsOf Examples.axis (concrete 1990) (concrete 1995)))
      Examples.playbackEvents = Some w
    /\ In (h, Page.playFrame_callback lastTime) (Page.frameCallbacks w)
    /\ Timeline.animRequest (Page.timeline w) = Some h.
Proof.
  assert (Hrun : exists w,
             Page.run Examples.boundAsGiven
               (Page.create
                  (Examples.propsOf Examples.axis (concrete 1990)
                     (concrete 1995)))
               Examples.playbackEvents = Some w
             /\ Page.lifecycle w = Page.mounted
             /\ Timeline.isPlaying (Page.timeline w) = true).
  { eexists. split; [vm_compute; reflexivity |]. split; reflexivity. }
  destruct Hrun as (w & Hrun & El & Ep).
  destruct (playFrame_pending_while_playing Examples.boundAsGiven
              (Examples.propsOf Examples.axis (concrete 1990) (concrete 1995))
              w (reachable_of_run _ _ _ _ Hrun) El Ep)
    as (h & lt & Hin & Ha & _).
  exists w, h, lt. split; [exact Hrun |]. split; assumption.
Defined.

(** *** Playback comes to an end *)




(** *** Pointer moves are applied once a frame *)

Lemma invalidate_onTargetChange_frames (w : Page.t) :
  Page.frameCallbacks (Page.invalidate_onTargetChange w)
  = Page.frameCallbacks w.
Proof.
  unfold Page.invalidate_onTargetChange.
  destruct (Page.targetSeen w) as [seen |]; [| reflexivity].
  destruct (Page.pair_eqb seen (Page.target w)); reflexivity.
Qed.

(** X27.  Pointer moves are coalesced.  In every state the page reaches
    while the component is mounted and dragging, a pointer move changes no
    bound by itself: it leaves exactly one pointer-move frame pending, the
    one for this event, replacing whichever was queued before, and leaves
    the pending [playFrame] callbacks as they were.  So of several moves
    between two animation frames only the last is applied. *)
Theorem mouseMove_replaces_the_queued_frame
    (getBoundFromTimeRange : Time * Time -> Time -> TimeBound)
    (p : TimelineProps.t) (w w' : Page.t) (e : PointerEvent) :
  Reachable.reachable getBoundFromTimeRange p w ->
  Page.lifecycle w = Page.mounted ->
  Timeline.isDragging (Page.timeline w) = true ->
  Page.step getBoundFromTimeRange w (Page.mouseMove e) = Some w' ->
  filter Reachable.isDragFrame (Page.frameCallbacks w')
  = [(Page.nextHandle w, Page.drag_callback e)]
  /\ filter Reachable.isPlayFrame (Page.frameCallbacks w')
     = filter Reachable.isPlayFrame (Page.frameCallbacks w)
  /\ Timeline.queuedAnimationFrame (Page.timeline w')
     = Some (Page.nextHandle w)
  /\ Timeline.startYearRaw (Page.timeline w')
     = Timeline.startYearRaw (Page.timeline w)
  /\ Timeline.endYearRaw (Page.timeline w')
     = Timeline.endYearRaw (Page.timeline w)
  /\ Timeline.dragTarget (Page.timeline w')
     = Timeline.dragTarget (Page.timeline w).
Proof.
  intros Hr El Hd Hstep.
  destruct (reachable_frames _ _ _ Hr) as [(H1 & H2 & H3 & H4 & H5) _].
  destruct (reachable_alive _ _ _ Hr) as (_ & A2 & _).
  unfold Page.step, Page.handle in Hstep. rewrite El in Hstep.
  unfold Page.action in Hstep. injection Hstep as <-.
  destruct (runTimers_fields
              (Page.reactions (Page.timeline w) (Page.onMouseMove e w)))
    as (-> & _ & _ & -> & _).
  unfold Timeline.isDragging in Hd.
  unfold Page.onMouseMove.
  destruct (Timeline.dragTarget (Page.timeline w)) as [t |] eqn:Et;
    [| discriminate].
  set (wc := match Timeline.queuedAnimationFrame (Page.timeline w) with
             | Some (S h) => Page.cancelAnimationFrame (S h) w
             | _ => w
             end).
  assert (Hc : Page.nextHandle wc = Page.nextHandle w
               /\ Page.timeline wc = Page.timeline w
               /\ Page.lifecycle wc = Page.lifecycle w
               /\ filter Reachable.isDragFrame (Page.frameCallbacks wc) = []
               /\ filter Reachable.isPlayFrame (Page.frameCallbacks wc)
                  = filter Reachable.isPlayFrame (Page.frameCallbacks w)).
  { assert (Hnone : forall l : list (nat * Page.Callback),
               (forall hc, In hc l -> Reachable.isDragFrame hc = false) ->
               filter Reachable.isDragFrame l = []).
    { induction l as [| x l IH]; intro Hall; cbn [filter]; [reflexivity |].
      rewrite (Hall x (or_introl eq_refl)).
      apply IH. intros hc Hin. apply Hall. right. exact Hin. }
    subst wc.
    destruct (Timeline.queuedAnimationFrame (Page.timeline w))
      as [[| q] |] eqn:Eq.
    - repeat split. apply Hnone. intros [h [lt | ev]] Hin; [reflexivity |].
      pose proof (H5 h ev Hin) as E. pose proof (H3 h _ Hin) as Hh.
      injection E as <-. lia.
    - repeat split.
      + apply Hnone. intros [h [lt | ev]] Hin; [reflexivity |].
        unfold Page.cancelAnimationFrame in Hin. page_simpl.
        apply filter_In in Hin as [Hin Hne]. cbn [fst] in Hne.
        pose proof (H5 h ev Hin) as E. injection E as <-.
        rewrite Nat.eqb_refl in Hne. discriminate.
      + unfold Page.cancelAnimationFrame. page_simpl.
        induction (Page.frameCallbacks w) as [| [h cb] l IH];
          [reflexivity |].
        cbn [filter fst].
        assert (IH' : filter Reachable.isPlayFrame
                        (filter (fun hc => negb (fst hc =? S q)%nat) l)
                      = filter Reachable.isPlayFrame l).
        { apply IH.
          - inversion H2; assumption.
          - intros h' cb' Hin. apply (H3 h' cb'). right. exact Hin.
          - intros h' lt Hin. apply (H4 h' lt). right. exact Hin.
          - intros h' ev Hin. apply (H5 h' ev). right. exact Hin.
          - intros h' lt Hin. apply (A2 h' lt). right. exact Hin. }
        destruct cb as [lt | ev].
        * assert (Hne : (h =? S q)%nat = false).
          { apply Nat.eqb_neq. intros ->.
            apply (A2 (S q) lt (or_introl eq_refl)). reflexivity. }
          rewrite Hne. cbn [negb filter Reachable.isPlayFrame snd].
          rewrite IH'. reflexivity.
        * destruct (negb (h =? S q)%nat);
            cbn [filter Reachable.isPlayFrame snd]; exact IH'.
    - repeat split. apply Hnone. intros [h [lt | ev]] Hin; [reflexivity |].
      pose proof (H5 h ev Hin) as E. discriminate. }
  destruct Hc as (Cn & Ct & Cl & Cd & Cp).
  clearbody wc.
  unfold Page.requestAnimationFrame. page_simpl.
  set (w1 := Page.set_timeline
               (Timeline.set_queuedAnimationFrame (Some (Page.nextHandle wc))
                  (Page.timeline wc))
               (Page.set_frames (S (Page.nextHandle wc))
                  (Page.frameCallbacks wc
                   ++ [(Page.nextHandle wc, Page.drag_callback e)])
                  wc)).
  assert (Hm : Page.isMounted w1 = true)
    by (apply isMounted_iff; subst w1; page_simpl; congruence).
  assert (Ep : Timeline.isPlaying (Page.timeline w1)
               = Timeline.isPlaying (Page.timeline w))
    by (subst w1; page_simpl; rewrite Ct; reflexivity).
  assert (Eg : Timeline.isDragging (Page.timeline w1)
               = Timeline.isDragging (Page.timeline w))
    by (subst w1; unfold Timeline.isDragging; page_simpl; rewrite Ct;
        reflexivity).
  unfold Page.reactions. rewrite Hm, Ep, Eg, !xorb_nilpotent.
  cbn [negb orb].
  rewrite invalidate_onTargetChange_frames, invalidate_onTargetChange_timeline.
  subst w1. page_simpl. rewrite !filter_app, Cd, Cp, Cn, Ct.
  cbn [filter app Reachable.isDragFrame Reachable.isPlayFrame snd].
  rewrite app_nil_r.
  repeat split; try reflexivity. exact Et.
Qed.

(** A second pointer move before the frame replaces the queued one. *)
Lemma mouseMove_replaces_the_queued_frame_witness :
  exists w w' : Page.t,
    Page.run Examples.boundAsGiven
      (Page.create
         (Examples.propsOf Examples.axis (concrete 1995) (concrete 2005)))
      Examples.dragEvents = Some w
    /\ Page.step Examples.boundAsGiven w
         (Page.mouseMove (Examples.pointerAt 40)) = Some w'
    /\ filter Reachable.isDragFrame (Page.frameCallbacks w')
       = [(Page.nextHandle w, Page.drag_callback (Examples.pointerAt 40))].
Proof.
  assert (Hrun : exists w,
             Page.run Examples.boundAsGiven
               (Page.create
                  (Examples.propsOf Examples.axis (concrete 1995)
                     (concrete 2005)))
               Examples.dragEvents = Some w
             /\ Page.lifecycle w = Page.mounted
             /\ Timeline.isDragging (Page.timeline w) = true
             /\ exists w',
                  Page.step Examples.boundAsGiven w
                    (Page.mouseMove (Examples.pointerAt 40)) = Some w').
  { eexists. split; [vm_compute; reflexivity |].
    split; [reflexivity |]. split; [reflexivity |].
    eexists. vm_compute. reflexivity. }
  destruct Hrun as (w & Hrun & El & Hd & w' & Hstep).
  exists w, w'. split; [exact Hrun |]. split; [exact Hstep |].
  apply (mouseMove_replaces_the_queued_frame Examples.boundAsGiven
           (Examples.propsOf Examples.axis (concrete 1995) (concrete 2005))
           w w' (Examples.pointerAt 40) (reachable_of_run _ _ _ _ Hrun) El Hd
           Hstep).
Defined.

(** *** Where the handles are drawn *)

(** X28.  Where [render] draws the handles.  On an axis with
    [minYear < maxYear], when both raw bounds resolve within
    [minYear, maxYear] the two progress fractions lie in [0, 1] with the
    start not after the end; a displayed end beyond [maxYear] (bounds are
    not clamped for display) gives a fraction above 1, and a displayed
    start below [minYear] a negative one. *)
Theorem handles_are_drawn_in_order_within_the_slider (s : Timeline.t) :
  Timeline.minYear s < Timeline.maxYear s ->
  (Timeline.minYear s <= Timeline.getYearUI s (Timeline.startYearRaw s)
     <= Timeline.maxYear s ->
   Timeline.minYear s <= Timeline.getYearUI s (Timeline.endYearRaw s)
     <= Timeline.maxYear s ->
   0 <= Timeline.startYearProgress s
   /\ Timeline.startYearProgress s <= Timeline.endYearProgress s
   /\ Timeline.endYearProgress s <= 1)
  /\ (Timeline.maxYear s < Timeline.endYearUI s ->
      1 < Timeline.endYearProgress s)
  /\ (Timeline.startYearUI s < Timeline.minYear s ->
      Timeline.startYearProgress s < 0).
Proof.
  intro Hlt.
  assert (Hd : 0 < Timeline.maxYear s - Timeline.minYear s) by lra.
  unfold Timeline.startYearProgress, Timeline.endYearProgress.
  split; [| split].
  - intros Hs He.
    assert (Hle : Timeline.minYear s <= Timeline.maxYear s) by lra.
    destruct (getYearUI_Math_min s (Timeline.startYearRaw s)
                (Timeline.endYearRaw s) Hle Hs He) as [E1 E2].
    unfold Timeline.startYearUI, Timeline.endYearUI, Timeline.startYear,
      Timeline.endYear.
    set (a := Timeline.getYearUI s
                (Math_min (Timeline.startYearRaw s) (Timeline.endYearRaw s)))
      in *.
    set (b := Timeline.getYearUI s
                (Math_max (Timeline.startYearRaw s) (Timeline.endYearRaw s)))
      in *.
    assert (Hab : Timeline.minYear s <= a /\ a <= b
                  /\ b <= Timeline.maxYear s).
    { destruct (Q.min_spec (Timeline.getYearUI s (Timeline.startYearRaw s))
                  (Timeline.getYearUI s (Timeline.endYearRaw s)))
        as [[L1 M1] | [L1 M1]];
        destruct (Q.max_spec (Timeline.getYearUI s (Timeline.startYearRaw s))
                    (Timeline.getYearUI s (Timeline.endYearRaw s)))
          as [[L2 M2] | [L2 M2]];
        rewrite M1 in E1; rewrite M2 in E2; lra. }
    destruct Hab as (H1 & H2 & H3).
    split; [| split].
    + apply Qle_shift_div_l; [exact Hd | lra].
    + unfold Qdiv. apply Qmult_le_compat_r; [lra |].
      apply Qinv_le_0_compat. lra.
    + apply Qle_shift_div_r; [exact Hd | lra].
  - intro Hover. apply Qlt_shift_div_l; [exact Hd | lra].
  - intro Hunder. apply Qlt_shift_div_r; [exact Hd | lra].
Qed.

(** The range (1995, 2005) on the axis 1990 to 2010 is drawn from a quarter
    to three quarters of the slider. *)
Lemma handles_are_drawn_in_order_within_the_slider_witness :
  0 <= Timeline.startYearProgress
         (Examples.timelineOf Examples.axis (concrete 1995) (concrete 2005))
  /\ Timeline.endYearProgress
       (Examples.timelineOf Examples.axis (concrete 1995) (concrete 2005))
     <= 1.
Proof.
  destruct (handles_are_drawn_in_order_within_the_slider
              (Examples.timelineOf Examples.axis (concrete 1995)
                 (concrete 2005))) as [H _].
  - vm_compute. reflexivity.
  - destruct H as (H0 & _ & H1).
    + split; vm_compute; discriminate.
    + split; vm_compute; discriminate.
    + split; assumption.
Defined.

(** *** A playback run on the page *)

Lemma Timeline_playFrame_playing
    (lastTime : option Time) (time : Time) (s s' : Timeline.t)
    (next : option Time) :
  Timeline.isPlaying s = true ->
  Timeline.playFrame lastTime time s = Some (s', next) ->
  next = Some time.
Proof.
  intros Hp. unfold Timeline.playFrame. rewrite Hp. cbn [negb].
  destruct lastTime as [lt |].
  - destruct (Qle_bool (Timeline.maxYear s) (Timeline.endYearUI s)).
    + intro H. now injection H.
    + destruct (Util.at_index (Timeline.years s)
                  (Util.indexOf (Timeline.years s) (Timeline.endYearUI s) + 1));
        [| discriminate].
      intro H. now injection H.
  - destruct (Qle_bool (Timeline.maxYear s) (Timeline.endYearUI s));
      intro H; now injection H.
Qed.


Lemma runTimers_clears_timer (w : Page.t) :
  Page.targetPending (Page.runTimers w) = false.
Proof.
  unfold Page.runTimers.
  destruct (Page.targetPending w) eqn:E; [| exact E].
  destruct (Page.isMounted w); reflexivity.
Qed.

Lemma invalidate_onTargetChange_fields (w : Page.t) :
  Page.timeline (Page.invalidate_onTargetChange w) = Page.timeline w
  /\ Page.lifecycle (Page.invalidate_onTargetChange w) = Page.lifecycle w
  /\ Page.frameCallbacks (Page.invalidate_onTargetChange w)
     = Page.frameCallbacks w
  /\ Page.nextHandle (Page.invalidate_onTargetChange w) = Page.nextHandle w.
Proof.
  unfold Page.invalidate_onTargetChange.
  destruct (Page.targetSeen w) as [seen |]; [| repeat split].
  destruct (Page.pair_eqb seen (Page.target w)); repeat split.
Qed.

(** What a handled event leaves once the timers have run. *)
Lemma after_timers (w : Page.t) :
  Page.timeline (Page.runTimers (Page.invalidate_onTargetChange w))
  = Page.timeline w
  /\ Page.lifecycle (Page.runTimers (Page.invalidate_onTargetChange w))
     = Page.lifecycle w
  /\ Page.frameCallbacks (Page.runTimers (Page.invalidate_onTargetChange w))
     = Page.frameCallbacks w
  /\ Page.nextHandle (Page.runTimers (Page.invalidate_onTargetChange w))
     = Page.nextHandle w
  /\ Page.targetPending (Page.runTimers (Page.invalidate_onTargetChange w))
     = false.
Proof.
  destruct (runTimers_fields (Page.invalidate_onTargetChange w))
    as (Et & El & _ & Ef & En).
  destruct (invalidate_onTargetChange_fields w) as (It & Il & If' & In').
  rewrite Et, El, Ef, En, It, Il, If', In'.
  repeat split. apply runTimers_clears_timer.
Qed.

(** The toggle, on a mounted component that is not playing: the reaction to
    [isPlaying] runs [onStartPlaying], which requests a [playFrame] whose
    [lastTime] is undefined. *)
Lemma toggle_starts_playback
    (getBoundFromTimeRange : Time * Time -> Time -> TimeBound) (w : Page.t) :
  Page.lifecycle w = Page.mounted ->
  Timeline.isPlaying (Page.timeline w) = false ->
  TimelineProps.disablePlay (Timeline.props (Page.timeline w)) = false ->
  exists w1,
    Page.step getBoundFromTimeRange w Page.clickToggle = Some w1
    /\ Page.lifecycle w1 = Page.mounted
    /\ Page.targetPending w1 = false
    /\ Page.nextHandle w1 = S (Page.nextHandle w)
    /\ Page.frameCallbacks w1
       = Page.frameCallbacks w
         ++ [(Page.nextHandle w, Page.playFrame_callback None)]
    /\ Page.timeline w1
       = Timeline.set_animRequest (Some (Page.nextHandle w))
           (Timeline.set_isPlaying true (Page.timeline w)).
Proof.
  intros El Hp Hd.
  destruct w as [s lc nh fr db calls seen pend cons].
  cbn in El, Hp, Hd. subst lc.
  unfold Page.step, Page.handle. page_simpl. rewrite Hd.
  unfold Page.action, Page.on_timeline, Timeline.onTogglePlay. page_simpl.
  rewrite Hp. page_simpl.
  unfold Page.reactions. page_simpl. rewrite Hp. page_simpl.
  unfold Page.reaction_playing. page_simpl.
  unfold Page.onStartPlaying, Page.requestAnimationFrame. page_simpl.
  unfold Page.reaction_debounce, Page.reaction_lock, Timeline.lockToClosest.
  page_simpl.
  eexists. split; [reflexivity |].
  match goal with
  | |- context [Page.runTimers (Page.invalidate_onTargetChange ?x)] =>
      destruct (after_timers x) as (Rt & Rl & Rf & Rn & Rp);
      rewrite ?Rt, ?Rl, ?Rf, ?Rn, ?Rp
  end.
  repeat split.
Qed.

(** One frame of a run: the only pending callback is the [playFrame] of the
    run and the component is playing.  The page runs the body of the
    closure on the component, requests the next frame with [lastTime] set to
    the time of this one, and lets the reactions run. *)
Lemma playback_tick
    (getBoundFromTimeRange : Time * Time -> Time -> TimeBound)
    (w : Page.t) (h : nat) (lastTime : option Time) (time : Time) :
  Page.lifecycle w = Page.mounted ->
  Page.targetPending w = false ->
  Timeline.isPlaying (Page.timeline w) = true ->
  Page.frameCallbacks w = [(h, Page.playFrame_callback lastTime)] ->
  match Timeline.playFrame lastTime time (Page.timeline w) with
  | None =>
      Page.step getBoundFromTimeRange w (Page.animationFrame time) = None
  | Some (s', _) =>
      exists w',
        Page.step getBoundFromTimeRange w (Page.animationFrame time)
        = Some w'
        /\ Page.lifecycle w' = Page.mounted
        /\ Page.targetPending w' = false
        /\ Timeline.isPlaying (Page.timeline w') = Timeline.isPlaying s'
        /\ (Timeline.isPlaying s' = true ->
            Page.timeline w'
            = Timeline.set_animRequest (Some (Page.nextHandle w)) s'
            /\ Page.frameCallbacks w'
               = [(Page.nextHandle w, Page.playFrame_callback (Some time))])
        /\ (Timeline.isPlaying s' = false ->
            Page.timeline w'
            = Timeline.lockToClosest
                (Timeline.set_animRequest (Some (Page.nextHandle w)) s')
            /\ Page.frameCallbacks w' = [])
  end.
Proof.
  intros El Hpend Hp Hf.
  destruct w as [s lc nh fr db calls seen pend cons].
  cbn in El, Hpend, Hp, Hf. subst lc fr pend.
  unfold Page.step, Page.handle. page_simpl.
  cbn [Page.runFrame].
  unfold Page.lookupCallback. page_simpl.
  cbn [find fst]. rewrite Nat.eqb_refl.
  unfold Page.runCallback, Page.action, Page.playFrame,
    Page.cancelAnimationFrame.
  page_simpl.
  destruct (Timeline.playFrame lastTime time s) as [[s' next] |] eqn:Et;
    [| reflexivity].
  pose proof (Timeline_playFrame_playing _ _ _ _ _ Hp Et) as ->.
  pose proof (Timeline_playFrame_keeps_dragTarget _ _ _ _ _ Et) as Ed.
  rewrite filter_only_frame.
  unfold Page.requestAnimationFrame. page_simpl.
  unfold Page.reactions. page_simpl.
  rewrite Hp. unfold Timeline.isDragging. page_simpl.
  rewrite Ed, xorb_nilpotent, orb_false_r.
  destruct (Timeline.isPlaying s') eqn:Hp'; page_simpl.
  - eexists. split; [reflexivity |].
    match goal with
    | |- context [Page.runTimers (Page.invalidate_onTargetChange ?x)] =>
        destruct (after_timers x) as (Rt & Rl & Rf & Rn & Rp);
        rewrite ?Rt, ?Rl, ?Rf, ?Rn, ?Rp
    end.
    page_simpl. split; [reflexivity |]. split; [reflexivity |].
    split; [exact Hp' |].
    split; [intros _; split; reflexivity | discriminate].
  - unfold Page.reaction_playing. page_simpl.
    rewrite Hp'.
    unfold Page.onStopPlaying, Page.cancelAnimationFrame.
    page_simpl. rewrite filter_only_frame.
    unfold Page.reaction_debounce, Page.reaction_lock. page_simpl.
    eexists. split; [reflexivity |].
    match goal with
    | |- context [Page.runTimers (Page.invalidate_onTargetChange ?x)] =>
        destruct (after_timers x) as (Rt & Rl & Rf & Rn & Rp);
        rewrite ?Rt, ?Rl, ?Rf, ?Rn, ?Rp
    end.
    page_simpl. split; [reflexivity |]. split; [reflexivity |].
    split.
    { rewrite (proj1 (lockToClosest_keeps_mode _)). exact Hp'. }
    split; [discriminate | intros _; split; reflexivity].
Qed.

(** With no frame pending and no timer set, animation frames change
    nothing. *)
Lemma idle_frames_change_nothing
    (getBoundFromTimeRange : Time * Time -> Time -> TimeBound) (w : Page.t) :
  Page.targetPending w = false ->
  Page.frameCallbacks w = [] ->
  forall times : list Time,
    Page.run getBoundFromTimeRange w (map Page.animationFrame times) = Some w.
Proof.
  intros Hpend Hf times.
  induction times as [| t times IH]; cbn [map Page.run]; [reflexivity |].
  assert (Hs : Page.step getBoundFromTimeRange w (Page.animationFrame t)
               = Some w).
  { unfold Page.step, Page.handle.
    assert (Hr : Page.runFrame getBoundFromTimeRange t
                   (map fst (Page.frameCallbacks w)) w = Some w)
      by (rewrite Hf; reflexivity).
    destruct (Page.lifecycle w); rewrite Hr;
      unfold Page.runTimers; rewrite Hpend; reflexivity. }
  rewrite Hs. exact IH.
Qed.

(** Frames alone keep a run in shape: the component is playing and the only
    pending callback is its [playFrame], with [lastTime] defined, or it has
    stopped and nothing is pending. *)
Lemma playback_frames_keep_shape
    (getBoundFromTimeRange : Time * Time -> Time -> TimeBound)
    (times : list Time) :
  forall w w' : Page.t,
    Page.lifecycle w = Page.mounted ->
    Page.targetPending w = false ->
    (Timeline.isPlaying (Page.timeline w) = true
     /\ exists h (lt : Time),
          Page.frameCallbacks w = [(h, Page.playFrame_callback (Some lt))])
    \/ (Timeline.isPlaying (Page.timeline w) = false
        /\ Page.frameCallbacks w = []) ->
    Page.run getBoundFromTimeRange w (map Page.animationFrame times)
    = Some w' ->
    Page.lifecycle w' = Page.mounted
    /\ Page.targetPending w' = false
    /\ ((Timeline.isPlaying (Page.timeline w') = true
         /\ exists h (lt : Time),
              Page.frameCallbacks w'
              = [(h, Page.playFrame_callback (Some lt))])
        \/ (Timeline.isPlaying (Page.timeline w') = false
            /\ Page.frameCallbacks w' = [])).
Proof.
  induction times as [| t times IH]; intros w w' El Hpend Hshape;
    cbn [map Page.run].
  - intros [= <-]. split; [exact El |]. split; [exact Hpend | exact Hshape].
  - destruct Hshape as [(Hp & h & lt & Hf) | (Hp & Hf)].
    + pose proof (playback_tick getBoundFromTimeRange w h (Some lt) t El
                    Hpend Hp Hf) as Ht.
      destruct (Timeline.playFrame (Some lt) t (Page.timeline w))
        as [[s' next] |]; [| rewrite Ht; discriminate].
      destruct Ht as (w1 & -> & El1 & Hpend1 & Ep1 & Hplay & Hstop).
      apply IH; [exact El1 | exact Hpend1 |].
      destruct (Timeline.isPlaying s') eqn:Hp'.
      * left. split; [exact Ep1 |].
        exists (Page.nextHandle w), t. apply (Hplay eq_refl).
      * right. split; [exact Ep1 |]. apply (Hstop eq_refl).
    + pose proof (idle_frames_change_nothing getBoundFromTimeRange w Hpend Hf
                    [t]) as Hs.
      cbn [map Page.run] in Hs.
      destruct (Page.step getBoundFromTimeRange w (Page.animationFrame t))
        as [w1 |]; [| discriminate].
      injection Hs as ->.
      apply IH; [exact El | exact Hpend |].
      right. split; assumption.
Qed.



(** The browser runs a pending [playFrame] whose [lastTime] is undefined,
    on a component that is playing, mounted or not. *)
Lemma first_playFrame_rewinds_or_waits
    (getBoundFromTimeRange : Time * Time -> Time -> TimeBound)
    (w : Page.t) (h : nat) (time : Time) :
  Timeline.isPlaying (Page.timeline w) = true ->
  exists w',
    Page.runCallback getBoundFromTimeRange time (Page.playFrame_callback None)
      (Page.cancelAnimationFrame h w) = Some w'
    /\ Timeline.isPlaying (Page.timeline w') = true
    /\ Page.frameCallbacks w'
       = Page.frameCallbacks (Page.cancelAnimationFrame h w)
         ++ [(Page.nextHandle w, Page.playFrame_callback (Some time))]
    /\ (Timeline.maxYear (Page.timeline w)
        <= Timeline.endYearUI (Page.timeline w) ->
        Timeline.startYearRaw (Page.timeline w')
        = concrete (Timeline.minYear (Page.timeline w))
        /\ Timeline.endYearRaw (Page.timeline w')
           = concrete (Timeline.minYear (Page.timeline w)))
    /\ (Timeline.endYearUI (Page.timeline w)
        < Timeline.maxYear (Page.timeline w) ->
        Timeline.startYearRaw (Page.timeline w')
        = Timeline.startYearRaw (Page.timeline w)
        /\ Timeline.endYearRaw (Page.timeline w')
           = Timeline.endYearRaw (Page.timeline w)).
Proof.
  intro Hp.
  destruct w as [s lc nh fr db calls seen pend cons]. cbn in Hp.
  unfold Page.runCallback, Page.action, Page.playFrame,
    Page.cancelAnimationFrame.
  page_simpl.
  assert (Hfirst :
            exists s',
              Timeline.playFrame None time s = Some (s', Some time)
              /\ Timeline.isPlaying s' = true
              /\ Timeline.dragTarget s' = Timeline.dragTarget s
              /\ (Timeline.maxYear s <= Timeline.endYearUI s ->
                  Timeline.startYearRaw s' = concrete (Timeline.minYear s)
                  /\ Timeline.endYearRaw s' = concrete (Timeline.minYear s))
              /\ (Timeline.endYearUI s < Timeline.maxYear s ->
                  Timeline.startYearRaw s' = Timeline.startYearRaw s
                  /\ Timeline.endYearRaw s' = Timeline.endYearRaw s)).
  { destruct (Qlt_le_dec (Timeline.endYearUI s) (Timeline.maxYear s))
      as [Hlt | Hle].
    - exists s. split; [now apply playFrame_first_before_end |].
      split; [exact Hp |]. split; [reflexivity |].
      split; [intro Hc; lra | intros _; split; reflexivity].
    - eexists. split; [now apply playFrame_first_at_end |].
      split; [exact Hp |]. split; [reflexivity |].
      split; [intros _; split; reflexivity | intro Hc; lra]. }
  destruct Hfirst as (s' & -> & Hp' & Ed & Hrew & Hkeep).
  unfold Page.requestAnimationFrame. page_simpl.
  eexists. split; [reflexivity |].
  unfold Page.reactions. page_simpl.
  destruct lc; page_simpl;
    try (split; [exact Hp' |]; split; [reflexivity |];
         split; [exact Hrew | exact Hkeep]).
  rewrite Hp, Hp'. unfold Timeline.isDragging. page_simpl.
  rewrite Ed, xorb_nilpotent. cbn [xorb orb].
  match goal with
  | |- context [Page.invalidate_onTargetChange ?x] =>
      destruct (invalidate_onTargetChange_fields x) as (It & _ & If' & _);
      rewrite !It, If'
  end.
  page_simpl.
  split; [exact Hp' |]. split; [reflexivity |].
  split; [exact Hrew | exact Hkeep].
Qed.

(** The browser runs a pending [playFrame] whose [lastTime] is defined, on
    a component that is playing with the displayed end at or past
    [maxYear]. *)
Lemma later_playFrame_stops_at_end
    (getBoundFromTimeRange : Time * Time -> Time -> TimeBound)
    (w : Page.t) (h : nat) (lastTime time : Time) :
  Timeline.isPlaying (Page.timeline w) = true ->
  Timeline.maxYear (Page.timeline w) <= Timeline.endYearUI (Page.timeline w) ->
  exists w',
    Page.runCallback getBoundFromTimeRange time
      (Page.playFrame_callback (Some lastTime))
      (Page.cancelAnimationFrame h w) = Some w'
    /\ Timeline.isPlaying (Page.timeline w') = false
    /\ (Page.lifecycle w = Page.mounted ->
        Page.timeline w'
        = Timeline.lockToClosest
            (Timeline.set_animRequest (Some (Page.nextHandle w))
               (Timeline.set_isPlaying false (Page.timeline w)))
        /\ forall cb, ~ In (Page.nextHandle w, cb) (Page.frameCallbacks w'))
    /\ (Page.lifecycle w <> Page.mounted ->
        Page.timeline w'
        = Timeline.set_animRequest (Some (Page.nextHandle w))
            (Timeline.set_isPlaying false (Page.timeline w))).
Proof.
  intros Hp Hend.
  destruct w as [s lc nh fr db calls seen pend cons]. cbn in Hp, Hend.
  unfold Page.runCallback, Page.action, Page.playFrame,
    Page.cancelAnimationFrame.
  page_simpl.
  rewrite (playFrame_later_at_end s lastTime time Hp Hend).
  unfold Page.requestAnimationFrame. page_simpl.
  eexists. split; [reflexivity |].
  unfold Page.reactions. page_simpl.
  destruct lc; page_simpl;
    try (split; [reflexivity |];
         split; [discriminate | intros _; reflexivity]).
  rewrite Hp. page_simpl.
  unfold Page.reaction_playing. page_simpl.
  unfold Page.onStopPlaying, Page.cancelAnimationFrame. page_simpl.
  unfold Page.reaction_debounce, Page.reaction_lock. page_simpl.
  match goal with
  | |- context [Page.invalidate_onTargetChange ?x] =>
      destruct (invalidate_onTargetChange_fields x) as (It & _ & If' & _);
      rewrite !It, If'
  end.
  page_simpl.
  split; [now rewrite (proj1 (lockToClosest_keeps_mode _)) |].
  split; [| intro Hc; congruence].
  intros _. split; [reflexivity |].
  intros cb Hin. apply filter_In in Hin as [_ Hne].
  cbn [fst] in Hne. rewrite Nat.eqb_refl in Hne. discriminate.
Qed.

(** The browser runs a pending [playFrame] on a component that is not
    playing: nothing changes on the component and no frame is requested. *)
Lemma playFrame_after_stop_does_nothing
    (getBoundFromTimeRange : Time * Time -> Time -> TimeBound)
    (w : Page.t) (h : nat) (lastTime : option Time) (time : Time) :
  Timeline.isPlaying (Page.timeline w) = false ->
  exists w',
    Page.runCallback getBoundFromTimeRange time
      (Page.playFrame_callback lastTime)
      (Page.cancelAnimationFrame h w) = Some w'
    /\ Page.timeline w' = Page.timeline w
    /\ Page.frameCallbacks w'
       = Page.frameCallbacks (Page.cancelAnimationFrame h w).
Proof.
  intro Hp.
  destruct w as [s lc nh fr db calls seen pend cons]. cbn in Hp.
  unfold Page.runCallback, Page.action, Page.playFrame,
    Page.cancelAnimationFrame.
  page_simpl.
  rewrite (playFrame_not_playing s lastTime time Hp).
  eexists. split; [reflexivity |].
  unfold Page.reactions. page_simpl.
  destruct lc; page_simpl; try (split; reflexivity).
  rewrite !xorb_nilpotent. cbn [orb].
  match goal with
  | |- context [Page.invalidate_onTargetChange ?x] =>
      destruct (invalidate_onTargetChange_fields x) as (It & _ & If' & _);
      rewrite !It, If'
  end.
  split; reflexivity.
Qed.

(** A whole run, the animation frames alone: from the toggle through the
    first frame to the frame that stops the playback. *)
Lemma playback_run_of_frames
    (getBoundFromTimeRange : Time * Time -> Time -> TimeBound)
    (w0 : Page.t) (t0 : Time) :
  Page.lifecycle w0 = Page.mounted ->
  Timeline.isPlaying (Page.timeline w0) = false ->
  TimelineProps.disablePlay (Timeline.props (Page.timeline w0)) = false ->
  Page.frameCallbacks w0 = [] ->
  exists w1 w2 : Page.t,
    Page.step getBoundFromTimeRange w0 Page.clickToggle = Some w1
    /\ Timeline.isPlaying (Page.timeline w1) = true
    /\ Page.frameCallbacks w1
       = [(Page.nextHandle w0, Page.playFrame_callback None)]
    /\ Page.step getBoundFromTimeRange w1 (Page.animationFrame t0) = Some w2
    /\ Timeline.isPlaying (Page.timeline w2) = true
    /\ Page.frameCallbacks w2
       = [(S (Page.nextHandle w0), Page.playFrame_callback (Some t0))]
    /\ (Timeline.maxYear (Page.timeline w0)
        <= Timeline.endYearUI (Page.timeline w0) ->
        Timeline.startYearRaw (Page.timeline w2)
        = concrete (Timeline.minYear (Page.timeline w0))
        /\ Timeline.endYearRaw (Page.timeline w2)
           = concrete (Timeline.minYear (Page.timeline w0)))
    /\ (Timeline.endYearUI (Page.timeline w0)
        < Timeline.maxYear (Page.timeline w0) ->
        Timeline.startYearRaw (Page.timeline w2)
        = Timeline.startYearRaw (Page.timeline w0)
        /\ Timeline.endYearRaw (Page.timeline w2)
           = Timeline.endYearRaw (Page.timeline w0))
    /\ forall (times : list Time) (w : Page.t) (t : Time),
         Page.run getBoundFromTimeRange w2 (map Page.animationFrame times)
         = Some w ->
         Timeline.isPlaying (Page.timeline w) = true ->
         Timeline.maxYear (Page.timeline w)
         <= Timeline.endYearUI (Page.timeline w) ->
         exists w' : Page.t,
           Page.step getBoundFromTimeRange w (Page.animationFrame t)
           = Some w'
           /\ Timeline.isPlaying (Page.timeline w') = false
           /\ Page.frameCallbacks w' = []
           /\ Page.timeline w'
              = Timeline.lockToClosest
                  (Timeline.set_animRequest (Some (Page.nextHandle w))
                     (Timeline.set_isPlaying false (Page.timeline w)))
           /\ forall times' : list Time,
                Page.run getBoundFromTimeRange w'
                  (map Page.animationFrame times') = Some w'.
Proof.
  intros El Hp Hd Hf.
  destruct (toggle_starts_playback getBoundFromTimeRange w0 El Hp Hd)
    as (w1 & Hs1 & El1 & Hpend1 & Hn1 & Hf1 & Ht1).
  rewrite Hf in Hf1. cbn [app] in Hf1.
  assert (Hp1 : Timeline.isPlaying (Page.timeline w1) = true)
    by (rewrite Ht1; reflexivity).
  pose proof (playback_tick getBoundFromTimeRange w1 (Page.nextHandle w0) None
                t0 El1 Hpend1 Hp1 Hf1) as Htick.
  assert (Hfirst :
            exists s',
              Timeline.playFrame None t0 (Page.timeline w1)
              = Some (s', Some t0)
              /\ Timeline.isPlaying s' = true
              /\ (Timeline.maxYear (Page.timeline w0)
                  <= Timeline.endYearUI (Page.timeline w0) ->
                  Timeline.startYearRaw s'
                  = concrete (Timeline.minYear (Page.timeline w0))
                  /\ Timeline.endYearRaw s'
                     = concrete (Timeline.minYear (Page.timeline w0)))
              /\ (Timeline.endYearUI (Page.timeline w0)
                  < Timeline.maxYear (Page.timeline w0) ->
                  Timeline.startYearRaw s'
                  = Timeline.startYearRaw (Page.timeline w0)
                  /\ Timeline.endYearRaw s'
                     = Timeline.endYearRaw (Page.timeline w0))).
  { assert (Emax : Timeline.maxYear (Page.timeline w1)
                   = Timeline.maxYear (Page.timeline w0))
      by (rewrite Ht1; reflexivity).
    assert (Emin : Timeline.minYear (Page.timeline w1)
                   = Timeline.minYear (Page.timeline w0))
      by (rewrite Ht1; reflexivity).
    assert (Eui : Timeline.endYearUI (Page.timeline w1)
                  = Timeline.endYearUI (Page.timeline w0))
      by (rewrite Ht1; reflexivity).
    destruct (Qlt_le_dec (Timeline.endYearUI (Page.timeline w0))
                (Timeline.maxYear (Page.timeline w0))) as [Hlt | Hle].
    - exists (Page.timeline w1).
      split; [apply playFrame_first_before_end;
              [exact Hp1 | rewrite Emax, Eui; exact Hlt] |].
      split; [exact Hp1 |]. split; [intro Hc; lra |].
      intros _. rewrite Ht1. split; reflexivity.
    - eexists.
      split; [apply playFrame_first_at_end;
              [exact Hp1 | rewrite Emax, Eui; exact Hle] |].
      split; [exact Hp1 |].
      split; [intros _; rewrite Emin; split; reflexivity | intro Hc; lra]. }
  destruct Hfirst as (s' & Es' & Hp' & Hrew & Hkeep).
  rewrite Es' in Htick.
  destruct Htick as (w2 & Hs2 & El2 & Hpend2 & Ep2 & Hplay & _).
  destruct (Hplay Hp') as (Ht2 & Hf2).
  exists w1, w2.
  split; [exact Hs1 |]. split; [exact Hp1 |]. split; [exact Hf1 |].
  split; [exact Hs2 |]. split; [congruence |].
  split; [rewrite Hf2, Hn1; reflexivity |].
  split; [intro Hc; rewrite Ht2; exact (Hrew Hc) |].
  split; [intro Hc; rewrite Ht2; exact (Hkeep Hc) |].
  intros times w t Hrun Hpw Hend.
  destruct (playback_frames_keep_shape getBoundFromTimeRange times w2 w El2
              Hpend2) as (Elw & Hpendw & Hshape); [| exact Hrun |].
  { left. split; [congruence |].
    exists (Page.nextHandle w1), t0. exact Hf2. }
  destruct Hshape as [(_ & h & lt & Hfw) | (Hc & _)]; [| congruence].
  pose proof (playback_tick getBoundFromTimeRange w h (Some lt) t Elw Hpendw
                Hpw Hfw) as Htick.
  rewrite (playFrame_later_at_end (Page.timeline w) lt t Hpw Hend) in Htick.
  destruct Htick as (w' & Hs' & El' & Hpend' & Ep' & _ & Hstop).
  destruct (Hstop eq_refl) as (Ht' & Hf').
  exists w'. split; [exact Hs' |].
  split; [rewrite Ep'; reflexivity |]. split; [exact Hf' |].
  split; [exact Ht' |].
  exact (idle_frames_change_nothing getBoundFromTimeRange w' Hpend' Hf').
Qed.


(** C3.  Playback runs on the page.  (1) The toggle on a mounted component
    that is not playing starts a run: the raw bounds stay, and one
    [playFrame] is requested whose [lastTime] is undefined.  (2) Whenever
    the browser runs a pending [playFrame] with [lastTime] undefined on a
    playing component, the first tick of a run, both raw bounds are rewound
    to [minYear] if the displayed end was at or past [maxYear] and no bound
    changes otherwise, so the first tick never advances; the component keeps
    playing and the next [playFrame] is requested with [lastTime] defined.
    (3) Whenever the browser runs a pending [playFrame] with [lastTime]
    defined on a playing component whose displayed end is at or past
    [maxYear], [isPlaying] becomes false and nothing advances: mounted, the
    component is left as the lock to the closest year leaves it and the
    frame this tick requested is cancelled.  (4) A [playFrame] that runs on
    a component that is not playing changes nothing and requests nothing.
    (5) For a run of animation frames alone, from a mounted component with
    no frame pending: the toggle leaves exactly the [playFrame] with
    [lastTime] undefined pending, the first frame runs it as in (2), and
    after any number of further frames a frame that finds the component
    playing with the displayed end at or past [maxYear] stops the playback,
    leaves no frame pending, and every later frame leaves the page as it
    is. *)
Theorem playback_run_rewinds_first_and_stops_at_end
    (getBoundFromTimeRange : Time * Time -> Time -> TimeBound) :
  (forall w : Page.t,
     Page.lifecycle w = Page.mounted ->
     Timeline.isPlaying (Page.timeline w) = false ->
     TimelineProps.disablePlay (Timeline.props (Page.timeline w)) = false ->
     exists w1,
       Page.step getBoundFromTimeRange w Page.clickToggle = Some w1
       /\ Timeline.isPlaying (Page.timeline w1) = true
       /\ Page.frameCallbacks w1
          = Page.frameCallbacks w
            ++ [(Page.nextHandle w, Page.playFrame_callback None)]
       /\ Timeline.startYearRaw (Page.timeline w1)
          = Timeline.startYearRaw (Page.timeline w)
       /\ Timeline.endYearRaw (Page.timeline w1)
          = Timeline.endYearRaw (Page.timeline w))
  /\ (forall (w : Page.t) (h : nat) (time : Time),
        Timeline.isPlaying (Page.timeline w) = true ->
        exists w',
          Page.runCallback getBoundFromTimeRange time
            (Page.playFrame_callback None) (Page.cancelAnimationFrame h w)
          = Some w'
          /\ Timeline.isPlaying (Page.timeline w') = true
          /\ Page.frameCallbacks w'
             = Page.frameCallbacks (Page.cancelAnimationFrame h w)
               ++ [(Page.nextHandle w, Page.playFrame_callback (Some time))]
          /\ (Timeline.maxYear (Page.timeline w)
              <= Timeline.endYearUI (Page.timeline w) ->
              Timeline.startYearRaw (Page.timeline w')
              = concrete (Timeline.minYear (Page.timeline w))
              /\ Timeline.endYearRaw (Page.timeline w')
                 = concrete (Timeline.minYear (Page.timeline w)))
          /\ (Timeline.endYearUI (Page.timeline w)
              < Timeline.maxYear (Page.timeline w) ->
              Timeline.startYearRaw (Page.timeline w')
              = Timeline.startYearRaw (Page.timeline w)
              /\ Timeline.endYearRaw (Page.timeline w')
                 = Timeline.endYearRaw (Page.timeline w)))
  /\ (forall (w : Page.t) (h : nat) (lastTime time : Time),
        Timeline.isPlaying (Page.timeline w) = true ->
        Timeline.maxYear (Page.timeline w)
        <= Timeline.endYearUI (Page.timeline w) ->
        exists w',
          Page.runCallback getBoundFromTimeRange time
            (Page.playFrame_callback (Some lastTime))
            (Page.cancelAnimationFrame h w) = Some w'
          /\ Timeline.isPlaying (Page.timeline w') = false
          /\ (Page.lifecycle w = Page.mounted ->
              Page.timeline w'
              = Timeline.lockToClosest
                  (Timeline.set_animRequest (Some (Page.nextHandle w))
                     (Timeline.set_isPlaying false (Page.timeline w)))
              /\ forall cb,
                   ~ In (Page.nextHandle w, cb) (Page.frameCallbacks w'))
          /\ (Page.lifecycle w <> Page.mounted ->
              Page.timeline w'
              = Timeline.set_animRequest (Some (Page.nextHandle w))
                  (Timeline.set_isPlaying false (Page.timeline w))))
  /\ (forall (w : Page.t) (h : nat) (lastTime : option Time) (time : Time),
        Timeline.isPlaying (Page.timeline w) = false ->
        exists w',
          Page.runCallback getBoundFromTimeRange time
            (Page.playFrame_callback lastTime)
            (Page.cancelAnimationFrame h w) = Some w'
          /\ Page.timeline w' = Page.timeline w
          /\ Page.frameCallbacks w'
             = Page.frameCallbacks (Page.cancelAnimationFrame h w))
  /\ (forall (w0 : Page.t) (t0 : Time),
        Page.lifecycle w0 = Page.mounted ->
        Timeline.isPlaying (Page.timeline w0) = false ->
        TimelineProps.disablePlay (Timeline.props (Page.timeline w0))
        = false ->
        Page.frameCallbacks w0 = [] ->
        exists w1 w2 : Page.t,
          Page.step getBoundFromTimeRange w0 Page.clickToggle = Some w1
          /\ Timeline.isPlaying (Page.timeline w1) = true
          /\ Page.frameCallbacks w1
             = [(Page.nextHandle w0, Page.playFrame_callback None)]
          /\ Page.step getBoundFromTimeRange w1 (Page.animationFrame t0)
             = Some w2
          /\ Timeline.isPlaying (Page.timeline w2) = true
          /\ Page.frameCallbacks w2
             = [(S (Page.nextHandle w0), Page.playFrame_callback (Some t0))]
          /\ (Timeline.maxYear (Page.timeline w0)
              <= Timeline.endYearUI (Page.timeline w0) ->
              Timeline.startYearRaw (Page.timeline w2)
              = concrete (Timeline.minYear (Page.timeline w0))
              /\ Timeline.endYearRaw (Page.timeline w2)
                 = concrete (Timeline.minYear (Page.timeline w0)))
          /\ (Timeline.endYearUI (Page.timeline w0)
              < Timeline.maxYear (Page.timeline w0) ->
              Timeline.startYearRaw (Page.timeline w2)
              = Timeline.startYearRaw (Page.timeline w0)
              /\ Timeline.endYearRaw (Page.timeline w2)
                 = Timeline.endYearRaw (Page.timeline w0))
          /\ forall (times : list Time) (w : Page.t) (t : Time),
               Page.run getBoundFromTimeRange w2
                 (map Page.animationFrame times) = Some w ->
               Timeline.isPlaying (Page.timeline w) = true ->
               Timeline.maxYear (Page.timeline w)
               <= Timeline.endYearUI (Page.timeline w) ->
               exists w' : Page.t,
                 Page.step getBoundFromTimeRange w (Page.animationFrame t)
                 = Some w'
                 /\ Timeline.isPlaying (Page.timeline w') = false
                 /\ Page.frameCallbacks w' = []
                 /\ Page.timeline w'
                    = Timeline.lockToClosest
                        (Timeline.set_animRequest (Some (Page.nextHandle w))
                           (Timeline.set_isPlaying false (Page.timeline w)))
                 /\ forall times' : list Time,
                      Page.run getBoundFromTimeRange w'
                        (map Page.animationFrame times') = Some w').
Proof.
  split; [| split; [| split; [| split]]].
  - intros w El Hp Hd.
    destruct (toggle_starts_playback getBoundFromTimeRange w El Hp Hd)
      as (w1 & Hs1 & _ & _ & _ & Hf1 & Ht1).
    exists w1. split; [exact Hs1 |].
    rewrite Ht1. split; [reflexivity |]. split; [exact Hf1 |].
    split; reflexivity.
  - exact (first_playFrame_rewinds_or_waits getBoundFromTimeRange).
  - exact (later_playFrame_stops_at_end getBoundFromTimeRange).
  - exact (playFrame_after_stop_does_nothing getBoundFromTimeRange).
  - exact (playback_run_of_frames getBoundFromTimeRange).
Qed.

(** The component mounted on the range (2000, 2010) of the axis that ends
    at 2010: the toggle and the first frame rewind both raw bounds to
    1990. *)
Lemma playback_run_rewinds_first_and_stops_at_end_witness :
  exists w1 w2 : Page.t,
    Page.step Examples.boundAsGiven
      (Examples.mountedOn Examples.axis (concrete 2000) (concrete 2010))
      Page.clickToggle = Some w1
    /\ Page.step Examples.boundAsGiven w1 (Page.animationFrame 0) = Some w2
    /\ Timeline.startYearRaw (Page.timeline w2) = concrete 1990
    /\ Timeline.endYearRaw (Page.timeline w2) = concrete 1990.
Proof.
  destruct (playback_run_rewinds_first_and_stops_at_end
              Examples.boundAsGiven) as (_ & _ & _ & _ & Hrun).
  destruct (Hrun (Examples.mountedOn Examples.axis (concrete 2000)
                    (concrete 2010)) 0)
    as (w1 & w2 & Hs1 & _ & _ & Hs2 & _ & _ & Hrew & _).
  - reflexivity.
  - reflexivity.
  - reflexivity.
  - reflexivity.
  - exists w1, w2. split; [exact Hs1 |]. split; [exact Hs2 |].
    apply Hrew. vm_compute. discriminate.
Defined.
